(** * Calligraphy-school course manager: the request handlers of the
    Express/Prisma backend, embedded as pure functions on the store.

    Sources embedded here:
    - [backend/src/middleware/auth.js]      ([requireRole])
    - [backend/src/routes/courses.js]       (create, update, delete, enroll, cancel)
    - the packages router                   (list, update, purchase, consume)
    - the attendance router                 (list, create, batch, course statistics)
    - the payments router                   (list)
    - the statistics router                 (the rate fields of the report rows)

    Conventions.  A [Date] is its epoch value in milliseconds ([Z]); ids are
    [string]s; the integer columns are [Z]; money is an exact rational.
    The arithmetic that a handler does on JavaScript numbers is the
    arithmetic of IEEE 754 doubles ([Double]).  A handler takes the authenticated caller ([req.user]), the request
    parameters and the store, and returns the HTTP reply together with the
    store it leaves behind. *)

From Stdlib Require Import ZArith QArith Qround Qabs Qpower Qreduction Lia Lqa.
From stdpp Require Import base gmap sets list strings sorting.

Local Open Scope string_scope.
Local Open Scope Z_scope.

(** ** Enumerations of the schema *)

Inductive Role := ADMIN | TEACHER | STUDENT.

Module CourseStatus.
Inductive t := SCHEDULED | IN_PROGRESS | COMPLETED | CANCELLED.
End CourseStatus.

Module PackageStatus.
Inductive t := ACTIVE | EXPIRED | COMPLETED | CANCELLED.
End PackageStatus.

Module PaymentStatus.
Inductive t := PENDING | PAID | FAILED | REFUNDED.
End PaymentStatus.

Inductive AttendanceStatus := PRESENT | ABSENT | LATE | LEAVE.

Inductive PaymentMethod := CASH | WECHAT | ALIPAY | BANK_TRANSFER.

#[global] Instance Role_eq_dec : EqDecision Role.
Proof. solve_decision. Defined.
#[global] Instance CourseStatus_eq_dec : EqDecision CourseStatus.t.
Proof. solve_decision. Defined.
#[global] Instance PackageStatus_eq_dec : EqDecision PackageStatus.t.
Proof. solve_decision. Defined.
#[global] Instance PaymentStatus_eq_dec : EqDecision PaymentStatus.t.
Proof. solve_decision. Defined.
#[global] Instance AttendanceStatus_eq_dec : EqDecision AttendanceStatus.
Proof. solve_decision. Defined.
#[global] Instance PaymentMethod_eq_dec : EqDecision PaymentMethod.
Proof. solve_decision. Defined.

(** ** Rows of the tables.  The primary key [id] is the key of the table's
    map, not a field of the row.  Free-text columns that no handler inspects
    (description, classroom, notes) are left out. *)

Record User := mkUser {
  u_role : Role
}.

Record Course := mkCourse {
  c_title : string;
  c_teacherId : string;
  c_startTime : Z;
  c_endTime : Z;
  c_maxStudents : Z;
  c_currentStudents : Z;
  c_status : CourseStatus.t
}.

Record CoursePackage := mkCoursePackage {
  p_name : string;
  p_totalHours : Z;
  p_usedHours : Z;
  p_price : Q;
  p_validDays : Z;
  p_status : PackageStatus.t;
  p_studentId : string;
  p_purchasedAt : Z;
  p_expiresAt : Z
}.

Record AttendanceRecord := mkAttendanceRecord {
  a_studentId : string;
  a_courseId : string;
  a_status : AttendanceStatus;
  a_recordedAt : Z
}.

Record Payment := mkPayment {
  pay_amount : Q;
  pay_method : PaymentMethod;
  pay_status : PaymentStatus.t;
  pay_packageId : option string;
  pay_studentId : string;
  pay_paidAt : Z
}.

(** The enrollment table [studentCourse] is addressed by its compound unique
    key [studentId_courseId] only, so it is the set of those keys. *)
Record Store := mkStore {
  users : gmap string User;
  courses : gmap string Course;
  studentCourses : gset (string * string);
  coursePackages : gmap string CoursePackage;
  attendanceRecords : list AttendanceRecord;
  payments : gmap string Payment
}.

Definition set_courses (f : gmap string Course → gmap string Course) (s : Store) : Store :=
  mkStore (users s) (f (courses s)) (studentCourses s) (coursePackages s)
          (attendanceRecords s) (payments s).

Definition set_studentCourses (f : gset (string * string) → gset (string * string))
    (s : Store) : Store :=
  mkStore (users s) (courses s) (f (studentCourses s)) (coursePackages s)
          (attendanceRecords s) (payments s).

Definition set_coursePackages (f : gmap string CoursePackage → gmap string CoursePackage)
    (s : Store) : Store :=
  mkStore (users s) (courses s) (studentCourses s) (f (coursePackages s))
          (attendanceRecords s) (payments s).

Definition set_attendanceRecords (f : list AttendanceRecord → list AttendanceRecord)
    (s : Store) : Store :=
  mkStore (users s) (courses s) (studentCourses s) (coursePackages s)
          (f (attendanceRecords s)) (payments s).

Definition set_payments (f : gmap string Payment → gmap string Payment) (s : Store) : Store :=
  mkStore (users s) (courses s) (studentCourses s) (coursePackages s)
          (attendanceRecords s) (f (payments s)).

(** ** Replies *)

(** The error replies of the handlers, with the status code the handler
    sends.  The message of each is the one in the source. *)
Inductive Error :=
  | ValidationFailed      (* 400, { errors } of express-validator *)
  | Forbidden             (* 403 *)
  | InternalError         (* 500, the catch block *)
  | CourseNotFound        (* 404 *)
  | PackageNotFound       (* 404 *)
  | EnrollmentNotFound    (* 404 *)
  | PackageUnavailable    (* 400, package status is not ACTIVE *)
  | PackageExpired        (* 400 *)
  | InsufficientHours     (* 400 *)
  | EndNotAfterStart      (* 400 *)
  | StartNotInFuture      (* 400 *)
  | TeacherInvalid        (* 400 *)
  | TimeConflict          (* 400 *)
  | CourseNotOpen         (* 400, enroll on a course that is not SCHEDULED *)
  | AlreadyEnrolled       (* 400 *)
  | CourseFull            (* 400 *)
  | CourseStarted         (* 400, cancel on a course that is not SCHEDULED *)
  | CourseNotDeletable    (* 400 *)
  | StudentInvalid        (* 400 *)
  | NotEnrolled           (* 400 *)
  | RecordExists          (* 400 *)
  | SomeStudentInvalid    (* 400, batch *)
  | SomeNotEnrolled       (* 400, batch *)
  | SomeRecordExists      (* 400, batch *).

Definition http_status (e : Error) : Z :=
  match e with
  | Forbidden => 403
  | InternalError => 500
  | CourseNotFound | PackageNotFound | EnrollmentNotFound => 404
  | _ => 400
  end.

Inductive Reply (A : Type) :=
  | Success (body : A)
  | Failure (e : Error).
Arguments Success {A} body.
Arguments Failure {A} e.

(** ** [middleware/auth.js] *)

(** [req.user], the row loaded by [auth]. *)
Record Caller := mkCaller {
  caller_id : string;
  caller_role : Role
}.

(** [roles.includes(req.user.role)] *)
Definition requireRole (roles : list Role) (caller : Caller) : bool :=
  bool_decide (caller_role caller ∈ roles).

(** ** Store statements and [prisma.$transaction] *)

(** A write statement yields the new store, or throws (a Prisma error such
    as P2002 for a unique key that is taken, or P2025 for a missing row). *)
Definition Stmt := Store → option Store.

(** Statements may also fail on the database's own account (lost
    connection, timeout, ...).  A request carries the oracle that tells which
    of the statements of its transaction do: statement [k] throws when
    [faults k] holds. *)
Definition Faults := nat → bool.

Definition no_faults : Faults := λ _, false.

Fixpoint run_stmts (faults : Faults) (k : nat) (stmts : list Stmt) (s : Store)
    : option Store :=
  match stmts with
  | [] => Some s
  | stmt :: rest =>
    if faults k then None
    else match stmt s with
         | Some s' => run_stmts faults (S k) rest s'
         | None => None
         end
  end.

(** [prisma.$transaction(stmts)]: the statements are applied in order and
    committed together; when one throws nothing is committed and the
    exception reaches the handler's [catch]. *)
Definition transaction (faults : Faults) (stmts : list Stmt) (s : Store) : option Store :=
  run_stmts faults 0 stmts s.

(** Statements that a handler awaits one after the other, outside a
    transaction: when statement [k] throws, the statements before it stay
    applied.  The result is the store that is left and whether all
    statements went through. *)
Fixpoint run_each (faults : Faults) (k : nat) (stmts : list Stmt) (s : Store)
    : bool * Store :=
  match stmts with
  | [] => (true, s)
  | stmt :: rest =>
    if faults k then (false, s)
    else match stmt s with
         | Some s' => run_each faults (S k) rest s'
         | None => (false, s)
         end
  end.

(** [prisma.studentCourse.create], unique on [studentId_courseId]. *)
Definition studentCourse_create (key : string * string) : Stmt := λ s,
  if bool_decide (key ∈ studentCourses s) then None
  else Some (set_studentCourses (λ t, {[ key ]} ∪ t) s).

(** [prisma.studentCourse.delete] by [studentId_courseId]. *)
Definition studentCourse_delete (key : string * string) : Stmt := λ s,
  if bool_decide (key ∈ studentCourses s)
  then Some (set_studentCourses (λ t, t ∖ {[ key ]}) s)
  else None.

(** [prisma.course.update({ where: { id }, data })] *)
Definition course_update (id : string) (data : Course → Course) : Stmt := λ s,
  match courses s !! id with
  | Some c => Some (set_courses (insert id (data c)) s)
  | None => None
  end.

(** [prisma.studentCourse.deleteMany({ where: { courseId } })] *)
Definition studentCourse_deleteMany (courseId : string) : Stmt := λ s,
  Some (set_studentCourses (filter (λ key, key.2 ≠ courseId)) s).

(** Modelled from the spec: the Prisma schema is not among the sources, and
    the spec does not say what becomes of the attendance records of a
    course that is deleted.  The referential action of the relation from an
    attendance record to its course is therefore a parameter of the
    delete: [Restrict], Prisma's default for a required relation, under
    which the course cannot be deleted while it has records, or
    [Cascade], under which its records are deleted with it. *)
Inductive OnDelete := Restrict | Cascade.

(** [prisma.course.delete({ where: { id } })], for a course whose
    enrollment links are deleted already. *)
Definition course_delete (onDelete : OnDelete) (id : string) : Stmt := λ s,
  match courses s !! id with
  | None => None
  | Some _ =>
    match onDelete with
    | Restrict =>
      if bool_decide (Forall (λ r, a_courseId r ≠ id) (attendanceRecords s))
      then Some (set_courses (base.delete id) s)
      else None
    | Cascade =>
      Some (set_attendanceRecords (filter (λ r, a_courseId r ≠ id))
              (set_courses (base.delete id) s))
    end
  end.

(** [prisma.coursePackage.create] with the id the store draws for the row. *)
Definition coursePackage_create (id : string) (row : CoursePackage) : Stmt := λ s,
  match coursePackages s !! id with
  | Some _ => None
  | None => Some (set_coursePackages (insert id row) s)
  end.

(** [prisma.payment.create] with the id the store draws for the row. *)
Definition payment_create (id : string) (row : Payment) : Stmt := λ s,
  match payments s !! id with
  | Some _ => None
  | None => Some (set_payments (insert id row) s)
  end.

(** The compound unique key [studentId_courseId] of an attendance record. *)
Definition attendance_key (r : AttendanceRecord) : string * string :=
  (a_studentId r, a_courseId r).

(** [prisma.attendanceRecord.createMany({ data })]: one INSERT; it throws
    when the unique index on [studentId_courseId] would be violated. *)
Definition attendanceRecord_createMany (rows : list AttendanceRecord) : Stmt := λ s,
  if bool_decide (NoDup (attendance_key <$> (attendanceRecords s ++ rows)%list))
  then Some (set_attendanceRecords (λ t, (t ++ rows)%list) s)
  else None.

(** [findFirst]/[findMany] over a table held as a map. *)
Definition findMany {V} (where_ : string * V → bool) (table : gmap string V)
    : list (string * V) :=
  filter (λ kv, where_ kv) (map_to_list table).

Definition findFirst {V} (where_ : string * V → bool) (table : gmap string V)
    : option (string * V) :=
  head (findMany where_ table).

(** Columns whose values come from the defaults of the Prisma schema. *)

(** Modelled from the spec: the schema default of [Course.currentStudents];
    a course starts with an enrolled-count of zero. *)
Definition default_currentStudents : Z := 0.

(** Modelled from the spec: the schema default of [Course.status]; a course
    is created as scheduled. *)
Definition default_courseStatus : CourseStatus.t := CourseStatus.SCHEDULED.

(** Modelled from the spec: the schema default of [CoursePackage.usedHours];
    a package is created with no hours used. *)
Definition default_usedHours : Z := 0.

(** Modelled from the spec: the schema default of [CoursePackage.status]; a
    package is created active. *)
Definition default_packageStatus : PackageStatus.t := PackageStatus.ACTIVE.

(** Modelled from the spec: the schema default of the timestamp columns
    ([purchasedAt], [paidAt], [recordedAt]); a row is stamped with the time
    of the request that creates it. *)
Definition stamped (now : Z) : Z := now.

(** JavaScript truthiness of an optional string parameter:
    [if (studentId) ...] skips both [undefined] and the empty string. *)
Definition truthy (o : option string) : option string :=
  match o with
  | Some x => if bool_decide (x = "") then None else Some x
  | None => None
  end.

(** ** [routes/courses.js] *)

Module Courses.

Record CreateBody := mkCreateBody {
  title : string;
  startTime : Z;
  endTime : Z;
  maxStudents : option Z;
  teacherId : option string
}.

(** The three-armed [OR] of the [conflictingCourse] query, on the time
    window [(s, e)] of a stored course against the requested [start], [end]. *)
Definition overlapOR (start end_ : Z) (c : Course) : bool :=
  ((c_startTime c <=? start) && (start <? c_endTime c))
  || ((c_startTime c <? end_) && (end_ <=? c_endTime c))
  || ((start <=? c_startTime c) && (c_endTime c <=? end_)).

(** The [where] of the [conflictingCourse] query; [self] is the
    [id: { not: id }] of the update handler. *)
Definition conflictWhere (self : option string) (teacher : string) (start end_ : Z)
    (kv : string * Course) : bool :=
  negb (bool_decide (Some kv.1 = self))
  && bool_decide (c_teacherId kv.2 = teacher)
  && bool_decide (c_status kv.2 ∈ [CourseStatus.SCHEDULED; CourseStatus.IN_PROGRESS])
  && overlapOR start end_ kv.2.

Definition conflictingCourse (self : option string) (teacher : string) (start end_ : Z)
    (s : Store) : option (string * Course) :=
  findFirst (conflictWhere self teacher start end_) (courses s).

(** [POST /courses]; [newId] is the id the store draws for the new row. *)
Definition create (now : Z) (newId : string) (caller : Caller) (body : CreateBody)
    (s : Store) : Reply Course * Store :=
  if negb (requireRole [ADMIN; TEACHER] caller) then (Failure Forbidden, s)
  else if bool_decide (title body = "") then (Failure ValidationFailed, s)
  else if negb (from_option (λ m, 1 <=? m) true (maxStudents body))
  then (Failure ValidationFailed, s)
  else
    let maxStudents := default 20 (maxStudents body) in
    let start := startTime body in
    let end_ := endTime body in
    if end_ <=? start then (Failure EndNotAfterStart, s)
    else if start <=? now then (Failure StartNotInFuture, s)
    else
      let finalTeacherId := default (caller_id caller) (truthy (teacherId body)) in
      match users s !! finalTeacherId with
      | None => (Failure TeacherInvalid, s)
      | Some teacher =>
        if negb (bool_decide (u_role teacher = TEACHER)) then (Failure TeacherInvalid, s)
        else
          match conflictingCourse None finalTeacherId start end_ s with
          | Some _ => (Failure TimeConflict, s)
          | None =>
            match courses s !! newId with
            | Some _ => (Failure InternalError, s)
            | None =>
              let course := mkCourse (title body) finalTeacherId start end_ maxStudents
                              default_currentStudents default_courseStatus in
              (Success course, set_courses (insert newId course) s)
            end
          end
      end.

(** The body of [PUT /courses/:id].  The handler hands the whole body to
    [prisma.course.update] ([data: updateData]), so a key that no validator
    names is written as well.  Of the columns of the row, [title],
    [startTime], [endTime], [maxStudents] and [status] have validators;
    [currentStudents] and [teacherId] have none.  Every other key of the
    body (a nested write on the relations [students], [attendanceRecords]
    or [teacher], a key the schema does not know, ...) is [u_others]: what
    Prisma does with it as part of the same update, a write of the store
    or an exception. *)
Record UpdateBody := mkUpdateBody {
  u_title : option string;
  u_startTime : option Z;
  u_endTime : option Z;
  u_maxStudents : option Z;
  u_status : option CourseStatus.t;
  u_currentStudents : option Z;
  u_teacherId : option string;
  u_others : option Stmt
}.

(** The columns of [data: updateData] applied to a row. *)
Definition applyUpdate (b : UpdateBody) (c : Course) : Course :=
  mkCourse (default (c_title c) (u_title b))
           (default (c_teacherId c) (u_teacherId b))
           (default (c_startTime c) (u_startTime b))
           (default (c_endTime c) (u_endTime b))
           (default (c_maxStudents c) (u_maxStudents b))
           (default (c_currentStudents c) (u_currentStudents b))
           (default (c_status c) (u_status b)).

(** [prisma.course.update({ where: { id }, data: updateData })], one
    statement: the columns are written and the other keys of the body
    applied, or nothing is.  It throws when the body names a teacher that
    has no row (the foreign key of the relation [teacher]) and when Prisma
    throws on one of the other keys. *)
Definition course_write (id : string) (updateData : UpdateBody) : Stmt := λ s,
  match courses s !! id with
  | None => None
  | Some c =>
    if negb (from_option (λ t, bool_decide (is_Some (users s !! t))) true
                         (u_teacherId updateData))
    then None
    else
      let s1 := set_courses (insert id (applyUpdate updateData c)) s in
      match u_others updateData with
      | None => Some s1
      | Some others => others s1
      end
  end.

(** [PUT /courses/:id] *)
Definition update (caller : Caller) (id : string) (updateData : UpdateBody)
    (s : Store) : Reply Course * Store :=
  if negb (requireRole [ADMIN; TEACHER] caller) then (Failure Forbidden, s)
  else if bool_decide (u_title updateData = Some "") then (Failure ValidationFailed, s)
  else if negb (from_option (λ m, 1 <=? m) true (u_maxStudents updateData))
  then (Failure ValidationFailed, s)
  else
    match courses s !! id with
    | None => (Failure CourseNotFound, s)
    | Some existingCourse =>
      if negb (bool_decide (c_teacherId existingCourse = caller_id caller))
         && negb (bool_decide (caller_role caller = ADMIN))
      then (Failure Forbidden, s)
      else
        let start := default (c_startTime existingCourse) (u_startTime updateData) in
        let end_ := default (c_endTime existingCourse) (u_endTime updateData) in
        let refusal :=
          if bool_decide (is_Some (u_startTime updateData))
             || bool_decide (is_Some (u_endTime updateData))
          then
            if end_ <=? start then Some EndNotAfterStart
            else if bool_decide (is_Some (conflictingCourse (Some id)
                                            (c_teacherId existingCourse) start end_ s))
            then Some TimeConflict
            else None
          else None in
        match refusal with
        | Some e => (Failure e, s)
        | None =>
          match course_write id updateData s with
          | Some s' => (Success (applyUpdate updateData existingCourse), s')
          | None => (Failure InternalError, s)
          end
        end
    end.

(** [DELETE /courses/:id].  The links and the course are deleted by two
    statements that are awaited in turn and are not in a transaction. *)
Definition delete (onDelete : OnDelete) (faults : Faults) (caller : Caller) (id : string)
    (s : Store) : Reply unit * Store :=
  if negb (requireRole [ADMIN; TEACHER] caller) then (Failure Forbidden, s)
  else
    match courses s !! id with
    | None => (Failure CourseNotFound, s)
    | Some course =>
      if negb (bool_decide (c_teacherId course = caller_id caller))
         && negb (bool_decide (caller_role caller = ADMIN))
      then (Failure Forbidden, s)
      else if bool_decide (c_status course = CourseStatus.IN_PROGRESS)
              || bool_decide (c_status course = CourseStatus.COMPLETED)
      then (Failure CourseNotDeletable, s)
      else
        match run_each faults 0 [ studentCourse_deleteMany id;
                                  course_delete onDelete id ] s with
        | (true, s') => (Success (), s')
        | (false, s') => (Failure InternalError, s')
        end
    end.

(** [currentStudents: { increment: 1 }] *)
Definition incrementStudents (c : Course) : Course :=
  mkCourse (c_title c) (c_teacherId c) (c_startTime c) (c_endTime c)
           (c_maxStudents c) (c_currentStudents c + 1) (c_status c).

(** [currentStudents: { decrement: 1 }] *)
Definition decrementStudents (c : Course) : Course :=
  mkCourse (c_title c) (c_teacherId c) (c_startTime c) (c_endTime c)
           (c_maxStudents c) (c_currentStudents c - 1) (c_status c).

(** [POST /courses/:id/enroll] *)
Definition enroll (faults : Faults) (caller : Caller) (id : string) (s : Store)
    : Reply unit * Store :=
  if negb (requireRole [STUDENT] caller) then (Failure Forbidden, s)
  else
    let studentId := caller_id caller in
    match courses s !! id with
    | None => (Failure CourseNotFound, s)
    | Some course =>
      if negb (bool_decide (c_status course = CourseStatus.SCHEDULED))
      then (Failure CourseNotOpen, s)
      else if bool_decide ((studentId, id) ∈ studentCourses s)
      then (Failure AlreadyEnrolled, s)
      else if c_maxStudents course <=? c_currentStudents course
      then (Failure CourseFull, s)
      else
        match transaction faults
                [ studentCourse_create (studentId, id);
                  course_update id incrementStudents ] s with
        | Some s' => (Success (), s')
        | None => (Failure InternalError, s)
        end
    end.

(** [DELETE /courses/:id/enroll] *)
Definition cancel (faults : Faults) (caller : Caller) (id : string) (s : Store)
    : Reply unit * Store :=
  if negb (requireRole [STUDENT] caller) then (Failure Forbidden, s)
  else
    let studentId := caller_id caller in
    if negb (bool_decide ((studentId, id) ∈ studentCourses s))
    then (Failure EnrollmentNotFound, s)
    else
      match courses s !! id with
      | None => (Failure InternalError, s)     (* [course.status] on null throws *)
      | Some course =>
        if negb (bool_decide (c_status course = CourseStatus.SCHEDULED))
        then (Failure CourseStarted, s)
        else
          match transaction faults
                  [ studentCourse_delete (studentId, id);
                    course_update id decrementStudents ] s with
          | Some s' => (Success (), s')
          | None => (Failure InternalError, s)
          end
      end.

End Courses.

(** ** JavaScript numbers *)

(** A finite double is the rational it denotes.  Every operation yields
    the exact result rounded to the nearest number with a significand of
    53 bits, the one with the even significand when two are equally near
    (roundTiesToEven).  The range of the exponent is not bounded here:
    the counts and percentages of the handlers are far from the largest
    and the smallest double, and so is every page number of fewer than
    309 digits. *)
Module Double.

(** The exponent of [x > 0]: the [e] with [2^e <= x < 2^(e+1)]. *)
Definition exponent (x : Q) : Z :=
  let e := Z.log2 (Qnum x) - Z.log2 (Zpos (Qden x)) in
  if Qle_bool (2 ^ e) x then e else e - 1.

(** The unit in the last place of the doubles at [x > 0]. *)
Definition ulp (x : Q) : Q := (2 ^ (exponent x - 52))%Q.

(** The nearest integer, the even one of two that are equally near. *)
Definition nearestEven (m : Q) : Z :=
  let n := Qfloor m in
  match (m - inject_Z n ?= 1 # 2)%Q with
  | Lt => n
  | Gt => n + 1
  | Eq => if Z.even n then n else n + 1
  end.

Definition round (x : Q) : Q :=
  match (x ?= 0)%Q with
  | Eq => 0%Q
  | Gt => Qred (inject_Z (nearestEven (x / ulp x)) * ulp x)
  | Lt => Qred (- (inject_Z (nearestEven (- x / ulp (- x))) * ulp (- x)))
  end.

(** The number that a string of decimal digits, or an integer of the
    database, denotes ([ToNumber], [parseInt]). *)
Definition ofZ (n : Z) : Q := round (inject_Z n).

Definition sub (a b : Q) : Q := round (a - b).
Definition mul (a b : Q) : Q := round (a * b).
Definition div (a b : Q) : Q := round (a / b).

End Double.

(** [(num / den) * 100], as the handlers compute a percentage from two
    counts. *)
Definition percentage (num den : Z) : Q :=
  Double.mul (Double.div (Double.ofZ num) (Double.ofZ den)) 100.

(** The number of decimal digits of [n > 0]. *)
Fixpoint digitsFrom (fuel : nat) (n : Z) : Z :=
  match fuel with
  | O => 0
  | S fuel => if n <? 10 then 1 else 1 + digitsFrom fuel (n / 10)
  end.

Definition decimalDigits (n : Z) : Z := digitsFrom (Z.to_nat (Z.log2 n) + 1) n.

(** The first digit of [Number::toString(x)] for the double with the
    integer value [x] of [n] decimal digits: of the decimals with the
    fewest digits [k] that denote [x] when rounded to a double, the first
    digit.  Such a decimal is [x] cut down to [k] digits or the next
    decimal of [k] digits above it; 17 digits always suffice. *)
Fixpoint firstDigitFrom (fuel : nat) (k : Z) (n : Z) (x : Z) : Z :=
  match fuel with
  | O => x / 10 ^ (n - 1)
  | S fuel =>
    let scale := 10 ^ (n - k) in
    let s := x / scale in
    if Qeq_bool (Double.round (inject_Z (s * scale))) (inject_Z x)
    then s / 10 ^ (k - 1)
    else if Qeq_bool (Double.round (inject_Z ((s + 1) * scale))) (inject_Z x)
    then (if s + 1 =? 10 ^ k then 1 else (s + 1) / 10 ^ (k - 1))
    else firstDigitFrom fuel (k + 1) n x
  end.

Definition firstDigit (x : Z) : Z := firstDigitFrom 17 1 (decimalDigits x) x.

(** [parseInt(x)] for a double [x >= 0] with an integer value.  [parseInt]
    reads the digits at the head of the string of its argument, as a
    double again.  Below [10^21] the string is a decimal that denotes [x]
    (its shortest digits, and zeros after them), so what is read is [x];
    from [10^21] on the string is in exponent notation ([1e+21],
    [1.4e+22]) and [parseInt] reads its first digit only. *)
Definition parseInt (x : Q) : Z :=
  if Qle_bool (inject_Z (10 ^ 21)) x then firstDigit (Qfloor x) else Qfloor x.

(** ** Paging of the list endpoints *)

Record Paging := mkPaging {
  page : option Z;
  limit : option Z
}.

(** [query('page').optional().isInt({ min: 1 })] and
    [query('limit').optional().isInt({ min: 1, max: 100 })] *)
Definition validPaging (pg : Paging) : bool :=
  from_option (λ n, 1 <=? n) true (page pg)
  && from_option (λ n, (1 <=? n) && (n <=? 100)) true (limit pg).

(** [const skip = (page - 1) * limit], a double, for the digits [page]
    and [limit] of the query (defaults [page = 1] and [limit = 10]). *)
Definition skipOf (pg : Paging) : Q :=
  let page := default 1 (page pg) in
  let limit := default 10 (limit pg) in
  Double.mul (Double.sub (Double.ofZ page) 1) (Double.ofZ limit).

(** [parseInt(limit)] for the digits [limit] of the query (default 10):
    the double nearest to the number they denote. *)
Definition takeOf (pg : Paging) : Q :=
  Double.ofZ (default 10 (limit pg)).

(** [skip: parseInt(skip), take: parseInt(limit)] on the rows in the
    order of the query. *)
Definition paginate {A} (pg : Paging) (rows : list A) : list A :=
  take (Z.to_nat (Qfloor (takeOf pg)))
       (drop (Z.to_nat (parseInt (skipOf pg))) rows).

Definition descBy {A} (key : A → Z) : relation A := λ x y, key y ≤ key x.

#[global] Instance descBy_dec {A} (key : A → Z) x y : Decision (descBy key x y).
Proof. unfold descBy. apply _. Defined.

(** [orderBy: { key: 'desc' }] *)
Definition orderByDesc {A} (key : A → Z) (rows : list A) : list A :=
  merge_sort (descBy key) rows.

(** The reply of a list endpoint: the page of rows and [pagination.total]. *)
Record Listing (A : Type) := mkListing {
  rows : list A;
  total : nat
}.
Arguments mkListing {A} rows total.
Arguments rows {A} l.
Arguments total {A} l.

(** A date range [{ gte, lte }] on a timestamp column. *)
Definition inRange (from to : option Z) (t : Z) : bool :=
  from_option (λ a, a <=? t) true from && from_option (λ b, t <=? b) true to.

(** Equality filter of a [where] object: an absent key does not filter. *)
Definition eqFilter {A} `{EqDecision A} (w : option A) (x : A) : bool :=
  from_option (λ v, bool_decide (x = v)) true w.

(** One day of [Date.prototype.setDate], in milliseconds (the server runs
    in UTC, where every day has this length). *)
Definition msPerDay : Z := 86400000.

(** The largest time value of a [Date]: 100,000,000 days from the epoch,
    on either side. *)
Definition maxTime : Z := 8640000000000000.

(** [d.setDate(d.getDate() + days)] on the date with time value [t]: the
    date [days] days later, or nothing when that lies outside the range
    of [Date] and [d] is left an Invalid Date. *)
Definition addDays (t days : Z) : option Z :=
  let t' := t + days * msPerDay in
  if (- maxTime <=? t') && (t' <=? maxTime) then Some t' else None.

(** ** The packages router *)

Module Packages.

Record ListQuery := mkListQuery {
  paging : Paging;
  q_status : option PackageStatus.t;
  q_studentId : option string
}.

Record Where := mkWhere {
  w_status : option PackageStatus.t;
  w_studentId : option string
}.

Definition buildWhere (currentUser : Caller) (q : ListQuery) : Where :=
  mkWhere (q_status q)
          (if bool_decide (caller_role currentUser = STUDENT)
           then Some (caller_id currentUser)
           else truthy (q_studentId q)).

Definition matches (w : Where) (kv : string * CoursePackage) : bool :=
  eqFilter (w_status w) (p_status kv.2) && eqFilter (w_studentId w) (p_studentId kv.2).

(** [GET /packages] *)
Definition getAll (currentUser : Caller) (q : ListQuery) (s : Store)
    : Reply (Listing (string * CoursePackage)) :=
  if negb (validPaging (paging q)) then Failure ValidationFailed
  else
    let where_ := buildWhere currentUser q in
    let found := findMany (matches where_) (coursePackages s) in
    Success (mkListing
               (paginate (paging q) (orderByDesc (λ kv, p_purchasedAt kv.2) found))
               (length found)).

(** The body of [PUT /packages/:id].  As in the course update, the whole
    body goes to [prisma.coursePackage.update] ([data: updateData]); only
    [name], [description] and [status] have validators, the two hour
    columns are written unchecked when the body carries them. *)
Record UpdateBody := mkUpdateBody {
  u_name : option string;
  u_status : option PackageStatus.t;
  u_totalHours : option Z;
  u_usedHours : option Z
}.

Definition applyUpdate (b : UpdateBody) (p : CoursePackage) : CoursePackage :=
  mkCoursePackage (default (p_name p) (u_name b))
                  (default (p_totalHours p) (u_totalHours b))
                  (default (p_usedHours p) (u_usedHours b))
                  (p_price p) (p_validDays p)
                  (default (p_status p) (u_status b))
                  (p_studentId p) (p_purchasedAt p) (p_expiresAt p).

(** [PUT /packages/:id] *)
Definition update (caller : Caller) (id : string) (updateData : UpdateBody)
    (s : Store) : Reply CoursePackage * Store :=
  if negb (requireRole [ADMIN] caller) then (Failure Forbidden, s)
  else if bool_decide (u_name updateData = Some "") then (Failure ValidationFailed, s)
  else
    match coursePackages s !! id with
    | None => (Failure PackageNotFound, s)
    | Some existingPackage =>
      let coursePackage := applyUpdate updateData existingPackage in
      (Success coursePackage, set_coursePackages (insert id coursePackage) s)
    end.

Record PurchaseBody := mkPurchaseBody {
  name : string;
  totalHours : Z;
  price : Q;
  validDays : Z;
  paymentMethod : PaymentMethod
}.

Definition validPurchase (body : PurchaseBody) : bool :=
  negb (bool_decide (name body = ""))
  && (1 <=? totalHours body)
  && Qle_bool 0 (price body)
  && (1 <=? validDays body).

(** [POST /packages/purchase]; [packageId] and [paymentId] are the ids
    the store draws for the two new rows. *)
Definition purchase (faults : Faults) (now : Z) (packageId paymentId : string)
    (caller : Caller) (body : PurchaseBody) (s : Store)
    : Reply (CoursePackage * Payment) * Store :=
  if negb (requireRole [STUDENT] caller) then (Failure Forbidden, s)
  else if negb (validPurchase body) then (Failure ValidationFailed, s)
  else
    let studentId := caller_id caller in
    (* expiresAt.setDate(expiresAt.getDate() + validDays) *)
    match addDays now (validDays body) with
    | None =>
      (* [tx.coursePackage.create] throws on the Invalid Date *)
      (Failure InternalError, s)
    | Some expiresAt =>
      let coursePackage :=
        mkCoursePackage (name body) (totalHours body) default_usedHours (price body)
                        (validDays body) default_packageStatus studentId (stamped now)
                        expiresAt in
      let payment :=
        mkPayment (price body) (paymentMethod body) PaymentStatus.PAID
                  (Some packageId) studentId (stamped now) in
      match transaction faults
              [ coursePackage_create packageId coursePackage;
                payment_create paymentId payment ] s with
      | Some s' => (Success (coursePackage, payment), s')
      | None => (Failure InternalError, s)
      end
    end.

Record ConsumeBody := mkConsumeBody {
  hours : Z;
  courseId : string
}.

Record ConsumeResult := mkConsumeResult {
  remainingHours : Z;
  status : PackageStatus.t
}.

(** [data: { usedHours: newUsedHours, status: newStatus }] *)
Definition setUsage (newUsedHours : Z) (newStatus : PackageStatus.t) (p : CoursePackage)
    : CoursePackage :=
  mkCoursePackage (p_name p) (p_totalHours p) newUsedHours (p_price p) (p_validDays p)
                  newStatus (p_studentId p) (p_purchasedAt p) (p_expiresAt p).

(** [POST /packages/:id/consume] *)
Definition consume (now : Z) (caller : Caller) (id : string) (body : ConsumeBody)
    (s : Store) : Reply ConsumeResult * Store :=
  if negb (requireRole [ADMIN; TEACHER] caller) then (Failure Forbidden, s)
  else if negb (1 <=? hours body) then (Failure ValidationFailed, s)
  else
    match coursePackages s !! id with
    | None => (Failure PackageNotFound, s)
    | Some coursePackage =>
      if negb (bool_decide (p_status coursePackage = PackageStatus.ACTIVE))
      then (Failure PackageUnavailable, s)
      else if p_expiresAt coursePackage <? now
      then (Failure PackageExpired, s)
      else
        let remainingHours := p_totalHours coursePackage - p_usedHours coursePackage in
        if remainingHours <? hours body
        then (Failure InsufficientHours, s)
        else
          match courses s !! courseId body with
          | None => (Failure CourseNotFound, s)
          | Some _ =>
            let newUsedHours := p_usedHours coursePackage + hours body in
            let newStatus :=
              if p_totalHours coursePackage <=? newUsedHours
              then PackageStatus.COMPLETED else PackageStatus.ACTIVE in
            (Success (mkConsumeResult (p_totalHours coursePackage - newUsedHours) newStatus),
             set_coursePackages (insert id (setUsage newUsedHours newStatus coursePackage)) s)
          end
    end.

End Packages.

(** ** The payments router *)

Module Payments.

Record ListQuery := mkListQuery {
  paging : Paging;
  q_status : option PaymentStatus.t;
  q_method : option PaymentMethod;
  q_studentId : option string;
  q_startDate : option Z;
  q_endDate : option Z
}.

Record Where := mkWhere {
  w_status : option PaymentStatus.t;
  w_method : option PaymentMethod;
  w_studentId : option string;
  w_paidAt_gte : option Z;
  w_paidAt_lte : option Z
}.

Definition buildWhere (currentUser : Caller) (q : ListQuery) : Where :=
  let where_ := mkWhere (q_status q) (q_method q) (truthy (q_studentId q))
                        (q_startDate q) (q_endDate q) in
  if bool_decide (caller_role currentUser = STUDENT)
  then mkWhere (w_status where_) (w_method where_) (Some (caller_id currentUser))
               (w_paidAt_gte where_) (w_paidAt_lte where_)
  else where_.

Definition matches (w : Where) (kv : string * Payment) : bool :=
  eqFilter (w_status w) (pay_status kv.2)
  && eqFilter (w_method w) (pay_method kv.2)
  && eqFilter (w_studentId w) (pay_studentId kv.2)
  && inRange (w_paidAt_gte w) (w_paidAt_lte w) (pay_paidAt kv.2).

(** [GET /payments] *)
Definition getAll (currentUser : Caller) (q : ListQuery) (s : Store)
    : Reply (Listing (string * Payment)) :=
  if negb (validPaging (paging q)) then Failure ValidationFailed
  else
    let where_ := buildWhere currentUser q in
    let found := findMany (matches where_) (payments s) in
    Success (mkListing
               (paginate (paging q) (orderByDesc (λ kv, pay_paidAt kv.2) found))
               (length found)).

End Payments.

(** ** Rates of the report endpoints *)

(** [x.toFixed(2)] for the double [x], read as the number of hundredths
    it prints: the integer [n] with [n / 100] closest to the exact value of
    [x], the larger one on a tie, applied to the absolute value and signed
    afterwards. *)
Definition toFixed2 (x : Q) : Z :=
  if Qle_bool 0 x then Qfloor (x * 100 + (1 # 2))
  else - Qfloor (- x * 100 + (1 # 2)).

(** The value a rate field denotes, in percent. *)
Definition hundredths (n : Z) : Q := n # 100.

(** ** The attendance router *)

Module Attendance.

Record ListQuery := mkListQuery {
  paging : Paging;
  q_courseId : option string;
  q_studentId : option string;
  q_status : option AttendanceStatus;
  q_startDate : option Z;
  q_endDate : option Z
}.

Record Where := mkWhere {
  w_courseId : option string;
  w_studentId : option string;
  w_status : option AttendanceStatus;
  w_recordedAt_gte : option Z;
  w_recordedAt_lte : option Z
}.

Definition buildWhere (currentUser : Caller) (q : ListQuery) : Where :=
  let where_ := mkWhere (truthy (q_courseId q)) (truthy (q_studentId q)) (q_status q)
                        (q_startDate q) (q_endDate q) in
  if bool_decide (caller_role currentUser = STUDENT)
  then mkWhere (w_courseId where_) (Some (caller_id currentUser)) (w_status where_)
               (w_recordedAt_gte where_) (w_recordedAt_lte where_)
  else where_.

Definition matches (w : Where) (r : AttendanceRecord) : bool :=
  eqFilter (w_courseId w) (a_courseId r)
  && eqFilter (w_studentId w) (a_studentId r)
  && eqFilter (w_status w) (a_status r)
  && inRange (w_recordedAt_gte w) (w_recordedAt_lte w) (a_recordedAt r).

(** [GET /attendance] *)
Definition getAll (currentUser : Caller) (q : ListQuery) (s : Store)
    : Reply (Listing AttendanceRecord) :=
  if negb (validPaging (paging q)) then Failure ValidationFailed
  else
    let where_ := buildWhere currentUser q in
    let found := filter (λ r, matches where_ r) (attendanceRecords s) in
    Success (mkListing (paginate (paging q) (orderByDesc a_recordedAt found))
                       (length found)).

Record CreateBody := mkCreateBody {
  studentId : string;
  courseId : string;
  status : AttendanceStatus
}.

(** [course.teacherId !== currentUser.id && currentUser.role !== 'ADMIN'] *)
Definition notTeacherNorAdmin (course : Course) (currentUser : Caller) : bool :=
  negb (bool_decide (c_teacherId course = caller_id currentUser))
  && negb (bool_decide (caller_role currentUser = ADMIN)).

(** [POST /attendance]; [now] is the time of the request. *)
Definition create (now : Z) (currentUser : Caller) (body : CreateBody) (s : Store)
    : Reply AttendanceRecord * Store :=
  if negb (requireRole [ADMIN; TEACHER] currentUser) then (Failure Forbidden, s)
  else
    match users s !! studentId body with
    | None => (Failure StudentInvalid, s)
    | Some student =>
      if negb (bool_decide (u_role student = STUDENT)) then (Failure StudentInvalid, s)
      else
        match courses s !! courseId body with
        | None => (Failure CourseNotFound, s)
        | Some course =>
          if notTeacherNorAdmin course currentUser then (Failure Forbidden, s)
          else if negb (bool_decide ((studentId body, courseId body) ∈ studentCourses s))
          then (Failure NotEnrolled, s)
          else if bool_decide ((studentId body, courseId body)
                                 ∈ attendance_key <$> attendanceRecords s)
          then (Failure RecordExists, s)
          else
            let record :=
              mkAttendanceRecord (studentId body) (courseId body) (status body)
                                 (stamped now) in
            (* prisma.attendanceRecord.create: an insert of the one row *)
            match attendanceRecord_createMany [record] s with
            | Some s' => (Success record, s')
            | None => (Failure InternalError, s)
            end
        end
    end.

Record BatchItem := mkBatchItem {
  item_studentId : string;
  item_status : AttendanceStatus
}.

Record BatchBody := mkBatchBody {
  b_courseId : string;
  records : list BatchItem
}.

(** [POST /attendance/batch]; the reply is [createdRecords.count]. *)
Definition batch (now : Z) (currentUser : Caller) (body : BatchBody) (s : Store)
    : Reply nat * Store :=
  if negb (requireRole [ADMIN; TEACHER] currentUser) then (Failure Forbidden, s)
  else
    let courseId := b_courseId body in
    match courses s !! courseId with
    | None => (Failure CourseNotFound, s)
    | Some course =>
      if notTeacherNorAdmin course currentUser then (Failure Forbidden, s)
      else
        let studentIds := item_studentId <$> records body in
        let students :=
          findMany (λ kv, bool_decide (kv.1 ∈ studentIds)
                          && bool_decide (u_role kv.2 = STUDENT)) (users s) in
        if negb (bool_decide (length students = length studentIds))
        then (Failure SomeStudentInvalid, s)
        else
          let enrollments :=
            filter (λ key, key.1 ∈ studentIds ∧ key.2 = courseId)
                   (elements (studentCourses s)) in
          if negb (bool_decide (length enrollments = length studentIds))
          then (Failure SomeNotEnrolled, s)
          else
            let existingRecords :=
              filter (λ r, a_courseId r = courseId ∧ a_studentId r ∈ studentIds)
                     (attendanceRecords s) in
            if bool_decide (0 < length existingRecords)%nat
            then (Failure SomeRecordExists, s)
            else
              let data :=
                (λ record, mkAttendanceRecord (item_studentId record) courseId
                                              (item_status record) (stamped now))
                  <$> records body in
              match attendanceRecord_createMany data s with
              | Some s' => (Success (length data), s')
              | None => (Failure InternalError, s)
              end
    end.

Record CourseStatistics := mkCourseStatistics {
  totalStudents : Z;
  presentCount : Z;
  absentCount : Z;
  lateCount : Z;
  leaveCount : Z;
  attendanceRate : Z          (* in hundredths of a percent *)
}.

(** [prisma.attendanceRecord.count({ where: { courseId, status } })] *)
Definition countStatus (courseId : string) (st : AttendanceStatus) (s : Store) : Z :=
  Z.of_nat (length (filter (λ r, a_courseId r = courseId ∧ a_status r = st)
                           (attendanceRecords s))).

(** [GET /attendance/course/:courseId/statistics].  The sixth count, which
    the handler binds to the name [attendanceRate], is the number of all
    attendance records of the course. *)
Definition courseStatistics (currentUser : Caller) (courseId : string) (s : Store)
    : Reply CourseStatistics :=
  match courses s !! courseId with
  | None => Failure CourseNotFound
  | Some course =>
    if notTeacherNorAdmin course currentUser then Failure Forbidden
    else
      let totalStudents :=
        Z.of_nat (length (filter (λ key, key.2 = courseId)
                                 (elements (studentCourses s)))) in
      let attendanceRate :=
        Z.of_nat (length (filter (λ r, a_courseId r = courseId) (attendanceRecords s))) in
      let rate :=
        if 0 <? totalStudents
        then toFixed2 (percentage attendanceRate totalStudents)
        else 0 in
      Success (mkCourseStatistics totalStudents
                 (countStatus courseId PRESENT s) (countStatus courseId ABSENT s)
                 (countStatus courseId LATE s) (countStatus courseId LEAVE s)
                 rate)
  end.

End Attendance.

(** ** The statistics router: the rate field of each report row *)

Module Statistics.

(** A row of [/daily-consumption]. *)
Record AttendanceRow := mkAttendanceRow {
  total_records : Z;
  present_count : Z
}.

(** [attendanceRate] of [/daily-consumption]:
    [total_records > 0 ? ((present_count / total_records) * 100).toFixed(2) : 0] *)
Definition attendanceRate (stat : AttendanceRow) : Z :=
  if 0 <? total_records stat
  then toFixed2 (percentage (present_count stat) (total_records stat))
  else 0.

(** A row of [/teachers] and of [/students]. *)
Record PersonRow := mkPersonRow {
  total_attendance_records : Z;
  present_records : Z
}.

(** [attendanceRate] of [/teachers] and [/students]. *)
Definition personAttendanceRate (stat : PersonRow) : Z :=
  if 0 <? total_attendance_records stat
  then toFixed2 (percentage (present_records stat) (total_attendance_records stat))
  else 0.

(** A row of [/courses]. *)
Record CourseRow := mkCourseRow {
  attendance_records : Z;
  cr_present_count : Z;
  cr_maxStudents : Z;
  cr_currentStudents : Z
}.

Definition courseAttendanceRate (stat : CourseRow) : Z :=
  if 0 <? attendance_records stat
  then toFixed2 (percentage (cr_present_count stat) (attendance_records stat))
  else 0.

Definition enrollmentRate (stat : CourseRow) : Z :=
  if 0 <? cr_maxStudents stat
  then toFixed2 (percentage (cr_currentStudents stat) (cr_maxStudents stat))
  else 0.

(** A row of [/packages]. *)
Record PackageRow := mkPackageRow {
  pr_totalHours : Z;
  pr_usedHours : Z
}.

Definition usageRate (stat : PackageRow) : Z :=
  if 0 <? pr_totalHours stat
  then toFixed2 (percentage (pr_usedHours stat) (pr_totalHours stat))
  else 0.

End Statistics.

(** * Further handlers of the routers *)

(** ** Further replies *)

(** The error replies of the handlers below that [Error] does not list. *)
Inductive Refusal :=
  | Known (e : Error)          (* a reply listed in [Error] *)
  | PackageUsed                (* 400, delete of a package with used hours *)
  | PaymentNotFound            (* 404 *)
  | PaidNotDeletable           (* 400, delete of a PAID payment *)
  | PackageNotOfStudent        (* 400, payment for another student's package *)
  | TokenMissing               (* 401, no bearer token in the request *)
  | AuthenticationFailed       (* 401, the catch block of [auth] *)
  | UserMissing                (* 401, no row for the token's user *)
  | UserNotFound               (* 404 *)
  | AccountDisabled            (* 401, user status is not ACTIVE *).

Definition refusal_status (r : Refusal) : Z :=
  match r with
  | Known e => http_status e
  | PaymentNotFound | UserNotFound => 404
  | TokenMissing | AuthenticationFailed | UserMissing | AccountDisabled => 401
  | PackageUsed | PaidNotDeletable | PackageNotOfStudent => 400
  end.

Inductive Answer (A : Type) :=
  | Accepted (body : A)
  | Refused (r : Refusal).
Arguments Accepted {A} body.
Arguments Refused {A} r.

(** [pagination.pages]: [Math.ceil(total / limit)], a division of doubles,
    for the limit of the request (10 when absent). *)
Definition pageCount (pg : Paging) (total : nat) : Z :=
  let limit := default 10 (limit pg) in
  Qceiling (Double.div (Double.ofZ (Z.of_nat total)) (Double.ofZ limit)).

Definition ascBy {A} (key : A → Z) : relation A := λ x y, key x ≤ key y.

#[global] Instance ascBy_dec {A} (key : A → Z) x y : Decision (ascBy key x y).
Proof. unfold ascBy. apply _. Defined.

(** [orderBy: { key: 'asc' }] *)
Definition orderByAsc {A} (key : A → Z) (rows : list A) : list A :=
  merge_sort (ascBy key) rows.

(** ** [routes/courses.js]: the read endpoints *)

Module CourseQueries.

Record ListQuery := mkListQuery {
  paging : Paging;
  q_status : option CourseStatus.t;
  q_teacherId : option string;
  q_startDate : option Z;
  q_endDate : option Z
}.

(** The [where] of the list query.  Its last part is
    [students: { some: { studentId: currentUser.id } }], which the handler
    adds for a caller with the STUDENT role. *)
Definition matches (currentUser : Caller) (q : ListQuery) (s : Store)
    (kv : string * Course) : bool :=
  eqFilter (q_status q) (c_status kv.2)
  && eqFilter (truthy (q_teacherId q)) (c_teacherId kv.2)
  && inRange (q_startDate q) (q_endDate q) (c_startTime kv.2)
  && (negb (bool_decide (caller_role currentUser = STUDENT))
      || bool_decide ((caller_id currentUser, kv.1) ∈ studentCourses s)).

(** [GET /courses] *)
Definition getAll (currentUser : Caller) (q : ListQuery) (s : Store)
    : Reply (Listing (string * Course)) :=
  if negb (validPaging (paging q)) then Failure ValidationFailed
  else
    let found := findMany (matches currentUser q s) (courses s) in
    Success (mkListing
               (paginate (paging q) (orderByAsc (λ kv, c_startTime kv.2) found))
               (length found)).

(** [GET /courses/:id]; [course.students.some(sc => sc.studentId ===
    currentUser.id)] is the membership of the pair in the link table. *)
Definition getOne (currentUser : Caller) (id : string) (s : Store) : Reply Course :=
  match courses s !! id with
  | None => Failure CourseNotFound
  | Some course =>
    if bool_decide (caller_role currentUser = STUDENT)
       && negb (bool_decide ((caller_id currentUser, id) ∈ studentCourses s))
    then Failure Forbidden
    else Success course
  end.

End CourseQueries.

(** ** The packages router: detail, grant and delete *)

Module PackageAdmin.

(** [GET /packages/:id] *)
Definition getOne (currentUser : Caller) (id : string) (s : Store) : Reply CoursePackage :=
  match coursePackages s !! id with
  | None => Failure PackageNotFound
  | Some coursePackage =>
    if bool_decide (caller_role currentUser = STUDENT)
       && negb (bool_decide (p_studentId coursePackage = caller_id currentUser))
    then Failure Forbidden
    else Success coursePackage
  end.

Record CreateBody := mkCreateBody {
  name : string;
  totalHours : Z;
  price : Q;
  validDays : Z;
  studentId : string
}.

Definition validCreate (body : CreateBody) : bool :=
  negb (bool_decide (name body = ""))
  && (1 <=? totalHours body)
  && Qle_bool 0 (price body)
  && (1 <=? validDays body).

(** [POST /packages]; [newId] is the id the store draws for the row. *)
Definition create (now : Z) (newId : string) (caller : Caller) (body : CreateBody)
    (s : Store) : Reply CoursePackage * Store :=
  if negb (requireRole [ADMIN] caller) then (Failure Forbidden, s)
  else if negb (validCreate body) then (Failure ValidationFailed, s)
  else
    match users s !! studentId body with
    | None => (Failure StudentInvalid, s)
    | Some student =>
      if negb (bool_decide (u_role student = STUDENT)) then (Failure StudentInvalid, s)
      else
        match addDays now (validDays body) with
        | None =>
          (* [coursePackage.create] throws on the Invalid Date *)
          (Failure InternalError, s)
        | Some expiresAt =>
          let coursePackage :=
            mkCoursePackage (name body) (totalHours body) default_usedHours (price body)
                            (validDays body) default_packageStatus (studentId body)
                            (stamped now) expiresAt in
          match coursePackage_create newId coursePackage s with
          | Some s' => (Success coursePackage, s')
          | None => (Failure InternalError, s)
          end
        end
    end.

(** [DELETE /packages/:id] *)
Definition delete (caller : Caller) (id : string) (s : Store) : Answer unit * Store :=
  if negb (requireRole [ADMIN] caller) then (Refused (Known Forbidden), s)
  else
    match coursePackages s !! id with
    | None => (Refused (Known PackageNotFound), s)
    | Some coursePackage =>
      if 0 <? p_usedHours coursePackage then (Refused PackageUsed, s)
      else
        (* payment.deleteMany({ where: { packageId: id } }) *)
        let s1 := set_payments (filter (λ kv, pay_packageId kv.2 ≠ Some id)) s in
        (* coursePackage.delete({ where: { id } }) *)
        (Accepted (), set_coursePackages (base.delete id) s1)
    end.

End PackageAdmin.

(** ** The payments router: detail, create, status and delete *)

Module PaymentAdmin.

(** [GET /payments/:id] *)
Definition getOne (currentUser : Caller) (id : string) (s : Store) : Answer Payment :=
  match payments s !! id with
  | None => Refused PaymentNotFound
  | Some payment =>
    if bool_decide (caller_role currentUser = STUDENT)
       && negb (bool_decide (pay_studentId payment = caller_id currentUser))
    then Refused (Known Forbidden)
    else Accepted payment
  end.

Record CreateBody := mkCreateBody {
  amount : Q;
  method : PaymentMethod;
  status : PaymentStatus.t;
  studentId : string;
  packageId : option string
}.

(** [POST /payments]; [newId] is the id the store draws for the row. *)
Definition create (now : Z) (newId : string) (caller : Caller) (body : CreateBody)
    (s : Store) : Answer Payment * Store :=
  if negb (requireRole [ADMIN] caller) then (Refused (Known Forbidden), s)
  else if negb (Qle_bool 0 (amount body)) then (Refused (Known ValidationFailed), s)
  else
    match users s !! studentId body with
    | None => (Refused (Known StudentInvalid), s)
    | Some student =>
      if negb (bool_decide (u_role student = STUDENT))
      then (Refused (Known StudentInvalid), s)
      else
        let refusal :=
          match truthy (packageId body) with
          | None => None
          | Some pid =>
            match coursePackages s !! pid with
            | None => Some (Known PackageNotFound)
            | Some coursePackage =>
              if negb (bool_decide (p_studentId coursePackage = studentId body))
              then Some PackageNotOfStudent
              else None
            end
          end in
        match refusal with
        | Some r => (Refused r, s)
        | None =>
          let payment :=
            mkPayment (amount body) (method body) (status body) (packageId body)
                      (studentId body) (stamped now) in
          (* the relation [package] is a foreign key: a [packageId] without a
             row makes the insert throw *)
          if from_option (λ pid, bool_decide (is_Some (coursePackages s !! pid))) true
                         (packageId body)
          then
            match payment_create newId payment s with
            | Some s' => (Accepted payment, s')
            | None => (Refused (Known InternalError), s)
            end
          else (Refused (Known InternalError), s)
        end
    end.

(** [data: { status, notes }] *)
Definition setStatus (st : PaymentStatus.t) (p : Payment) : Payment :=
  mkPayment (pay_amount p) (pay_method p) st (pay_packageId p) (pay_studentId p)
            (pay_paidAt p).

(** [PUT /payments/:id/status] *)
Definition updateStatus (caller : Caller) (id : string) (st : PaymentStatus.t)
    (s : Store) : Answer Payment * Store :=
  if negb (requireRole [ADMIN] caller) then (Refused (Known Forbidden), s)
  else
    match payments s !! id with
    | None => (Refused PaymentNotFound, s)
    | Some existingPayment =>
      let payment := setStatus st existingPayment in
      (Accepted payment, set_payments (insert id payment) s)
    end.

(** [DELETE /payments/:id] *)
Definition delete (caller : Caller) (id : string) (s : Store) : Answer unit * Store :=
  if negb (requireRole [ADMIN] caller) then (Refused (Known Forbidden), s)
  else
    match payments s !! id with
    | None => (Refused PaymentNotFound, s)
    | Some payment =>
      if bool_decide (pay_status payment = PaymentStatus.PAID)
      then (Refused PaidNotDeletable, s)
      else (Accepted (), set_payments (base.delete id) s)
    end.

End PaymentAdmin.

(** ** [middleware/auth.js] and [routes/users.js]: accounts *)

Module Users.

Inductive Status := ACTIVE | INACTIVE | SUSPENDED.

#[global] Instance Status_eq_dec : EqDecision Status.
Proof. solve_decision. Defined.

(** The columns of a user row that [auth] and the users router read or
    write, besides the free text. *)
Record Account := mkAccount {
  name : string;
  role : Role;
  status : Status
}.

(** What [auth] finds in the [Authorization] header: no token, a token
    that [jwt.verify] rejects by throwing, or a token that it verifies,
    with the [userId] of its payload. *)
Inductive Bearer :=
  | NoToken
  | BadToken
  | Verified (userId : string).

(** [auth]; on success [req.user] is the row of the token's user. *)
Definition auth (token : Bearer) (table : gmap string Account)
    : Answer (string * Account) :=
  match token with
  | NoToken => Refused TokenMissing
  | BadToken => Refused AuthenticationFailed
  | Verified userId =>
    match table !! userId with
    | None => Refused UserMissing
    | Some user =>
      if negb (bool_decide (status user = ACTIVE)) then Refused AccountDisabled
      else Accepted (userId, user)
    end
  end.

(** The body of an update: the name and the status when given, and
    whether the phone number, when given, passes [isMobilePhone]. *)
Record UpdateBody := mkUpdateBody {
  u_name : option string;
  u_phoneValid : bool;
  u_status : option Status
}.

(** [PUT /users/:id]; the caller is the authenticated [(id, row)]. *)
Definition update (currentUser : string * Account) (id : string) (body : UpdateBody)
    (table : gmap string Account) : Reply Account * gmap string Account :=
  if bool_decide (u_name body = Some "") || negb (u_phoneValid body)
  then (Failure ValidationFailed, table)
  else if negb (bool_decide (currentUser.1 = id))
          && negb (bool_decide (role currentUser.2 = ADMIN))
  then (Failure Forbidden, table)
  else
    match table !! id with
    | None => (Failure InternalError, table)      (* [prisma.user.update] throws *)
    | Some row =>
      let user :=
        mkAccount (default (name row) (u_name body))
                  (role row)
                  (if bool_decide (role currentUser.2 = ADMIN)
                   then default (status row) (u_status body)
                   else status row) in
      (Success user, <[id := user]> table)
    end.

(** [DELETE /users/:id]: the soft delete. *)
Definition delete (currentUser : string * Account) (id : string)
    (table : gmap string Account) : Answer unit * gmap string Account :=
  if negb (bool_decide (role currentUser.2 ∈ [ADMIN]))
  then (Refused (Known Forbidden), table)
  else
    match table !! id with
    | None => (Refused UserNotFound, table)
    | Some user =>
      (Accepted (), <[id := mkAccount (name user) (role user) SUSPENDED]> table)
    end.

End Users.

(** ** The overview statistics of packages and payments *)

Module Overviews.










End Overviews.

(** * The scenarios of the specification as concrete stores and requests,
    and the predicates in which the properties are stated *)

Definition teacher1 : Caller := mkCaller "t1" TEACHER.

Definition package20 (used : Z) (st : PackageStatus.t) : CoursePackage :=
  mkCoursePackage "basic" 20 used (1999 # 1) 90 st "s1" 0 (90 * msPerDay).

(** One package with 20 hours, none used. *)
Definition store20 : Store :=
  mkStore {[ "t1" := mkUser TEACHER; "s1" := mkUser STUDENT ]}
          {[ "c1" := mkCourse "kaishu" "t1" 1000 2000 20 0 CourseStatus.SCHEDULED ]}
          ∅
          {[ "p1" := package20 0 PackageStatus.ACTIVE ]}
          [] ∅.

Definition consume20 (h : Z) (s : Store) : Reply Packages.ConsumeResult * Store :=
  Packages.consume 5000 teacher1 "p1" (Packages.mkConsumeBody h "c1") s.

(** The status the handler computes for the new used-hours. *)
Definition statusAfter (p : CoursePackage) (h : Z) : PackageStatus.t :=
  if p_totalHours p <=? p_usedHours p + h
  then PackageStatus.COMPLETED else PackageStatus.ACTIVE.

(** A clock time on the day of the scheduling scenario. *)
Definition hour (h : Z) : Z := 20000 * msPerDay + h * 3600000.

(** Teacher [t1] has a course from 10:00 to 12:00. *)
Definition storeD : Store :=
  mkStore {[ "t1" := mkUser TEACHER ]}
          {[ "c1" := mkCourse "kaishu" "t1" (hour 10) (hour 12) 20 0 CourseStatus.SCHEDULED ]}
          ∅ ∅ [] ∅.

(** The teacher asks, at midnight, for a second course on that day. *)
Definition createAt (from to : Z) : Reply Course * Store :=
  Courses.create (hour 0) "c2" teacher1
                 (Courses.mkCreateBody "lishu" (hour from) (hour to) None None) storeD.

(** The course of the same teacher, in a state that blocks the slot, whose
    half-open window meets the requested one. *)
Definition overlapping (self : option string) (teacher : string) (start end_ : Z)
    (id : string) (c : Course) : Prop :=
  Some id ≠ self
  ∧ c_teacherId c = teacher
  ∧ (c_status c = CourseStatus.SCHEDULED ∨ c_status c = CourseStatus.IN_PROGRESS)
  ∧ c_startTime c < end_ ∧ start < c_endTime c.

(** Every stored course ends after it starts (both handlers that write the
    window check it). *)
Definition windows_ok (s : Store) : Prop :=
  ∀ id c, courses s !! id = Some c → c_startTime c < c_endTime c.

(** The store an enrollment commits: the link and the incremented counter. *)
Definition enrolled (studentId id : string) (c : Course) (s : Store) : Store :=
  set_courses (insert id (Courses.incrementStudents c))
    (set_studentCourses (λ t, {[ (studentId, id) ]} ∪ t) s).

(** The three business rules that reject an enrollment. *)
Definition enroll_refused (studentId id : string) (c : Course) (s : Store) : Prop :=
  c_status c ≠ CourseStatus.SCHEDULED
  ∨ (studentId, id) ∈ studentCourses s
  ∨ c_maxStudents c ≤ c_currentStudents c.

Definition studentA : Caller := mkCaller "a" STUDENT.
Definition studentB : Caller := mkCaller "b" STUDENT.

(** A scheduled course with room for one student. *)
Definition storeCap1 : Store :=
  mkStore {[ "t1" := mkUser TEACHER; "a" := mkUser STUDENT; "b" := mkUser STUDENT ]}
          {[ "c1" := mkCourse "kaishu" "t1" 1000 2000 1 0 CourseStatus.SCHEDULED ]}
          ∅ ∅ [] ∅.

(** The package row a purchase creates. *)
Definition purchasedPackage (now : Z) (studentId : string) (body : Packages.PurchaseBody)
    : CoursePackage :=
  mkCoursePackage (Packages.name body) (Packages.totalHours body) 0 (Packages.price body)
                  (Packages.validDays body) PackageStatus.ACTIVE studentId now
                  (now + Packages.validDays body * 86400000).

(** The payment row a purchase creates. *)
Definition purchasePayment (now : Z) (studentId packageId : string)
    (body : Packages.PurchaseBody) : Payment :=
  mkPayment (Packages.price body) (Packages.paymentMethod body) PaymentStatus.PAID
            (Some packageId) studentId now.

(** The store a purchase commits: both rows. *)
Definition purchased (now : Z) (packageId paymentId studentId : string)
    (body : Packages.PurchaseBody) (s : Store) : Store :=
  set_payments (insert paymentId (purchasePayment now studentId packageId body))
    (set_coursePackages (insert packageId (purchasedPackage now studentId body)) s).

Definition student1 : Caller := mkCaller "s1" STUDENT.

Definition purchase30 : Packages.PurchaseBody :=
  Packages.mkPurchaseBody "basic" 20 (1999 # 1) 30 WECHAT.

(** ** Histories of course operations *)

Inductive CourseOp :=
  | OpEnroll (faults : Faults) (caller : Caller) (id : string)
  | OpCancel (faults : Faults) (caller : Caller) (id : string)
  | OpUpdate (caller : Caller) (id : string) (body : Courses.UpdateBody)
  | OpDelete (onDelete : OnDelete) (faults : Faults) (caller : Caller) (id : string).

Definition applyCourseOp (s : Store) (op : CourseOp) : Store :=
  match op with
  | OpEnroll faults caller id => (Courses.enroll faults caller id s).2
  | OpCancel faults caller id => (Courses.cancel faults caller id s).2
  | OpUpdate caller id body => (Courses.update caller id body s).2
  | OpDelete onDelete faults caller id => (Courses.delete onDelete faults caller id s).2
  end.

Definition runCourseOps (ops : list CourseOp) (s : Store) : Store :=
  foldl applyCourseOp s ops.

(** The number of enrollment links of a course. *)
Definition enrolledCount (id : string) (s : Store) : Z :=
  Z.of_nat (size (filter (λ key, key.2 = id) (studentCourses s))).

(** The counter of every course mirrors its links. *)
Definition count_ok (s : Store) : Prop :=
  ∀ id c, courses s !! id = Some c → c_currentStudents c = enrolledCount id s.

(** No course is over capacity. *)
Definition capacity_ok (s : Store) : Prop :=
  ∀ id c, courses s !! id = Some c → c_currentStudents c ≤ c_maxStudents c.

(** An update body that carries columns of the course only, no other
    key. *)
Definition columnsOnly (body : Courses.UpdateBody) : Prop :=
  Courses.u_others body = None.

(** An operation that leaves the counters to enroll and cancel: an update
    that carries columns only and not the counter column, and a delete
    that is not cut short between its two statements, because the second
    statement does not fail on the database's account and the course has
    no attendance records that would hold it back. *)
Definition keepsCounter (s : Store) (op : CourseOp) : Prop :=
  match op with
  | OpUpdate _ _ body => Courses.u_currentStudents body = None ∧ columnsOnly body
  | OpDelete onDelete faults _ id =>
    faults 1%nat = false
    ∧ (onDelete = Restrict → ∀ r, r ∈ attendanceRecords s → a_courseId r ≠ id)
  | _ => True
  end.

Fixpoint counterKept (ops : list CourseOp) (s : Store) : Prop :=
  match ops with
  | [] => True
  | op :: rest => keepsCounter s op ∧ counterKept rest (applyCourseOp s op)
  end.

(** An operation that does not set the capacity of a course below the
    enrolled-count the course has in [s]. *)
Definition keepsCapacity (s : Store) (op : CourseOp) : Prop :=
  match op with
  | OpUpdate _ id body =>
    ∀ m c, Courses.u_maxStudents body = Some m → courses s !! id = Some c →
           c_currentStudents c ≤ m
  | _ => True
  end.

Fixpoint capacityKept (ops : list CourseOp) (s : Store) : Prop :=
  match ops with
  | [] => True
  | op :: rest => keepsCapacity s op ∧ capacityKept rest (applyCourseOp s op)
  end.

(** A scheduled course with room for two, nobody enrolled. *)
Definition storeCap2 : Store :=
  mkStore {[ "t1" := mkUser TEACHER; "a" := mkUser STUDENT; "b" := mkUser STUDENT ]}
          {[ "c1" := mkCourse "kaishu" "t1" 1000 2000 2 0 CourseStatus.SCHEDULED ]}
          ∅ ∅ [] ∅.

(** Two students enroll, then the teacher sets the capacity to one. *)
Definition shrinkAfterEnroll : list CourseOp :=
  [ OpEnroll no_faults studentA "c1";
    OpEnroll no_faults studentB "c1";
    OpUpdate teacher1 "c1"
      (Courses.mkUpdateBody None None None (Some 1) None None None None) ].

(** ** Histories of package operations *)

Inductive PackageOp :=
  | OpConsume (now : Z) (caller : Caller) (id : string) (body : Packages.ConsumeBody)
  | OpAdminUpdate (caller : Caller) (id : string) (body : Packages.UpdateBody).

Definition applyPackageOp (s : Store) (op : PackageOp) : Store :=
  match op with
  | OpConsume now caller id body => (Packages.consume now caller id body s).2
  | OpAdminUpdate caller id body => (Packages.update caller id body s).2
  end.

Definition runPackageOps (ops : list PackageOp) (s : Store) : Store :=
  foldl applyPackageOp s ops.

Definition isConsume (op : PackageOp) : Prop :=
  match op with
  | OpConsume _ _ _ _ => True
  | OpAdminUpdate _ _ _ => False
  end.

(** An operation that writes neither hour column directly: a consume, or
    an update that carries only the fields its validators name. *)
Definition keepsHours (op : PackageOp) : Prop :=
  match op with
  | OpConsume _ _ _ _ => True
  | OpAdminUpdate _ _ body =>
    Packages.u_totalHours body = None ∧ Packages.u_usedHours body = None
  end.

(** A package whose hours are used up is COMPLETED. *)
Definition completed_if_exhausted (p : CoursePackage) : Prop :=
  p_totalHours p ≤ p_usedHours p → p_status p = PackageStatus.COMPLETED.

(** The hours of [p'] continue those of [p]: same total, no fewer used,
    and not more used than the total. *)
Definition hours_advance (p p' : CoursePackage) : Prop :=
  p_totalHours p' = p_totalHours p
  ∧ p_usedHours p ≤ p_usedHours p'
  ∧ p_usedHours p' ≤ p_totalHours p'.

Definition admin1 : Caller := mkCaller "root" ADMIN.

(** The admin sets the status of a package, and nothing else. *)
Definition setStatus (st : PackageStatus.t) : Packages.UpdateBody :=
  Packages.mkUpdateBody None (Some st) None None.

(** ** Attendance *)

(** What the batch handler demands of a listed student: a user with the
    STUDENT role, with an enrollment link for the course, and without an
    attendance record for the course. *)
Definition admissible (courseId : string) (s : Store) (sid : string) : Prop :=
  (∃ u, users s !! sid = Some u ∧ u_role u = STUDENT)
  ∧ (sid, courseId) ∈ studentCourses s
  ∧ (sid, courseId) ∉ attendance_key <$> attendanceRecords s.

(** The three [findMany] of the batch handler. *)
Definition foundStudents (s : Store) (studentIds : list string) : list (string * User) :=
  findMany (λ kv, bool_decide (kv.1 ∈ studentIds) && bool_decide (u_role kv.2 = STUDENT))
           (users s).

Definition foundEnrollments (s : Store) (courseId : string) (studentIds : list string)
    : list (string * string) :=
  filter (λ key, key.1 ∈ studentIds ∧ key.2 = courseId) (elements (studentCourses s)).

Definition foundRecords (s : Store) (courseId : string) (studentIds : list string)
    : list AttendanceRecord :=
  filter (λ r, a_courseId r = courseId ∧ a_studentId r ∈ studentIds) (attendanceRecords s).

(** The unique index of the attendance table on [studentId_courseId]. *)
Definition unique_ok (s : Store) : Prop :=
  NoDup (attendance_key <$> attendanceRecords s).

(** The rows a batch inserts: one per listed item, in order. *)
Definition batchRows (now : Z) (courseId : string) (records : list Attendance.BatchItem)
    : list AttendanceRecord :=
  (λ record, mkAttendanceRecord (Attendance.item_studentId record) courseId
                                (Attendance.item_status record) now) <$> records.

(** Every attendance record has an enrollment link for its pair. *)
Definition attendance_ok (s : Store) : Prop :=
  ∀ r, r ∈ attendanceRecords s → (a_studentId r, a_courseId r) ∈ studentCourses s.

(** A scheduled course of teacher [t1]; students [a] to [e], of whom all
    but [e] are enrolled. *)
Definition storeClass : Store :=
  mkStore {[ "t1" := mkUser TEACHER; "a" := mkUser STUDENT; "b" := mkUser STUDENT;
             "c" := mkUser STUDENT; "d" := mkUser STUDENT; "e" := mkUser STUDENT ]}
          {[ "c1" := mkCourse "kaishu" "t1" 1000 2000 20 4 CourseStatus.SCHEDULED ]}
          {[ ("a", "c1"); ("b", "c1"); ("c", "c1"); ("d", "c1") ]}
          ∅ [] ∅.

Definition present (sid : string) : Attendance.BatchItem :=
  Attendance.mkBatchItem sid PRESENT.

Definition batchOf (sids : list string) : Attendance.BatchBody :=
  Attendance.mkBatchBody "c1" (present <$> sids).

(** Histories of the operations that keep attendance records linked:
    recording attendance (single and batch), enrolling, and updating a
    course. *)
Inductive AttendanceOp :=
  | OpRecord (now : Z) (caller : Caller) (body : Attendance.CreateBody)
  | OpRecordBatch (now : Z) (caller : Caller) (body : Attendance.BatchBody)
  | OpJoin (faults : Faults) (caller : Caller) (id : string)
  | OpEditCourse (caller : Caller) (id : string) (body : Courses.UpdateBody).

Definition applyAttendanceOp (s : Store) (op : AttendanceOp) : Store :=
  match op with
  | OpRecord now caller body => (Attendance.create now caller body s).2
  | OpRecordBatch now caller body => (Attendance.batch now caller body s).2
  | OpJoin faults caller id => (Courses.enroll faults caller id s).2
  | OpEditCourse caller id body => (Courses.update caller id body s).2
  end.

Definition runAttendanceOps (ops : list AttendanceOp) (s : Store) : Store :=
  foldl applyAttendanceOp s ops.

(** A course update of the history carries columns only. *)
Definition plainEdit (op : AttendanceOp) : Prop :=
  match op with
  | OpEditCourse _ _ body => columnsOnly body
  | _ => True
  end.

(** The body [{ students: { deleteMany: {} } }] of a course update: a
    nested write that deletes the enrollment links of the course. *)
Definition dropLinks (id : string) : Courses.UpdateBody :=
  Courses.mkUpdateBody None None None None None None None
    (Some (studentCourse_deleteMany id)).

(** Student [a] enrolls, the teacher records the attendance, the student
    cancels the enrollment. *)
Definition storeJoined : Store := (Courses.enroll no_faults studentA "c1" storeCap1).2.

Definition storeRecorded : Store :=
  (Attendance.create 1500 teacher1 (Attendance.mkCreateBody "a" "c1" PRESENT) storeJoined).2.

Definition storeLeft : Store := (Courses.cancel no_faults studentA "c1" storeRecorded).2.

(** ** Rates *)

(** [prisma.studentCourse.count({ where: { courseId } })] *)
Definition linkCount (courseId : string) (s : Store) : Z :=
  Z.of_nat (length (filter (λ key, key.2 = courseId) (elements (studentCourses s)))).

(** [prisma.attendanceRecord.count({ where: { courseId } })] *)
Definition recordCount (courseId : string) (s : Store) : Z :=
  Z.of_nat (length (filter (λ r, a_courseId r = courseId) (attendanceRecords s))).

(** What a report says of the ratio [num / den] in its rate field [rate]
    (hundredths of a percent): zero when there is nothing to divide by;
    otherwise the percentage that the doubles give, printed with two
    decimals.  That is never negative; for counts below 2^53 it is within
    half a hundredth, and a relative error of 2^-51, of the exact
    percentage, and it is the exact percentage whenever that has at most
    two decimals (and is below 2^50 hundredths). *)
Definition reported_rate (rate num den : Z) : Prop :=
  (den ≤ 0 → rate = 0)
  ∧ (0 < den → 0 ≤ num →
     rate = toFixed2 (percentage num den)
     ∧ 0 ≤ rate
     ∧ (num < 2 ^ 53 → den < 2 ^ 53 →
        (Qabs (hundredths rate - inject_Z num / inject_Z den * 100)
         <= (1 # 200) + inject_Z num / inject_Z den * 100 * (1 # 2251799813685248))%Q
        ∧ ∀ k, 10000 * num = k * den → k < 2 ^ 50 → rate = k)).

(** ** Listings *)

(** A store with two students, each with a package, a payment and an
    attendance record. *)
Definition storeTwo : Store :=
  mkStore {[ "t1" := mkUser TEACHER; "s1" := mkUser STUDENT; "s2" := mkUser STUDENT ]}
          {[ "c1" := mkCourse "kaishu" "t1" 1000 2000 20 2 CourseStatus.SCHEDULED ]}
          {[ ("s1", "c1"); ("s2", "c1") ]}
          {[ "p1" := mkCoursePackage "basic" 20 0 (1999 # 1) 90 PackageStatus.ACTIVE "s1" 10 9000;
             "p2" := mkCoursePackage "basic" 10 0 (999 # 1) 90 PackageStatus.ACTIVE "s2" 20 9000 ]}
          [ mkAttendanceRecord "s1" "c1" PRESENT 1500;
            mkAttendanceRecord "s2" "c1" LATE 1600 ]
          {[ "y1" := mkPayment (1999 # 1) WECHAT PaymentStatus.PAID (Some "p1") "s1" 10;
             "y2" := mkPayment (999 # 1) CASH PaymentStatus.PAID (Some "p2") "s2" 20 ]}.

Definition firstPage : Paging := mkPaging None None.

(** * Predicates of the further properties *)

(** The store a cancellation commits. *)
Definition cancelled (studentId id : string) (c : Course) (s : Store) : Store :=
  set_courses (insert id (Courses.decrementStudents c))
    (set_studentCourses (λ t, t ∖ {[ (studentId, id) ]}) s).

(** A course that occupies its teacher. *)
Definition active (c : Course) : Prop :=
  c_status c = CourseStatus.SCHEDULED ∨ c_status c = CourseStatus.IN_PROGRESS.

(** No teacher has two active courses whose windows meet. *)
Definition no_double_booking (s : Store) : Prop :=
  ∀ id1 c1 id2 c2,
    id1 ≠ id2 → courses s !! id1 = Some c1 → courses s !! id2 = Some c2 →
    c_teacherId c1 = c_teacherId c2 → active c1 → active c2 →
    ¬ (c_startTime c1 < c_endTime c2 ∧ c_startTime c2 < c_endTime c1).

(** An update whose conflict query covers what it writes: the body
    carries columns of the course only and not the teacher, and it either
    carries a time field (and so runs the conflict query, for the teacher
    of the course) or does not put the course into an active status. *)
Definition checkedUpdate (body : Courses.UpdateBody) : Prop :=
  columnsOnly body
  ∧ Courses.u_teacherId body = None
  ∧ (is_Some (Courses.u_startTime body) ∨ is_Some (Courses.u_endTime body)
     ∨ Courses.u_status body = None
     ∨ Courses.u_status body = Some CourseStatus.COMPLETED
     ∨ Courses.u_status body = Some CourseStatus.CANCELLED).

(** Two teachers, each with a course from 10:00 to 12:00 on day D. *)
Definition storeTwoTeachers : Store :=
  mkStore {[ "t1" := mkUser TEACHER; "t2" := mkUser TEACHER ]}
          {[ "c1" := mkCourse "kaishu" "t1" (hour 10) (hour 12) 20 0 CourseStatus.SCHEDULED;
             "c2" := mkCourse "lishu" "t2" (hour 10) (hour 12) 20 0 CourseStatus.SCHEDULED ]}
          ∅ ∅ [] ∅.

(** The first teacher hands the course over to the second and restates
    its start. *)
Definition handOver : Courses.UpdateBody :=
  Courses.mkUpdateBody None (Some (hour 10)) None None None None (Some "t2") None.

(** The caller may change the course: its teacher, or an admin. *)
Definition mayEdit (caller : Caller) (c : Course) : Prop :=
  c_teacherId c = caller_id caller ∨ caller_role caller = ADMIN.

(** Teacher [t1] with the 10:00-12:00 course and student [a] enrolled. *)
Definition storeDA : Store :=
  mkStore {[ "t1" := mkUser TEACHER; "a" := mkUser STUDENT ]}
          {[ "c1" := mkCourse "kaishu" "t1" (hour 10) (hour 12) 20 1 CourseStatus.SCHEDULED ]}
          {[ ("a", "c1") ]} ∅ [] ∅.

(** ** Packages and payments *)

(** The hours that the consume requests of a history book on package
    [id]: the hours of each request that is answered with success. *)
Fixpoint acceptedHours (id : string) (ops : list PackageOp) (s : Store) : Z :=
  match ops with
  | [] => 0
  | op :: rest =>
    match op with
    | OpConsume now caller id' body =>
      match (Packages.consume now caller id' body s).1 with
      | Success _ => if bool_decide (id' = id) then Packages.hours body else 0
      | Failure _ => 0
      end
    | OpAdminUpdate _ _ _ => 0
    end + acceptedHours id rest (applyPackageOp s op)
  end.

(** Every payment that names a package names a package of the store that
    belongs to the paying student. *)
Definition payment_ok (s : Store) : Prop :=
  ∀ k pay pid, payments s !! k = Some pay → pay_packageId pay = Some pid →
    ∃ p, coursePackages s !! pid = Some p ∧ p_studentId p = pay_studentId pay.

Inductive PaymentOp :=
  | OpPurchase (faults : Faults) (now : Z) (packageId paymentId : string)
               (caller : Caller) (body : Packages.PurchaseBody)
  | OpGrant (now : Z) (newId : string) (caller : Caller) (body : PackageAdmin.CreateBody)
  | OpUse (now : Z) (caller : Caller) (id : string) (body : Packages.ConsumeBody)
  | OpDropPackage (caller : Caller) (id : string)
  | OpPay (now : Z) (newId : string) (caller : Caller) (body : PaymentAdmin.CreateBody)
  | OpSetStatus (caller : Caller) (id : string) (st : PaymentStatus.t)
  | OpDropPayment (caller : Caller) (id : string).

Definition applyPaymentOp (s : Store) (op : PaymentOp) : Store :=
  match op with
  | OpPurchase faults now packageId paymentId caller body =>
    (Packages.purchase faults now packageId paymentId caller body s).2
  | OpGrant now newId caller body => (PackageAdmin.create now newId caller body s).2
  | OpUse now caller id body => (Packages.consume now caller id body s).2
  | OpDropPackage caller id => (PackageAdmin.delete caller id s).2
  | OpPay now newId caller body => (PaymentAdmin.create now newId caller body s).2
  | OpSetStatus caller id st => (PaymentAdmin.updateStatus caller id st s).2
  | OpDropPayment caller id => (PaymentAdmin.delete caller id s).2
  end.

Definition runPaymentOps (ops : list PaymentOp) (s : Store) : Store :=
  foldl applyPaymentOp s ops.

(** A payment request that names a package names it by a proper id (the
    empty string counts as no package for the checks of the handler, but is
    written to the row). *)
Definition properReference (op : PaymentOp) : Prop :=
  match op with
  | OpPay _ _ _ body => PaymentAdmin.packageId body ≠ Some ""
  | _ => True
  end.

(** The store of the consume scenario after the student bought a second
    package of 20 hours, valid 30 days, at time 1000. *)
Definition storeBought : Store :=
  (Packages.purchase no_faults 1000 "p2" "pay1" student1 purchase30 store20).2.

(** ** Listings *)

(** The rows of a list reply (none when the request is refused). *)
Definition rowsOf {A} (reply : Reply (Listing A)) : list A :=
  match reply with
  | Success l => rows l
  | Failure _ => []
  end.



(** A query of the packages, payments and courses with no filter. *)
Definition anyPackage (pg : Paging) : Packages.ListQuery := Packages.mkListQuery pg None None.
Definition anyPayment (pg : Paging) : Payments.ListQuery :=
  Payments.mkListQuery pg None None None None None.
Definition anyCourse (pg : Paging) : CourseQueries.ListQuery :=
  CourseQueries.mkListQuery pg None None None None.

(** A teacher, two students, two courses; student [s1] is enrolled in the
    first course only. *)
Definition storeTwoCourses : Store :=
  mkStore {[ "t1" := mkUser TEACHER; "s1" := mkUser STUDENT; "s2" := mkUser STUDENT ]}
          {[ "c1" := mkCourse "kaishu" "t1" 1000 2000 20 1 CourseStatus.SCHEDULED;
             "c2" := mkCourse "lishu" "t1" 3000 4000 20 1 CourseStatus.SCHEDULED ]}
          {[ ("s1", "c1"); ("s2", "c2") ]}
          ∅ [] ∅.

(** ** Requests to the users router *)

(** An update or a delete request: the bearer token passes [auth], then
    the handler runs with [req.user] set. *)
Inductive UserRequest :=
  | PutUser (id : string) (body : Users.UpdateBody)
  | DeleteUser (id : string).

Definition serveUser (token : Users.Bearer) (rq : UserRequest)
    (table : gmap string Users.Account) : gmap string Users.Account :=
  match Users.auth token table with
  | Refused _ => table
  | Accepted currentUser =>
    match rq with
    | PutUser id body => (Users.update currentUser id body table).2
    | DeleteUser id => (Users.delete currentUser id table).2
    end
  end.

(** The token is of an administrator whose account is active. *)
Definition activeAdmin (token : Users.Bearer) (table : gmap string Users.Account) : Prop :=
  ∃ uid a, token = Users.Verified uid ∧ table !! uid = Some a
           ∧ Users.role a = ADMIN ∧ Users.status a = Users.ACTIVE.

(** The account exists and is not active. *)
Definition lockedOut (id : string) (table : gmap string Users.Account) : Prop :=
  ∃ a, table !! id = Some a ∧ Users.status a ≠ Users.ACTIVE.

(** An administrator and a student, both active. *)
Definition accounts2 : gmap string Users.Account :=
  {[ "root" := Users.mkAccount "Wang" ADMIN Users.ACTIVE;
     "s1" := Users.mkAccount "Li" STUDENT Users.ACTIVE ]}.

Definition rootUser : string * Users.Account :=
  ("root", Users.mkAccount "Wang" ADMIN Users.ACTIVE).

(** ** Single attendance records *)

(** What [POST /attendance] demands of a request: a teacher or an admin
    records a student with the student role in a course of the caller's
    (any course, for an admin), the student is enrolled in the course and
    has no record in it yet. *)
Definition recordable (caller : Caller) (body : Attendance.CreateBody) (s : Store) : Prop :=
  requireRole [ADMIN; TEACHER] caller = true
  ∧ (∃ u, users s !! Attendance.studentId body = Some u ∧ u_role u = STUDENT)
  ∧ (∃ c, courses s !! Attendance.courseId body = Some c
          ∧ Attendance.notTeacherNorAdmin c caller = false)
  ∧ (Attendance.studentId body, Attendance.courseId body) ∈ studentCourses s
  ∧ (Attendance.studentId body, Attendance.courseId body)
      ∉ attendance_key <$> attendanceRecords s.

(** The same request with another status. *)
Definition restated (body : Attendance.CreateBody) (st : AttendanceStatus)
    : Attendance.CreateBody :=
  Attendance.mkCreateBody (Attendance.studentId body) (Attendance.courseId body) st.

(** ** Overviews *)





(** ** Proof steps *)



(** * Properties *)

(** ** Consumption of package hours *)

Lemma consume_unavailable now caller id body s p :
  requireRole [ADMIN; TEACHER] caller = true → 1 ≤ Packages.hours body →
  coursePackages s !! id = Some p →
  p_status p ≠ PackageStatus.ACTIVE →
  Packages.consume now caller id body s = (Failure PackageUnavailable, s).
Proof.
  intros Hrole Hh Hp Hst. unfold Packages.consume.
  rewrite Hrole, Hp. simpl.
  destruct (Z.leb_spec 1 (Packages.hours body)); [simpl | lia].
  by rewrite bool_decide_eq_false_2.
Qed.

Lemma consume_active now caller id body s p c :
  requireRole [ADMIN; TEACHER] caller = true → 1 ≤ Packages.hours body →
  coursePackages s !! id = Some p →
  courses s !! Packages.courseId body = Some c →
  p_status p = PackageStatus.ACTIVE →
  Packages.consume now caller id body s =
    if p_expiresAt p <? now then (Failure PackageExpired, s)
    else if p_totalHours p - p_usedHours p <? Packages.hours body
    then (Failure InsufficientHours, s)
    else (Success (Packages.mkConsumeResult
                     (p_totalHours p - (p_usedHours p + Packages.hours body))
                     (statusAfter p (Packages.hours body))),
          set_coursePackages
            (insert id (Packages.setUsage (p_usedHours p + Packages.hours body)
                                          (statusAfter p (Packages.hours body)) p)) s).
Proof.
  intros Hrole Hh Hp Hc Hst. unfold Packages.consume, statusAfter.
  rewrite Hrole, Hp, Hc. simpl.
  destruct (Z.leb_spec 1 (Packages.hours body)); [simpl | lia].
  by rewrite bool_decide_eq_true_2.
Qed.

(** C1 (as stated, refuted).  In the scenario the fourth request, one more
    hour on the package that the third request completed, is not answered
    with the insufficient-hours error: the status guard comes first and
    answers that the package is no longer usable. *)
Lemma consume_scenario_last_reply :
  let s3 := (consume20 10 (consume20 5 (consume20 5 store20).2).2).2 in
  coursePackages s3 !! "p1" = Some (package20 20 PackageStatus.COMPLETED)
  ∧ (consume20 1 s3).1 = Failure PackageUnavailable
  ∧ (consume20 1 s3).1 ≠ Failure InsufficientHours.
Proof. vm_compute. repeat split; congruence. Qed.

(** C1 (amended).  A consume-hours request of [h ≥ 1] hours by an admin or
    teacher, on an existing package [p] and an existing course, is rejected
    when [p] is not ACTIVE, when [p] has expired, or when fewer than [h]
    hours remain, each with its own error and with the store untouched;
    otherwise it succeeds, the used hours grow by exactly [h], and the
    status becomes COMPLETED when the new used hours reach the total and
    stays ACTIVE otherwise.  In the scenario from 20 hours: 5 and 5 give
    10 used, ACTIVE; 10 more give 20 used, COMPLETED; one more is rejected,
    by the status guard (package no longer usable), with nothing changed. *)
Theorem consume_spec :
  (∀ now caller id body s p c,
     requireRole [ADMIN; TEACHER] caller = true →
     1 ≤ Packages.hours body →
     coursePackages s !! id = Some p →
     courses s !! Packages.courseId body = Some c →
     let h := Packages.hours body in
     let out := Packages.consume now caller id body s in
     (p_status p ≠ PackageStatus.ACTIVE → out = (Failure PackageUnavailable, s))
     ∧ (p_status p = PackageStatus.ACTIVE → p_expiresAt p < now →
        out = (Failure PackageExpired, s))
     ∧ (p_status p = PackageStatus.ACTIVE → now ≤ p_expiresAt p →
        p_totalHours p - p_usedHours p < h →
        out = (Failure InsufficientHours, s))
     ∧ (p_status p = PackageStatus.ACTIVE → now ≤ p_expiresAt p →
        h ≤ p_totalHours p - p_usedHours p →
        ∃ p',
          out = (Success (Packages.mkConsumeResult (p_totalHours p - p_usedHours p')
                                                   (p_status p')),
                 set_coursePackages (insert id p') s)
          ∧ p_usedHours p' = p_usedHours p + h
          ∧ p_totalHours p' = p_totalHours p
          ∧ (p_totalHours p ≤ p_usedHours p' → p_status p' = PackageStatus.COMPLETED)
          ∧ (p_usedHours p' < p_totalHours p → p_status p' = PackageStatus.ACTIVE)))
  ∧ (let r1 := consume20 5 store20 in
     let r2 := consume20 5 r1.2 in
     let r3 := consume20 10 r2.2 in
     let r4 := consume20 1 r3.2 in
     r2.1 = Success (Packages.mkConsumeResult 10 PackageStatus.ACTIVE)
     ∧ coursePackages r2.2 !! "p1" = Some (package20 10 PackageStatus.ACTIVE)
     ∧ r3.1 = Success (Packages.mkConsumeResult 0 PackageStatus.COMPLETED)
     ∧ coursePackages r3.2 !! "p1" = Some (package20 20 PackageStatus.COMPLETED)
     ∧ r4.1 = Failure PackageUnavailable
     ∧ r4.2 = r3.2).
Proof.
  split.
  - intros now caller id body s p c Hrole Hh Hp Hc h out.
    split; [| split; [| split]].
    + intros Hst. by eapply consume_unavailable.
    + intros Hst Hexp. subst out. rewrite (consume_active _ _ _ _ _ p c) by done.
      destruct (Z.ltb_spec (p_expiresAt p) now); [done | lia].
    + intros Hst Hexp Hrem. subst out. rewrite (consume_active _ _ _ _ _ p c) by done.
      destruct (Z.ltb_spec (p_expiresAt p) now); [lia |].
      destruct (Z.ltb_spec (p_totalHours p - p_usedHours p) (Packages.hours body));
        [done | subst h; lia].
    + intros Hst Hexp Hrem. subst out. rewrite (consume_active _ _ _ _ _ p c) by done.
      destruct (Z.ltb_spec (p_expiresAt p) now); [lia |].
      destruct (Z.ltb_spec (p_totalHours p - p_usedHours p) (Packages.hours body));
        [subst h; lia |].
      exists (Packages.setUsage (p_usedHours p + Packages.hours body)
                                (statusAfter p (Packages.hours body)) p).
      split; [reflexivity |]. simpl. unfold statusAfter.
      repeat split; try done.
      * intros Hle. destruct (Z.leb_spec (p_totalHours p) (p_usedHours p + Packages.hours body));
          [done | subst h; lia].
      * intros Hlt. destruct (Z.leb_spec (p_totalHours p) (p_usedHours p + Packages.hours body));
          [subst h; lia | done].
  - vm_compute. repeat split; reflexivity.
Qed.

(** The first request of the scenario is accepted and books 5 hours. *)
Lemma consume_spec_witness :
  requireRole [ADMIN; TEACHER] teacher1 = true
  ∧ 1 ≤ 5
  ∧ ∃ p', consume20 5 store20
          = (Success (Packages.mkConsumeResult (20 - p_usedHours p') (p_status p')),
             set_coursePackages (insert "p1" p') store20)
          ∧ p_usedHours p' = 5.
Proof.
  split; [reflexivity |]. split; [lia |].
  destruct (proj1 consume_spec 5000 teacher1 "p1" (Packages.mkConsumeBody 5 "c1") store20
              (package20 0 PackageStatus.ACTIVE)
              (mkCourse "kaishu" "t1" 1000 2000 20 0 CourseStatus.SCHEDULED)
              eq_refl ltac:(simpl; lia) eq_refl eq_refl) as (_ & _ & _ & H).
  destruct (H eq_refl ltac:(vm_compute; congruence) ltac:(vm_compute; congruence))
    as (p' & Hout & Hused & _).
  exists p'. split; [exact Hout | exact Hused].
Defined.


(** ** The time-conflict query *)

Lemma findFirst_is_Some {V} (w : string * V → bool) (m : gmap string V) :
  is_Some (findFirst w m) ↔ ∃ k v, m !! k = Some v ∧ w (k, v) = true.
Proof.
  unfold findFirst, findMany. rewrite head_is_Some. split.
  - intros Hne.
    destruct (filter (λ kv, w kv) (map_to_list m)) as [| [k v] l] eqn:E; [done |].
    assert (Hin : (k, v) ∈ filter (λ kv, w kv) (map_to_list m)) by (rewrite E; left).
    apply list_elem_of_filter in Hin as [Hw Hin].
    apply elem_of_map_to_list in Hin.
    exists k, v. split; [done |]. by apply Is_true_true_1.
  - intros (k & v & Hkv & Hw) E.
    assert (Hin : (k, v) ∈ filter (λ kv, w kv) (map_to_list m)).
    { apply list_elem_of_filter. split; [by apply Is_true_true_2 |].
      by apply elem_of_map_to_list. }
    rewrite E in Hin. by apply elem_of_nil in Hin.
Qed.

Lemma overlapOR_spec start end_ c :
  start < end_ → c_startTime c < c_endTime c →
  Courses.overlapOR start end_ c = true ↔ c_startTime c < end_ ∧ start < c_endTime c.
Proof.
  intros Hreq Hc. unfold Courses.overlapOR.
  rewrite !orb_true_iff, !andb_true_iff, !Z.leb_le, !Z.ltb_lt. lia.
Qed.

Lemma conflictWhere_spec self teacher start end_ id c :
  start < end_ → c_startTime c < c_endTime c →
  Courses.conflictWhere self teacher start end_ (id, c) = true
  ↔ overlapping self teacher start end_ id c.
Proof.
  intros Hreq Hc. unfold Courses.conflictWhere, overlapping. simpl.
  rewrite !andb_true_iff, negb_true_iff, bool_decide_eq_false, !bool_decide_eq_true.
  rewrite (overlapOR_spec start end_ c Hreq Hc).
  rewrite !elem_of_cons, elem_of_nil. tauto.
Qed.

(** The two handlers that write a window keep every stored window
    proper. *)
Lemma create_windows_ok now newId caller body s :
  windows_ok s → windows_ok (Courses.create now newId caller body s).2.
Proof.
  intros Hwin. unfold Courses.create.
  destruct (requireRole [ADMIN; TEACHER] caller); [| done]. simpl.
  destruct (bool_decide (Courses.title body = "")); [done |].
  destruct (from_option _ true (Courses.maxStudents body)); [| done]. simpl.
  destruct (Z.leb_spec (Courses.endTime body) (Courses.startTime body)); [done |].
  destruct (Courses.startTime body <=? now); [done |].
  destruct (users s !! _) as [teacher |]; [| done].
  destruct (bool_decide (u_role teacher = TEACHER)); [| done]. simpl.
  destruct (Courses.conflictingCourse _ _ _ _ s); [done |].
  destruct (courses s !! newId) eqn:Hnew; [done |].
  unfold windows_ok. simpl.
  intros id c. destruct (decide (newId = id)) as [<- | Hne].
  - rewrite lookup_insert_eq. by intros [= <-].
  - rewrite lookup_insert_ne by done. apply Hwin.
Qed.

(** The update statement with a body of columns only: the row is
    rewritten, or the statement throws and nothing is. *)
Lemma course_write_columns id body s c :
  courses s !! id = Some c → columnsOnly body →
  Courses.course_write id body s = None
  ∨ Courses.course_write id body s
    = Some (set_courses (insert id (Courses.applyUpdate body c)) s).
Proof.
  intros Hc Hcols. unfold Courses.course_write. rewrite Hc, Hcols.
  destruct (negb _); [by left | by right].
Qed.

Lemma update_windows_ok caller id body s :
  columnsOnly body →
  windows_ok s → windows_ok (Courses.update caller id body s).2.
Proof.
  intros Hcols Hwin. unfold Courses.update.
  destruct (requireRole [ADMIN; TEACHER] caller); [| done]. simpl.
  destruct (bool_decide (Courses.u_title body = Some "")); [done |].
  destruct (from_option _ true (Courses.u_maxStudents body)); [| done]. simpl.
  destruct (courses s !! id) as [c |] eqn:Hc; [| done].
  destruct (_ && _); [done |].
  destruct (bool_decide (is_Some (Courses.u_startTime body))
            || bool_decide (is_Some (Courses.u_endTime body))) eqn:Htimed.
  - destruct (Z.leb_spec (default (c_endTime c) (Courses.u_endTime body))
                         (default (c_startTime c) (Courses.u_startTime body))); [done |].
    destruct (bool_decide (is_Some (Courses.conflictingCourse _ _ _ _ s))); [done |].
    destruct (course_write_columns id body s c Hc Hcols) as [-> | ->]; [done |].
    unfold windows_ok. simpl.
    intros id' c'. destruct (decide (id = id')) as [<- | Hne].
    + rewrite lookup_insert_eq. by intros [= <-].
    + rewrite lookup_insert_ne by done. apply Hwin.
  - apply orb_false_iff in Htimed as [H1 H2].
    apply bool_decide_eq_false_1 in H1. apply bool_decide_eq_false_1 in H2.
    destruct (course_write_columns id body s c Hc Hcols) as [-> | ->]; [done |].
    unfold Courses.applyUpdate.
    destruct (Courses.u_startTime body); [by destruct H1 |].
    destruct (Courses.u_endTime body); [by destruct H2 |].
    unfold windows_ok. simpl. intros id' c'. destruct (decide (id = id')) as [<- | Hne].
    + rewrite lookup_insert_eq. intros [= <-]. simpl. by apply (Hwin id c).
    + rewrite lookup_insert_ne by done. apply Hwin.
Qed.

(** C3.  For a requested window [start < end] and a stored course with
    window [s < e], the three-armed [OR] of the conflict query holds exactly
    when [s < end] and [start < e], that is exactly when some instant lies
    in both half-open windows; so the query of create and of update (which
    leaves the updated course itself out) finds a course exactly when the
    teacher has a SCHEDULED or IN_PROGRESS course whose window meets the
    requested one, and create and update (past their earlier checks) answer
    with the time-conflict error exactly then.  Against a 10:00-12:00 course
    of the teacher, 11:00-13:00 is rejected with that error and 12:00-13:00
    is accepted and stored. *)
Theorem conflict_iff_overlap :
  (∀ start end_ c,
     start < end_ → c_startTime c < c_endTime c →
     (Courses.overlapOR start end_ c = true
      ↔ c_startTime c < end_ ∧ start < c_endTime c)
     ∧ (Courses.overlapOR start end_ c = true
        ↔ ∃ t, (start ≤ t ∧ t < end_) ∧ (c_startTime c ≤ t ∧ t < c_endTime c)))
  ∧ (∀ self teacher start end_ s,
       start < end_ → windows_ok s →
       is_Some (Courses.conflictingCourse self teacher start end_ s)
       ↔ ∃ id c, courses s !! id = Some c ∧ overlapping self teacher start end_ id c)
  ∧ (∀ now newId caller body s teacher,
       requireRole [ADMIN; TEACHER] caller = true →
       Courses.title body ≠ "" →
       from_option (λ m, 1 ≤ m) True (Courses.maxStudents body) →
       Courses.startTime body < Courses.endTime body →
       now < Courses.startTime body →
       teacher = default (caller_id caller) (truthy (Courses.teacherId body)) →
       users s !! teacher = Some (mkUser TEACHER) →
       windows_ok s →
       Courses.create now newId caller body s = (Failure TimeConflict, s)
       ↔ ∃ id c, courses s !! id = Some c
                 ∧ overlapping None teacher (Courses.startTime body) (Courses.endTime body) id c)
  ∧ (∀ caller id body s c,
       requireRole [ADMIN; TEACHER] caller = true →
       Courses.u_title body ≠ Some "" →
       from_option (λ m, 1 ≤ m) True (Courses.u_maxStudents body) →
       courses s !! id = Some c →
       c_teacherId c = caller_id caller ∨ caller_role caller = ADMIN →
       is_Some (Courses.u_startTime body) ∨ is_Some (Courses.u_endTime body) →
       let start := default (c_startTime c) (Courses.u_startTime body) in
       let end_ := default (c_endTime c) (Courses.u_endTime body) in
       start < end_ →
       windows_ok s →
       Courses.update caller id body s = (Failure TimeConflict, s)
       ↔ ∃ id' c', courses s !! id' = Some c'
                   ∧ overlapping (Some id) (c_teacherId c) start end_ id' c')
  ∧ ((createAt 11 13).1 = Failure TimeConflict
     ∧ (createAt 11 13).2 = storeD
     ∧ (createAt 12 13).1
       = Success (mkCourse "lishu" "t1" (hour 12) (hour 13) 20 0 CourseStatus.SCHEDULED)
     ∧ courses (createAt 12 13).2 !! "c2"
       = Some (mkCourse "lishu" "t1" (hour 12) (hour 13) 20 0 CourseStatus.SCHEDULED)).
Proof.
  assert (Hquery : ∀ self teacher start end_ s,
            start < end_ → windows_ok s →
            is_Some (Courses.conflictingCourse self teacher start end_ s)
            ↔ ∃ id c, courses s !! id = Some c ∧ overlapping self teacher start end_ id c).
  { intros self teacher start end_ s Hreq Hwin. unfold Courses.conflictingCourse.
    rewrite findFirst_is_Some. split.
    - intros (id & c & Hc & Hw). exists id, c. split; [done |].
      apply conflictWhere_spec; eauto.
    - intros (id & c & Hc & Hov). exists id, c. split; [done |].
      apply conflictWhere_spec; eauto. }
  split; [| split; [exact Hquery | split; [| split]]].
  - intros start end_ c Hreq Hc. split; [by apply overlapOR_spec |].
    rewrite (overlapOR_spec start end_ c Hreq Hc). split.
    + intros [H1 H2]. exists (Z.max start (c_startTime c)). lia.
    + intros (t & ? & ?). lia.
  - intros now newId caller body s teacher Hrole Htitle Hmax Hreq Hnow -> Hteacher Hwin.
    rewrite <- (Hquery None _ _ _ s Hreq Hwin).
    unfold Courses.create. rewrite Hrole. simpl.
    rewrite bool_decide_eq_false_2 by done.
    assert (from_option (λ m, 1 <=? m) true (Courses.maxStudents body) = true) as ->.
    { destruct (Courses.maxStudents body); simpl in *; [by apply Z.leb_le | done]. }
    simpl.
    destruct (Z.leb_spec (Courses.endTime body) (Courses.startTime body)); [lia |].
    destruct (Z.leb_spec (Courses.startTime body) now); [lia |].
    rewrite Hteacher. simpl.
    destruct (Courses.conflictingCourse None _ _ _ s) as [kv |] eqn:E.
    + split; [by eexists | done].
    + split.
      * intros Hf. destruct (courses s !! newId); discriminate Hf.
      * intros [? ?]. done.
  - intros caller id body s c Hrole Htitle Hmax Hc Hown Htimed start end_ Hreq Hwin.
    rewrite <- (Hquery (Some id) _ _ _ s Hreq Hwin).
    unfold Courses.update. rewrite Hrole, Hc. simpl.
    rewrite bool_decide_eq_false_2 by done.
    assert (from_option (λ m, 1 <=? m) true (Courses.u_maxStudents body) = true) as ->.
    { destruct (Courses.u_maxStudents body); simpl in *; [by apply Z.leb_le | done]. }
    simpl.
    assert (negb (bool_decide (c_teacherId c = caller_id caller))
            && negb (bool_decide (caller_role caller = ADMIN)) = false) as ->.
    { destruct Hown as [H | H]; rewrite (bool_decide_eq_true_2 _ H); simpl;
        [done | by rewrite andb_false_r]. }
    assert (bool_decide (is_Some (Courses.u_startTime body))
            || bool_decide (is_Some (Courses.u_endTime body)) = true) as ->.
    { destruct Htimed as [H | H]; rewrite (bool_decide_eq_true_2 _ H); simpl;
        [done | by rewrite orb_true_r]. }
    fold start end_.
    destruct (Z.leb_spec end_ start); [lia |].
    case_bool_decide as Hconf; [done |].
    split; [| done].
    destruct (Courses.course_write id body s); discriminate.
  - vm_compute. repeat split; reflexivity.
Qed.

(** The 11:00-13:00 request against the 10:00-12:00 course: both windows
    are proper and the query's [OR] holds. *)
Lemma conflict_iff_overlap_witness :
  hour 11 < hour 13
  ∧ hour 10 < hour 12
  ∧ Courses.overlapOR (hour 11) (hour 13)
      (mkCourse "kaishu" "t1" (hour 10) (hour 12) 20 0 CourseStatus.SCHEDULED) = true.
Proof.
  split; [vm_compute; reflexivity |]. split; [vm_compute; reflexivity |].
  destruct (proj1 conflict_iff_overlap (hour 11) (hour 13)
              (mkCourse "kaishu" "t1" (hour 10) (hour 12) 20 0 CourseStatus.SCHEDULED)
              ltac:(vm_compute; reflexivity) ltac:(vm_compute; reflexivity))
    as [[_ H] _].
  apply H. split; vm_compute; reflexivity.
Defined.

(** ** Enrollment *)

Lemma enroll_open faults caller id s c :
  caller_role caller = STUDENT →
  courses s !! id = Some c →
  ¬ enroll_refused (caller_id caller) id c s →
  Courses.enroll faults caller id s =
    if faults 0%nat || faults 1%nat then (Failure InternalError, s)
    else (Success (), enrolled (caller_id caller) id c s).
Proof.
  intros Hrole Hc Hok. unfold enroll_refused in Hok.
  assert (Hst : c_status c = CourseStatus.SCHEDULED).
  { destruct (decide (c_status c = CourseStatus.SCHEDULED)); [done | tauto]. }
  unfold Courses.enroll, requireRole. rewrite Hrole, Hc.
  rewrite bool_decide_eq_true_2 by set_solver. simpl.
  rewrite (bool_decide_eq_true_2 _ Hst).
  simpl. rewrite bool_decide_eq_false_2 by tauto.
  destruct (Z.leb_spec (c_maxStudents c) (c_currentStudents c)); [tauto |].
  unfold transaction. simpl.
  destruct (faults 0%nat); [done |]. simpl.
  unfold studentCourse_create. rewrite bool_decide_eq_false_2 by tauto.
  destruct (faults 1%nat); [done |]. simpl.
  unfold course_update. simpl. by rewrite Hc.
Qed.

(** C5.  For a student and an existing course, enroll is rejected by a
    business rule exactly when the course is not SCHEDULED, or the student
    already has the link, or the enrolled-count has reached the capacity
    (checked in this order, each with its own error); otherwise the link
    is created and the counter incremented by one in a single transaction.
    Whatever statement of that transaction the database fails on, and on
    every rejection, the store is left as it was: neither the link nor the
    counter changes. *)
Theorem enroll_spec faults caller id s c :
  caller_role caller = STUDENT →
  courses s !! id = Some c →
  let studentId := caller_id caller in
  let out := Courses.enroll faults caller id s in
  (enroll_refused studentId id c s
   ↔ out.1 = Failure CourseNotOpen ∨ out.1 = Failure AlreadyEnrolled
     ∨ out.1 = Failure CourseFull)
  ∧ (c_status c ≠ CourseStatus.SCHEDULED → out = (Failure CourseNotOpen, s))
  ∧ (c_status c = CourseStatus.SCHEDULED → (studentId, id) ∈ studentCourses s →
     out = (Failure AlreadyEnrolled, s))
  ∧ (c_status c = CourseStatus.SCHEDULED → (studentId, id) ∉ studentCourses s →
     c_maxStudents c ≤ c_currentStudents c → out = (Failure CourseFull, s))
  ∧ (¬ enroll_refused studentId id c s →
     (faults 0%nat = false → faults 1%nat = false →
      out = (Success (), enrolled studentId id c s)
      ∧ studentCourses out.2 = {[ (studentId, id) ]} ∪ studentCourses s
      ∧ (c_currentStudents <$> courses out.2 !! id) = Some (c_currentStudents c + 1))
     ∧ (faults 0%nat = true ∨ faults 1%nat = true →
        out = (Failure InternalError, s)))
  ∧ (∀ e, out.1 = Failure e → out.2 = s).
Proof.
  intros Hrole Hc studentId out.
  assert (Hclosed :
    (c_status c ≠ CourseStatus.SCHEDULED → out = (Failure CourseNotOpen, s))
    ∧ (c_status c = CourseStatus.SCHEDULED → (studentId, id) ∈ studentCourses s →
       out = (Failure AlreadyEnrolled, s))
    ∧ (c_status c = CourseStatus.SCHEDULED → (studentId, id) ∉ studentCourses s →
       c_maxStudents c ≤ c_currentStudents c → out = (Failure CourseFull, s))).
  { subst out studentId. unfold Courses.enroll, requireRole. rewrite Hrole, Hc.
    rewrite bool_decide_eq_true_2 by set_solver. simpl.
    split; [| split].
    - intros Hst. by rewrite bool_decide_eq_false_2.
    - intros Hst Hin. rewrite (bool_decide_eq_true_2 _ Hst). simpl.
      by rewrite bool_decide_eq_true_2.
    - intros Hst Hin Hfull. rewrite (bool_decide_eq_true_2 _ Hst). simpl.
      rewrite bool_decide_eq_false_2 by done.
      by destruct (Z.leb_spec (c_maxStudents c) (c_currentStudents c)); [| lia]. }
  destruct Hclosed as (Hnotopen & Hdup & Hfull).
  assert (Hopen := enroll_open faults caller id s c Hrole Hc).
  fold studentId in Hopen. fold out in Hopen.
  destruct (decide (enroll_refused studentId id c s)) as [Hr | Hr].
  - assert (Hout : out = (Failure CourseNotOpen, s) ∨ out = (Failure AlreadyEnrolled, s)
                   ∨ out = (Failure CourseFull, s)).
    { destruct (decide (c_status c = CourseStatus.SCHEDULED)) as [Hst | Hst];
        [| by left; apply Hnotopen].
      destruct (decide ((studentId, id) ∈ studentCourses s)) as [Hin | Hin];
        [by right; left; apply Hdup |].
      right; right. apply Hfull; try done.
      destruct Hr as [? | [? | ?]]; done. }
    split; [| split; [done | split; [done | split; [done | split]]]].
    + split; [intros _ | done].
      destruct Hout as [-> | [-> | ->]]; simpl; tauto.
    + intros Hn. by destruct Hn.
    + intros e _. destruct Hout as [-> | [-> | ->]]; done.
  - specialize (Hopen Hr).
    split; [| split; [done | split; [done | split; [done | split]]]].
    + split; [done |].
      intros [H | [H | H]]; rewrite Hopen in H;
        destruct (faults 0%nat || faults 1%nat); discriminate H.
    + intros _. split.
      * intros H0 H1. rewrite Hopen, H0, H1. simpl.
        split; [done |]. split; [done |]. by rewrite lookup_insert_eq.
      * intros [H | H]; rewrite Hopen, H; [done | by rewrite orb_true_r].
    + intros e. rewrite Hopen.
      destruct (faults 0%nat || faults 1%nat); [done | discriminate].
Qed.

(** The capacity scenario: with room for one, student A gets in and the
    counter reads 1. *)
Lemma enroll_spec_witness :
  caller_role studentA = STUDENT
  ∧ (Courses.enroll no_faults studentA "c1" storeCap1).1 = Success ()
  ∧ (c_currentStudents <$> courses (Courses.enroll no_faults studentA "c1" storeCap1).2 !! "c1")
    = Some 1.
Proof.
  split; [reflexivity |].
  destruct (enroll_spec no_faults studentA "c1" storeCap1
              (mkCourse "kaishu" "t1" 1000 2000 1 0 CourseStatus.SCHEDULED)
              eq_refl eq_refl) as (_ & _ & _ & _ & H & _).
  destruct H as [H _].
  - vm_compute. intros [H | [H | H]]; [by apply H | discriminate H | by apply H].
  - destruct (H eq_refl eq_refl) as (Hout & _ & Hcount).
    split; [by rewrite Hout | exact Hcount].
Defined.

(** ** Purchase of a package *)

Lemma transaction_two faults (st1 st2 : Stmt) s :
  transaction faults [st1; st2] s =
    if faults 0%nat || faults 1%nat then None
    else match st1 s with
         | Some s1 => st2 s1
         | None => None
         end.
Proof.
  unfold transaction. simpl.
  destruct (faults 0%nat); [done |]. simpl.
  destruct (st1 s) as [s1 |]; [| by destruct (faults 1%nat)].
  destruct (faults 1%nat); [done |]. by destruct (st2 s1).
Qed.

(** [setDate] moves a date by whole days of 86,400,000 ms and fails
    exactly when the result leaves the range of [Date]. *)
Lemma addDays_spec t days :
  addDays t days
  = if bool_decide (-8640000000000000 ≤ t + days * 86400000 ≤ 8640000000000000)
    then Some (t + days * 86400000) else None.
Proof.
  unfold addDays, maxTime, msPerDay. cbv zeta.
  case_bool_decide as H.
  - rewrite (proj2 (Z.leb_le _ _)), (proj2 (Z.leb_le _ _)); [done | lia | lia].
  - destruct (Z.leb_spec (- (8640000000000000)) (t + days * 86400000)); [| done].
    destruct (Z.leb_spec (t + days * 86400000) 8640000000000000); [lia | done].
Qed.

(** The purchase handler on a request that passes the role and the
    validators. *)
Lemma purchase_outcome faults now packageId paymentId caller body s :
  caller_role caller = STUDENT →
  Packages.validPurchase body = true →
  coursePackages s !! packageId = None →
  payments s !! paymentId = None →
  Packages.purchase faults now packageId paymentId caller body s
  = if bool_decide (-8640000000000000 ≤ now + Packages.validDays body * 86400000
                    ≤ 8640000000000000)
       && negb (faults 0%nat || faults 1%nat)
    then (Success (purchasedPackage now (caller_id caller) body,
                   purchasePayment now (caller_id caller) packageId body),
          purchased now packageId paymentId (caller_id caller) body s)
    else (Failure InternalError, s).
Proof.
  intros Hrole Hvalid Hfresh1 Hfresh2.
  unfold Packages.purchase, requireRole. rewrite Hrole, Hvalid.
  rewrite bool_decide_eq_true_2 by (apply list_elem_of_singleton; done). simpl.
  rewrite addDays_spec. case_bool_decide as Hrange; simpl; [| done].
  rewrite transaction_two.
  destruct (faults 0%nat || faults 1%nat); [done |]. simpl.
  unfold coursePackage_create. rewrite Hfresh1.
  unfold payment_create. simpl. by rewrite Hfresh2.
Qed.

(** C8.  A valid purchase by a student, with ids that are free, creates
    the package and a payment for it in one transaction: either both rows
    are committed, or the store is exactly as before and the request is
    answered with an internal error.  Both rows are committed exactly when
    no statement of the transaction fails and the expiry, the time of the
    request plus the requested number of days of 86,400,000 ms, is within
    the range of [Date] (at most 8,640,000,000,000,000 ms from the epoch).
    The payment is PAID, its amount is the package price and it refers to
    the new package. *)
Theorem purchase_spec faults now packageId paymentId caller body s :
  caller_role caller = STUDENT →
  Packages.validPurchase body = true →
  coursePackages s !! packageId = None →
  payments s !! paymentId = None →
  let out := Packages.purchase faults now packageId paymentId caller body s in
  let pkg := purchasedPackage now (caller_id caller) body in
  let pay := purchasePayment now (caller_id caller) packageId body in
  let expiry := now + Packages.validDays body * 86400000 in
  (-8640000000000000 ≤ expiry ≤ 8640000000000000 →
   faults 0%nat = false → faults 1%nat = false →
   out = (Success (pkg, pay), purchased now packageId paymentId (caller_id caller) body s)
   ∧ coursePackages out.2 !! packageId = Some pkg
   ∧ payments out.2 !! paymentId = Some pay)
  ∧ (faults 0%nat = true ∨ faults 1%nat = true → out = (Failure InternalError, s))
  ∧ (expiry < -8640000000000000 ∨ 8640000000000000 < expiry →
     out = (Failure InternalError, s))
  ∧ ((coursePackages out.2 !! packageId = Some pkg ∧ payments out.2 !! paymentId = Some pay)
     ∨ (coursePackages out.2 !! packageId = None ∧ payments out.2 !! paymentId = None
        ∧ out = (Failure InternalError, s)))
  ∧ pay_status pay = PaymentStatus.PAID
  ∧ pay_amount pay = p_price pkg
  ∧ pay_packageId pay = Some packageId
  ∧ p_expiresAt pkg = expiry.
Proof.
  intros Hrole Hvalid Hfresh1 Hfresh2 out pkg pay expiry.
  pose proof (purchase_outcome faults now packageId paymentId caller body s
                Hrole Hvalid Hfresh1 Hfresh2) as Hout.
  fold out pkg pay expiry in Hout.
  split; [| split; [| split; [| split]]].
  - intros Hrange H0 H1. rewrite Hout, H0, H1.
    rewrite bool_decide_eq_true_2 by done. simpl.
    split; [done |]. by rewrite !lookup_insert_eq.
  - intros [H | H]; rewrite Hout, H; [| rewrite orb_true_r]; by rewrite andb_false_r.
  - intros Hrange. rewrite Hout. rewrite bool_decide_eq_false_2 by lia. done.
  - rewrite Hout. destruct (_ && _); simpl.
    + left. by rewrite !lookup_insert_eq.
    + right. done.
  - done.
Qed.

(** A 30-day package bought at time 1000 on the scenario store; a package
    for 100,000,000 days cannot be bought. *)
Lemma purchase_spec_witness :
  caller_role student1 = STUDENT
  ∧ Packages.validPurchase purchase30 = true
  ∧ (p_expiresAt <$> coursePackages
        (Packages.purchase no_faults 1000 "p2" "pay1" student1 purchase30 store20).2 !! "p2")
    = Some 2592001000
  ∧ (pay_amount <$> payments
        (Packages.purchase no_faults 1000 "p2" "pay1" student1 purchase30 store20).2 !! "pay1")
    = Some (1999 # 1)%Q
  ∧ Packages.purchase no_faults 1000 "p2" "pay1" student1
      (Packages.mkPurchaseBody "basic" 20 (1999 # 1) 100000000 WECHAT) store20
    = (Failure InternalError, store20).
Proof.
  split; [reflexivity |]. split; [reflexivity |].
  destruct (purchase_spec no_faults 1000 "p2" "pay1" student1 purchase30 store20
              eq_refl eq_refl eq_refl eq_refl) as (H & _).
  destruct (H ltac:(simpl; lia) eq_refl eq_refl) as (_ & Hpkg & Hpay).
  rewrite Hpkg, Hpay. split; [reflexivity |]. split; [reflexivity |].
  destruct (purchase_spec no_faults 1000 "p2" "pay1" student1
              (Packages.mkPurchaseBody "basic" 20 (1999 # 1) 100000000 WECHAT) store20
              eq_refl eq_refl eq_refl eq_refl) as (_ & _ & H' & _).
  apply H'. right. simpl. lia.
Defined.

(** ** The enrolled-count of a course *)

Section LinkCount.

Context (P : string * string → Prop) `{!∀ key, Decision (P key)}.
Implicit Types (X : gset (string * string)) (key : string * string).

Lemma size_filter_add X key :
  key ∉ X →
  size (filter P ({[ key ]} ∪ X)) =
    if decide (P key) then S (size (filter P X)) else size (filter P X).
Proof.
  intros Hnew.
  rewrite (filter_union_L (C:=gset (string * string)) P).
  rewrite (filter_singleton_L (C:=gset (string * string)) P).
  destruct (decide (P key)).
  - rewrite size_union.
    + by rewrite size_singleton.
    + apply disjoint_singleton_l. rewrite elem_of_filter. tauto.
  - by rewrite union_empty_l_L.
Qed.

Lemma size_filter_remove X key :
  key ∈ X →
  size (filter P X) =
    if decide (P key) then S (size (filter P (X ∖ {[ key ]})))
    else size (filter P (X ∖ {[ key ]})).
Proof.
  intros Hin.
  rewrite <- size_filter_add by (rewrite elem_of_difference, elem_of_singleton; tauto).
  f_equal. f_equal. apply set_eq. intros x.
  rewrite elem_of_union, elem_of_singleton, elem_of_difference, elem_of_singleton.
  destruct (decide (x = key)) as [-> | ?]; tauto.
Qed.

End LinkCount.

Lemma enrolledCount_delete_other id id' s :
  id' ≠ id →
  enrolledCount id' (set_studentCourses (filter (λ key, key.2 ≠ id)) s) = enrolledCount id' s.
Proof.
  intros Hne. unfold enrolledCount. simpl. do 2 f_equal.
  apply set_eq. intros x. rewrite !elem_of_filter. simpl. intuition congruence.
Qed.

(** What each handler leaves behind, in closed form. *)

Lemma enroll_store faults caller id s :
  (Courses.enroll faults caller id s).2 = s
  ∨ ∃ c, courses s !! id = Some c
         ∧ ((caller_id caller, id) ∉ studentCourses s)
         ∧ (c_currentStudents c < c_maxStudents c)
         ∧ (Courses.enroll faults caller id s).2 = enrolled (caller_id caller) id c s.
Proof.
  unfold Courses.enroll.
  destruct (requireRole [STUDENT] caller); [| by left]. simpl.
  destruct (courses s !! id) as [c |] eqn:Hc; [| by left].
  destruct (bool_decide (c_status c = CourseStatus.SCHEDULED)); [| by left]. simpl.
  case_bool_decide as Hin; [by left |].
  destruct (Z.leb_spec (c_maxStudents c) (c_currentStudents c)); [by left |].
  rewrite transaction_two.
  destruct (faults 0%nat || faults 1%nat); [by left |].
  unfold studentCourse_create. rewrite bool_decide_eq_false_2 by done.
  unfold course_update. simpl. rewrite Hc.
  right. exists c. done.
Qed.

(** The store a cancellation commits. *)
Lemma cancel_store faults caller id s :
  (Courses.cancel faults caller id s).2 = s
  ∨ ∃ c, courses s !! id = Some c
         ∧ (caller_id caller, id) ∈ studentCourses s
         ∧ (Courses.cancel faults caller id s).2
           = set_courses (insert id (Courses.decrementStudents c))
               (set_studentCourses (λ t, t ∖ {[ (caller_id caller, id) ]}) s).
Proof.
  unfold Courses.cancel.
  destruct (requireRole [STUDENT] caller); [| by left]. simpl.
  case_bool_decide as Hin; [| by left]. simpl.
  destruct (courses s !! id) as [c |] eqn:Hc; [| by left].
  destruct (bool_decide (c_status c = CourseStatus.SCHEDULED)); [| by left]. simpl.
  rewrite transaction_two.
  destruct (faults 0%nat || faults 1%nat); [by left |].
  unfold studentCourse_delete. rewrite bool_decide_eq_true_2 by done.
  unfold course_update. simpl. rewrite Hc.
  right. exists c. done.
Qed.

Lemma update_store caller id body s :
  columnsOnly body →
  (Courses.update caller id body s).2 = s
  ∨ ∃ c, courses s !! id = Some c
         ∧ (Courses.update caller id body s).2
           = set_courses (insert id (Courses.applyUpdate body c)) s.
Proof.
  intros Hcols. unfold Courses.update.
  destruct (requireRole [ADMIN; TEACHER] caller); [| by left]. simpl.
  destruct (bool_decide (Courses.u_title body = Some "")); [by left |].
  destruct (from_option _ true (Courses.u_maxStudents body)); [| by left]. simpl.
  destruct (courses s !! id) as [c |] eqn:Hc; [| by left].
  destruct (_ && _); [by left |].
  match goal with |- context [match ?r with Some _ => _ | None => _ end] => destruct r end;
    [by left |].
  destruct (course_write_columns id body s c Hc Hcols) as [-> | ->]; [by left |].
  right. exists c. done.
Qed.

Lemma filter_all {A} (P : A → Prop) `{!∀ x, Decision (P x)} (l : list A) :
  Forall P l → filter P l = l.
Proof.
  induction 1 as [| x l Hx _ IH]; [done |].
  rewrite filter_cons_True by done. by rewrite IH.
Qed.

(** What the delete handler leaves: the store as it was; or the store
    without the links of the course, when the second statement fails; or
    the store without the course, its links and (under [Cascade]) its
    attendance records. *)
Lemma delete_store onDelete faults caller id s :
  let s' := (Courses.delete onDelete faults caller id s).2 in
  s' = s
  ∨ (s' = set_studentCourses (filter (λ key, key.2 ≠ id)) s
     ∧ (faults 1%nat = true
        ∨ (onDelete = Restrict ∧ ∃ r, r ∈ attendanceRecords s ∧ a_courseId r = id)))
  ∨ (courses s' = delete id (courses s)
     ∧ studentCourses s' = filter (λ key, key.2 ≠ id) (studentCourses s)
     ∧ attendanceRecords s' = filter (λ r, a_courseId r ≠ id) (attendanceRecords s)
     ∧ users s' = users s ∧ coursePackages s' = coursePackages s
     ∧ payments s' = payments s).
Proof.
  simpl. unfold Courses.delete.
  destruct (requireRole [ADMIN; TEACHER] caller); [| by left]. simpl.
  destruct (courses s !! id) as [c |] eqn:Hc; [| by left].
  repeat match goal with |- context [if ?b then _ else _] => destruct b; [by left |] end.
  unfold studentCourse_deleteMany.
  destruct (faults 1%nat) eqn:Hf1; simpl; [right; left; auto |].
  unfold course_delete. simpl. rewrite Hc.
  destruct onDelete.
  - case_bool_decide as Hkept; simpl.
    + right. right. by rewrite filter_all.
    + right. left. split; [done |]. right. split; [done |].
      apply not_Forall_Exists in Hkept; [| apply _].
      apply Exists_exists in Hkept as (r & Hr & Hid). exists r. split; [done |].
      by destruct (decide (a_courseId r = id)).
  - right. right. done.
Qed.

Lemma count_ok_step s op :
  keepsCounter s op → count_ok s → count_ok (applyCourseOp s op).
Proof.
  intros Hop Hinv.
  destruct op as [faults caller id | faults caller id | caller id body
                  | onDelete faults caller id];
    simpl in *.
  - destruct (enroll_store faults caller id s) as [-> | (c & Hc & Hnew & _ & ->)]; [done |].
    intros id' c'. unfold enrolled, enrolledCount. simpl.
    rewrite size_filter_add by done. simpl.
    destruct (decide (id = id')) as [<- | Hne].
    + rewrite lookup_insert_eq. intros [= <-]. simpl.
      rewrite (Hinv id c Hc). unfold enrolledCount. lia.
    + rewrite lookup_insert_ne by done. intros Hc'. by apply Hinv.
  - destruct (cancel_store faults caller id s) as [-> | (c & Hc & Hin & ->)]; [done |].
    intros id' c'. unfold enrolledCount. simpl. intros Hc'.
    pose proof (size_filter_remove (λ key, key.2 = id') _ _ Hin) as Hsize.
    simpl in Hsize.
    destruct (decide (id = id')) as [<- | Hne].
    + rewrite lookup_insert_eq in Hc'. injection Hc' as <-. simpl.
      rewrite (Hinv id c Hc). unfold enrolledCount. lia.
    + rewrite lookup_insert_ne in Hc' by done.
      rewrite (Hinv id' c' Hc'). unfold enrolledCount. by rewrite Hsize.
  - destruct Hop as [Hop Hcols].
    destruct (update_store caller id body s Hcols) as [-> | (c & Hc & ->)]; [done |].
    intros id' c'. unfold enrolledCount. simpl.
    destruct (decide (id = id')) as [<- | Hne].
    + rewrite lookup_insert_eq. intros [= <-]. simpl. rewrite Hop. simpl.
      by apply Hinv.
    + rewrite lookup_insert_ne by done. by apply Hinv.
  - destruct Hop as [Hf1 Hrecords].
    destruct (delete_store onDelete faults caller id s)
      as [-> | [[_ [Hf | [Hr (r & Hin & Hid)]]] | (Hcs & Hlinks & _)]]; [done | congruence | |].
    { by destruct (Hrecords Hr r Hin). }
    intros id' c'. rewrite Hcs.
    destruct (decide (id = id')) as [<- | Hne].
    + by rewrite lookup_delete_eq.
    + rewrite lookup_delete_ne by done. intros Hc'.
      unfold enrolledCount. rewrite Hlinks.
      change (Z.of_nat (size (filter (λ key, key.2 = id')
                (filter (λ key, key.2 ≠ id) (studentCourses s)))))
        with (enrolledCount id' (set_studentCourses (filter (λ key, key.2 ≠ id)) s)).
      rewrite enrolledCount_delete_other by done. by apply Hinv.
Qed.

Lemma capacity_ok_step s op :
  keepsCounter s op → keepsCapacity s op → capacity_ok s → capacity_ok (applyCourseOp s op).
Proof.
  intros Hop Hcap Hinv.
  destruct op as [faults caller id | faults caller id | caller id body
                  | onDelete faults caller id];
    simpl in *.
  - destruct (enroll_store faults caller id s) as [-> | (c & Hc & _ & Hroom & ->)]; [done |].
    intros id' c'. unfold enrolled. simpl.
    destruct (decide (id = id')) as [<- | Hne].
    + rewrite lookup_insert_eq. intros [= <-]. simpl. lia.
    + rewrite lookup_insert_ne by done. by apply Hinv.
  - destruct (cancel_store faults caller id s) as [-> | (c & Hc & _ & ->)]; [done |].
    intros id' c'. simpl.
    destruct (decide (id = id')) as [<- | Hne].
    + rewrite lookup_insert_eq. intros [= <-]. simpl. specialize (Hinv id c Hc). lia.
    + rewrite lookup_insert_ne by done. by apply Hinv.
  - destruct Hop as [Hop Hcols].
    destruct (update_store caller id body s Hcols) as [-> | (c & Hc & ->)]; [done |].
    intros id' c'. simpl.
    destruct (decide (id = id')) as [<- | Hne].
    + rewrite lookup_insert_eq. intros [= <-]. simpl. rewrite Hop. simpl.
      destruct (Courses.u_maxStudents body) as [m |] eqn:Hm; simpl.
      * by eapply Hcap.
      * exact (Hinv id c Hc).
    + rewrite lookup_insert_ne by done. by apply Hinv.
  - destruct (delete_store onDelete faults caller id s)
      as [-> | [[-> _] | (Hcs & _)]]; [done | done |].
    intros id' c'. rewrite Hcs.
    destruct (decide (id = id')) as [<- | Hne].
    + by rewrite lookup_delete_eq.
    + rewrite lookup_delete_ne by done. by apply Hinv.
Qed.

(** C2 (as stated, refuted).  From a store where the counter of the course
    mirrors its links and is within capacity, two enrollments followed by a
    course update that sets [maxStudents] to 1 leave the course with two
    enrolled students and a capacity of one. *)
Lemma capacity_broken_by_update :
  count_ok storeCap2
  ∧ capacity_ok storeCap2
  ∧ courses (runCourseOps shrinkAfterEnroll storeCap2) !! "c1"
    = Some (mkCourse "kaishu" "t1" 1000 2000 1 2 CourseStatus.SCHEDULED)
  ∧ ¬ capacity_ok (runCourseOps shrinkAfterEnroll storeCap2).
Proof.
  assert (Hc : courses (runCourseOps shrinkAfterEnroll storeCap2) !! "c1"
               = Some (mkCourse "kaishu" "t1" 1000 2000 1 2 CourseStatus.SCHEDULED))
    by (vm_compute; reflexivity).
  split; [| split; [| split; [exact Hc |]]].
  - intros id c; unfold storeCap2; simpl; intros [<- <-]%lookup_singleton_Some. vm_compute. reflexivity.
  - intros id c; unfold storeCap2; simpl; intros [<- <-]%lookup_singleton_Some. vm_compute. discriminate.
  - intros Hcap. specialize (Hcap _ _ Hc). simpl in Hcap. lia.
Qed.

(** A delete that is cut short also refutes the claim as stated: under
    [Restrict] the attendance record of the course holds the course back
    after its links are gone, and the request is answered with the 500. *)
Lemma counter_broken_by_delete :
  count_ok storeRecorded
  ∧ (Courses.delete Restrict no_faults teacher1 "c1" storeRecorded).1
    = Failure InternalError
  ∧ (c_currentStudents
       <$> courses (Courses.delete Restrict no_faults teacher1 "c1" storeRecorded).2 !! "c1")
    = Some 1
  ∧ enrolledCount "c1" (Courses.delete Restrict no_faults teacher1 "c1" storeRecorded).2 = 0
  ∧ ¬ count_ok (Courses.delete Restrict no_faults teacher1 "c1" storeRecorded).2.
Proof.
  assert (Hc : courses (Courses.delete Restrict no_faults teacher1 "c1" storeRecorded).2
                 !! "c1"
               = Some (mkCourse "kaishu" "t1" 1000 2000 1 1 CourseStatus.SCHEDULED))
    by (vm_compute; reflexivity).
  assert (Hn : enrolledCount "c1"
                 (Courses.delete Restrict no_faults teacher1 "c1" storeRecorded).2 = 0)
    by (vm_compute; reflexivity).
  split; [| split; [vm_compute; reflexivity | split; [by rewrite Hc | split; [exact Hn |]]]].
  - assert (Hcs : courses storeRecorded
                  = {[ "c1" := mkCourse "kaishu" "t1" 1000 2000 1 1 CourseStatus.SCHEDULED ]})
      by (vm_compute; reflexivity).
    intros id c. rewrite Hcs. intros [<- <-]%lookup_singleton_Some.
    vm_compute. reflexivity.
  - intros Hok. specialize (Hok _ _ Hc). rewrite Hn in Hok. discriminate Hok.
Qed.

(** So does an update whose body carries a nested write: with
    [{ students: { deleteMany: {} } }] the teacher removes the links of
    the course and the counter stays. *)
Lemma counter_broken_by_nested_write :
  count_ok storeJoined
  ∧ (Courses.update teacher1 "c1" (dropLinks "c1") storeJoined).1
    = Success (mkCourse "kaishu" "t1" 1000 2000 1 1 CourseStatus.SCHEDULED)
  ∧ enrolledCount "c1" (Courses.update teacher1 "c1" (dropLinks "c1") storeJoined).2 = 0
  ∧ ¬ count_ok (Courses.update teacher1 "c1" (dropLinks "c1") storeJoined).2.
Proof.
  assert (Hc : courses (Courses.update teacher1 "c1" (dropLinks "c1") storeJoined).2 !! "c1"
               = Some (mkCourse "kaishu" "t1" 1000 2000 1 1 CourseStatus.SCHEDULED))
    by (vm_compute; reflexivity).
  assert (Hn : enrolledCount "c1"
                 (Courses.update teacher1 "c1" (dropLinks "c1") storeJoined).2 = 0)
    by (vm_compute; reflexivity).
  split; [| split; [vm_compute; reflexivity | split; [exact Hn |]]].
  - assert (Hcs : courses storeJoined
                  = {[ "c1" := mkCourse "kaishu" "t1" 1000 2000 1 1 CourseStatus.SCHEDULED ]})
      by (vm_compute; reflexivity).
    intros id c. rewrite Hcs. intros [<- <-]%lookup_singleton_Some.
    vm_compute. reflexivity.
  - intros Hok. specialize (Hok _ _ Hc). rewrite Hn in Hok. discriminate Hok.
Qed.

(** C2 (amended).  Take any sequence of enroll, cancel-enrollment,
    course-update and course-delete operations in which every update
    carries columns of the course only, and not the [currentStudents]
    column, and no delete is cut short between its two statements (its
    second statement does not fail, and under [Restrict] the course has
    no attendance records).  After it the counter of every course equals
    the number of its enrollment links; if in addition no update sets
    [maxStudents] below the enrolled-count the course has at that moment,
    the counter of every course stays within its capacity.  Enroll and
    cancel keep both under every pattern of failing statements.  (The
    update handler does not compare the new capacity with the counter, and
    the delete handler does not run its two statements in a
    transaction.) *)
Theorem counter_mirrors_links ops s :
  counterKept ops s →
  count_ok s →
  count_ok (runCourseOps ops s)
  ∧ (capacity_ok s → capacityKept ops s → capacity_ok (runCourseOps ops s)).
Proof.
  revert s. induction ops as [| op ops IH]; intros s Hops Hcount.
  - simpl. done.
  - destruct Hops as [Hop Hops]. simpl.
    destruct (IH (applyCourseOp s op)) as [IH1 IH2]; [done | by apply count_ok_step |].
    split; [exact IH1 |].
    intros Hcap [Hkeep Hrest]. apply IH2; [| done].
    by apply capacity_ok_step.
Qed.

(** The two enrollments of the scenario, followed by the deletion of the
    course by its teacher: the counter mirrors the links throughout and
    reads 2 before the deletion. *)
Lemma counter_mirrors_links_witness :
  let ops := (take 2 shrinkAfterEnroll ++ [OpDelete Restrict no_faults teacher1 "c1"])%list in
  counterKept ops storeCap2
  ∧ count_ok storeCap2
  ∧ count_ok (runCourseOps ops storeCap2)
  ∧ (c_currentStudents <$> courses (runCourseOps (take 2 shrinkAfterEnroll) storeCap2) !! "c1")
    = Some 2
  ∧ courses (runCourseOps ops storeCap2) !! "c1" = None.
Proof.
  intros ops.
  assert (H1 : counterKept ops storeCap2).
  { simpl. split; [done |]. split; [done |]. split; [| done].
    split; [done |]. intros _ r Hr. vm_compute in Hr. by apply elem_of_nil in Hr. }
  assert (H2 : count_ok storeCap2).
  { intros id c; unfold storeCap2; simpl; intros [<- <-]%lookup_singleton_Some.
    vm_compute. reflexivity. }
  split; [exact H1 |]. split; [exact H2 |].
  split; [exact (proj1 (counter_mirrors_links _ _ H1 H2)) |].
  split; vm_compute; reflexivity.
Defined.

(** ** The hours of a package *)

Lemma consume_store now caller id body s :
  (Packages.consume now caller id body s).2 = s
  ∨ ∃ p, coursePackages s !! id = Some p
         ∧ p_status p = PackageStatus.ACTIVE
         ∧ 1 ≤ Packages.hours body
         ∧ Packages.hours body ≤ p_totalHours p - p_usedHours p
         ∧ (Packages.consume now caller id body s).2
           = set_coursePackages
               (insert id (Packages.setUsage (p_usedHours p + Packages.hours body)
                                             (statusAfter p (Packages.hours body)) p)) s.
Proof.
  unfold Packages.consume.
  destruct (requireRole [ADMIN; TEACHER] caller); [| by left]. simpl.
  destruct (Z.leb_spec 1 (Packages.hours body)); [| by left]. simpl.
  destruct (coursePackages s !! id) as [p |] eqn:Hp; [| by left].
  case_bool_decide as Hst; [| by left]. simpl.
  destruct (p_expiresAt p <? now); [by left |].
  destruct (Z.ltb_spec (p_totalHours p - p_usedHours p) (Packages.hours body)); [by left |].
  destruct (courses s !! Packages.courseId body); [| by left].
  right. exists p. done.
Qed.

Lemma package_update_store caller id body s :
  (Packages.update caller id body s).2 = s
  ∨ ∃ p, coursePackages s !! id = Some p
         ∧ (Packages.update caller id body s).2
           = set_coursePackages (insert id (Packages.applyUpdate body p)) s.
Proof.
  unfold Packages.update.
  destruct (requireRole [ADMIN] caller); [| by left]. simpl.
  destruct (bool_decide (Packages.u_name body = Some "")); [by left |].
  destruct (coursePackages s !! id) as [p |] eqn:Hp; [| by left].
  right. exists p. done.
Qed.

Lemma hours_advance_refl p :
  p_usedHours p ≤ p_totalHours p → hours_advance p p.
Proof. unfold hours_advance. lia. Qed.

Lemma hours_advance_trans p1 p2 p3 :
  hours_advance p1 p2 → hours_advance p2 p3 → hours_advance p1 p3.
Proof. unfold hours_advance. lia. Qed.

Lemma hours_step s op id p :
  keepsHours op →
  coursePackages s !! id = Some p →
  p_usedHours p ≤ p_totalHours p →
  ∃ p', coursePackages (applyPackageOp s op) !! id = Some p' ∧ hours_advance p p'.
Proof.
  intros Hop Hp Hle. destruct op as [now caller id0 body | caller id0 body]; simpl in *.
  - destruct (consume_store now caller id0 body s) as [-> | (p0 & Hp0 & _ & Hh & Hrem & ->)].
    { exists p. split; [done | by apply hours_advance_refl]. }
    simpl. destruct (decide (id0 = id)) as [-> | Hne].
    + rewrite lookup_insert_eq. rewrite Hp in Hp0. injection Hp0 as <-.
      eexists. split; [done |]. unfold hours_advance. simpl. lia.
    + rewrite lookup_insert_ne by done.
      exists p. split; [done | by apply hours_advance_refl].
  - destruct Hop as [Htot Hused].
    destruct (package_update_store caller id0 body s) as [-> | (p0 & Hp0 & ->)].
    { exists p. split; [done | by apply hours_advance_refl]. }
    simpl. destruct (decide (id0 = id)) as [-> | Hne].
    + rewrite lookup_insert_eq. rewrite Hp in Hp0. injection Hp0 as <-.
      eexists. split; [done |]. unfold hours_advance. simpl.
      rewrite Htot, Hused. simpl. lia.
    + rewrite lookup_insert_ne by done.
      exists p. split; [done | by apply hours_advance_refl].
Qed.

Lemma consume_step s op id p :
  isConsume op →
  coursePackages s !! id = Some p →
  completed_if_exhausted p →
  ∃ p', coursePackages (applyPackageOp s op) !! id = Some p'
        ∧ completed_if_exhausted p'
        ∧ (p_status p ≠ PackageStatus.ACTIVE → p' = p).
Proof.
  intros Hop Hp Hinv. destruct op as [now caller id0 body | caller id0 body]; [| done].
  simpl. destruct (consume_store now caller id0 body s)
    as [-> | (p0 & Hp0 & Hact & Hh & Hrem & ->)].
  { by exists p. }
  simpl. destruct (decide (id0 = id)) as [-> | Hne].
  - rewrite lookup_insert_eq. rewrite Hp in Hp0. injection Hp0 as <-.
    eexists. split; [done |]. split; [| done].
    unfold completed_if_exhausted, statusAfter. simpl. intros Hfull.
    by destruct (Z.leb_spec (p_totalHours p) (p_usedHours p + Packages.hours body)); [| lia].
  - rewrite lookup_insert_ne by done. by exists p.
Qed.

(** C4 (as stated, refuted).  The package of the scenario is used up by one
    consume of 20 hours and is COMPLETED; the admin update with
    [status: ACTIVE] then returns it to ACTIVE, with all hours used. *)
Lemma completed_package_reactivated :
  let s1 := (consume20 20 store20).2 in
  let s2 := (Packages.update admin1 "p1" (setStatus PackageStatus.ACTIVE) s1).2 in
  coursePackages s1 !! "p1" = Some (package20 20 PackageStatus.COMPLETED)
  ∧ coursePackages s2 !! "p1" = Some (package20 20 PackageStatus.ACTIVE)
  ∧ ¬ completed_if_exhausted (package20 20 PackageStatus.ACTIVE).
Proof.
  split; [vm_compute; reflexivity |]. split; [vm_compute; reflexivity |].
  intros H. unfold completed_if_exhausted in H. simpl in H.
  specialize (H ltac:(lia)). discriminate H.
Qed.

(** C4 (amended).  Under any sequence of consume-hours requests and admin
    updates whose body carries no hour column, a package keeps its total,
    its used hours never decrease and never exceed the total.  Under
    consume-hours requests alone, a package whose hours are used up is
    COMPLETED, and a package that is not ACTIVE is never changed again, so
    consume never returns a status to ACTIVE.  (The admin update writes the
    status it is given, ACTIVE included.) *)
Theorem package_hours_bounded ops s id p :
  coursePackages s !! id = Some p →
  p_usedHours p ≤ p_totalHours p →
  Forall keepsHours ops →
  ∃ p', coursePackages (runPackageOps ops s) !! id = Some p'
        ∧ p_totalHours p' = p_totalHours p
        ∧ p_usedHours p ≤ p_usedHours p'
        ∧ p_usedHours p' ≤ p_totalHours p'
        ∧ (Forall isConsume ops → completed_if_exhausted p →
           completed_if_exhausted p'
           ∧ (p_status p ≠ PackageStatus.ACTIVE → p' = p)).
Proof.
  intros Hp Hle Hops. revert s p Hp Hle.
  induction Hops as [| op ops Hop Hops IH]; intros s p Hp Hle.
  - exists p. simpl. repeat split; try done; lia.
  - simpl.
    destruct (hours_step s op id p Hop Hp Hle) as (p1 & Hp1 & Hadv1).
    destruct (IH (applyPackageOp s op) p1 Hp1 ltac:(unfold hours_advance in Hadv1; lia))
      as (p' & Hp' & Htot & Hlo & Hhi & Hcons).
    exists p'. unfold hours_advance in Hadv1.
    split; [done |]. split; [lia |]. split; [lia |]. split; [lia |].
    intros Hall Hinv. apply Forall_cons in Hall as [Hc Hall].
    destruct (consume_step s op id p Hc Hp Hinv) as (p1' & Hp1' & Hinv1 & Hfix).
    rewrite Hp1 in Hp1'. injection Hp1' as <-.
    destruct (Hcons Hall Hinv1) as [Hinv' Hfix'].
    split; [done |]. intros Hst.
    rewrite <- (Hfix Hst). apply Hfix'. by rewrite (Hfix Hst).
Qed.

(** The three accepted consumes of the scenario: 20 of 20 hours used,
    COMPLETED. *)
Lemma package_hours_bounded_witness :
  let ops := [ OpConsume 5000 teacher1 "p1" (Packages.mkConsumeBody 5 "c1");
               OpConsume 5000 teacher1 "p1" (Packages.mkConsumeBody 5 "c1");
               OpConsume 5000 teacher1 "p1" (Packages.mkConsumeBody 10 "c1") ] in
  0 ≤ 20
  ∧ Forall keepsHours ops
  ∧ ∃ p', coursePackages (runPackageOps ops store20) !! "p1" = Some p'
          ∧ p_usedHours p' ≤ p_totalHours p'
          ∧ p' = package20 20 PackageStatus.COMPLETED.
Proof.
  intros ops. split; [lia |].
  assert (Hk : Forall keepsHours ops) by (repeat constructor).
  split; [exact Hk |].
  destruct (package_hours_bounded ops store20 "p1" (package20 0 PackageStatus.ACTIVE)
              eq_refl ltac:(simpl; lia) Hk) as (p' & Hp' & _ & _ & Hhi & _).
  exists p'. split; [exact Hp' |]. split; [exact Hhi |].
  vm_compute in Hp'. by injection Hp' as <-.
Defined.

(** ** Batch attendance *)

(** A duplicate-free list of found keys, all of them listed, as long as
    the list: the listed keys are exactly the found ones, each once. *)
Lemma counted_all {A} (found listed : list A) :
  NoDup found → (∀ x, x ∈ found → x ∈ listed) →
  length found = length listed → found ≡ₚ listed.
Proof.
  intros Hnd Hsub Hlen. apply submseteq_length_Permutation; [| lia].
  by apply NoDup_submseteq.
Qed.

Lemma counted_same {A} (found listed : list A) :
  NoDup found → NoDup listed → (∀ x, x ∈ found ↔ x ∈ listed) →
  length found = length listed.
Proof. intros. apply Permutation_length. by apply NoDup_Permutation. Qed.

Section Batch.

Context (s : Store) (courseId : string) (studentIds : list string).

Local Abbreviation students := (foundStudents s studentIds).
Local Abbreviation enrollments := (foundEnrollments s courseId studentIds).
Local Abbreviation existingRecords := (foundRecords s courseId studentIds).

Lemma students_NoDup : NoDup (students.*1).
Proof.
  eapply sublist_NoDup; [apply (NoDup_fst_map_to_list (users s)) |].
  apply fmap_sublist. apply sublist_filter.
Qed.

Lemma elem_of_students x :
  x ∈ students.*1 ↔ x ∈ studentIds ∧ ∃ u, users s !! x = Some u ∧ u_role u = STUDENT.
Proof.
  unfold foundStudents, findMany. rewrite list_elem_of_fmap. split.
  - intros ([k u] & -> & Hin). apply list_elem_of_filter in Hin as [Hw Hin].
    apply elem_of_map_to_list in Hin. simpl in *.
    apply andb_prop_elim in Hw as [H1 H2].
    apply bool_decide_unpack in H1. apply bool_decide_unpack in H2. eauto.
  - intros (Hin & u & Hu & Hrole). exists (x, u). split; [done |].
    apply list_elem_of_filter. split; [| by apply elem_of_map_to_list].
    simpl. apply andb_prop_intro. split; by apply bool_decide_pack.
Qed.

Lemma enrollments_NoDup : NoDup (enrollments.*1).
Proof.
  apply NoDup_fmap_2_strong; [| apply NoDup_filter, NoDup_elements].
  intros [x1 y1] [x2 y2] [[_ H1] _]%list_elem_of_filter [[_ H2] _]%list_elem_of_filter.
  simpl in *. congruence.
Qed.

Lemma elem_of_enrollments x :
  x ∈ enrollments.*1 ↔ x ∈ studentIds ∧ (x, courseId) ∈ studentCourses s.
Proof.
  unfold foundEnrollments. rewrite list_elem_of_fmap. split.
  - intros ([k c] & -> & Hin). apply list_elem_of_filter in Hin as [[H1 H2] Hin].
    apply elem_of_elements in Hin. simpl in *. by subst.
  - intros [Hin Hlink]. exists (x, courseId). split; [done |].
    apply list_elem_of_filter. split; [done | by apply elem_of_elements].
Qed.

Lemma existingRecords_nil :
  existingRecords = [] ↔
  ∀ x, x ∈ studentIds → (x, courseId) ∉ attendance_key <$> attendanceRecords s.
Proof.
  unfold foundRecords. split.
  - intros Hnil x Hx [r [Hkey Hr]]%list_elem_of_fmap.
    injection Hkey as Hsid Hcid.
    assert (Hin : r ∈ filter (λ r, a_courseId r = courseId ∧ a_studentId r ∈ studentIds)
                             (attendanceRecords s)).
    { apply list_elem_of_filter. split; [| done]. split; [done |]. by rewrite <- Hsid. }
    rewrite Hnil in Hin. by apply elem_of_nil in Hin.
  - intros Hnone.
    destruct (filter _ (attendanceRecords s)) as [| r l] eqn:E; [done |].
    assert (Hin : r ∈ filter (λ r, a_courseId r = courseId ∧ a_studentId r ∈ studentIds)
                             (attendanceRecords s)) by (rewrite E; left).
    apply list_elem_of_filter in Hin as [[H1 H2] Hin].
    exfalso. apply (Hnone _ H2). apply list_elem_of_fmap. exists r.
    split; [| done]. unfold attendance_key. by rewrite H1.
Qed.

(** The length test on the students found passes exactly when the listed
    ids are distinct and each is a user with the STUDENT role. *)
Lemma students_counted :
  length students = length studentIds ↔
  NoDup studentIds
  ∧ ∀ x, x ∈ studentIds → ∃ u, users s !! x = Some u ∧ u_role u = STUDENT.
Proof.
  rewrite <- (length_fmap fst students). split.
  - intros Hlen.
    assert (Hperm : students.*1 ≡ₚ studentIds).
    { apply counted_all; [apply students_NoDup | | done].
      intros x Hx. by apply elem_of_students in Hx as [? _]. }
    split; [rewrite <- Hperm; apply students_NoDup |].
    intros x Hx. rewrite <- Hperm in Hx. by apply elem_of_students in Hx as [_ ?].
  - intros [Hnd Hall]. apply counted_same; [apply students_NoDup | done |].
    intros x. rewrite elem_of_students. split; [tauto | intros Hx; split; [done | by apply Hall]].
Qed.

(** Likewise for the enrollment links found. *)
Lemma enrollments_counted :
  length enrollments = length studentIds ↔
  NoDup studentIds ∧ ∀ x, x ∈ studentIds → (x, courseId) ∈ studentCourses s.
Proof.
  rewrite <- (length_fmap fst enrollments). split.
  - intros Hlen.
    assert (Hperm : enrollments.*1 ≡ₚ studentIds).
    { apply counted_all; [apply enrollments_NoDup | | done].
      intros x Hx. by apply elem_of_enrollments in Hx as [? _]. }
    split; [rewrite <- Hperm; apply enrollments_NoDup |].
    intros x Hx. rewrite <- Hperm in Hx. by apply elem_of_enrollments in Hx as [_ ?].
  - intros [Hnd Hall]. apply counted_same; [apply enrollments_NoDup | done |].
    intros x. rewrite elem_of_enrollments.
    split; [tauto | intros Hx; split; [done | by apply Hall]].
Qed.

End Batch.

Lemma batchRows_keys now courseId records :
  attendance_key <$> batchRows now courseId records
  = (λ sid, (sid, courseId)) <$> (Attendance.item_studentId <$> records).
Proof. induction records as [| r l IH]; simpl; [done | by f_equal]. Qed.

Lemma createMany_batch now courseId records s :
  unique_ok s →
  NoDup (Attendance.item_studentId <$> records) →
  (∀ x, x ∈ Attendance.item_studentId <$> records →
        (x, courseId) ∉ attendance_key <$> attendanceRecords s) →
  attendanceRecord_createMany (batchRows now courseId records) s
  = Some (set_attendanceRecords (λ t, (t ++ batchRows now courseId records)%list) s).
Proof.
  intros Huniq Hnd Hfresh. unfold attendanceRecord_createMany.
  rewrite bool_decide_eq_true_2; [done |].
  rewrite fmap_app, batchRows_keys. apply NoDup_app. split; [done |]. split.
  - intros key Hkey [x [-> Hx]]%list_elem_of_fmap. by apply (Hfresh x).
  - apply NoDup_fmap_2; [| done]. intros x y. congruence.
Qed.

Lemma batchRows_none now courseId records sid :
  sid ∉ Attendance.item_studentId <$> records →
  filter (λ r, attendance_key r = (sid, courseId)) (batchRows now courseId records) = [].
Proof.
  induction records as [| item l IH]; [done |].
  intros Hnotin. apply not_elem_of_cons in Hnotin as [Hne Hnotin].
  simpl. rewrite filter_cons. rewrite decide_False.
  - by apply IH.
  - unfold attendance_key. simpl. congruence.
Qed.

(** A batch of distinct students holds exactly one row for each. *)
Lemma batchRows_once now courseId records sid :
  NoDup (Attendance.item_studentId <$> records) →
  sid ∈ Attendance.item_studentId <$> records →
  length (filter (λ r, attendance_key r = (sid, courseId)) (batchRows now courseId records))
  = 1%nat.
Proof.
  induction records as [| item l IH]; [by intros _ ?%elem_of_nil |].
  intros [Hnotin Hnd]%NoDup_cons Hsid. simpl. rewrite filter_cons.
  destruct (decide (Attendance.item_studentId item = sid)) as [Heq | Hne].
  - rewrite decide_True by (unfold attendance_key; simpl; congruence).
    simpl. rewrite batchRows_none; [done | by rewrite <- Heq].
  - rewrite decide_False by (unfold attendance_key; simpl; congruence).
    apply IH; [done |]. apply elem_of_cons in Hsid as [? | ?]; [congruence | done].
Qed.

(** An insert that goes through leaves the unique index intact. *)
Lemma createMany_unique rows s s' :
  attendanceRecord_createMany rows s = Some s' → unique_ok s'.
Proof.
  unfold attendanceRecord_createMany, unique_ok.
  case_bool_decide; [| discriminate]. by intros [= <-].
Qed.

(** The handler, past the permission checks. *)
Lemma batch_authorized now caller body s course :
  requireRole [ADMIN; TEACHER] caller = true →
  courses s !! Attendance.b_courseId body = Some course →
  Attendance.notTeacherNorAdmin course caller = false →
  let courseId := Attendance.b_courseId body in
  let ids := Attendance.item_studentId <$> Attendance.records body in
  Attendance.batch now caller body s =
    if negb (bool_decide (length (foundStudents s ids) = length ids))
    then (Failure SomeStudentInvalid, s)
    else if negb (bool_decide (length (foundEnrollments s courseId ids) = length ids))
    then (Failure SomeNotEnrolled, s)
    else if bool_decide (0 < length (foundRecords s courseId ids))%nat
    then (Failure SomeRecordExists, s)
    else match attendanceRecord_createMany
                 (batchRows now courseId (Attendance.records body)) s with
         | Some s' => (Success (length (batchRows now courseId (Attendance.records body))), s')
         | None => (Failure InternalError, s)
         end.
Proof.
  intros Hrole Hc Hperm. unfold Attendance.batch. by rewrite Hrole, Hc, Hperm.
Qed.

(** C7 (as stated, refuted).  Student [a] is a STUDENT user, is enrolled in
    the course and has no attendance record, so no listed student fails any
    of the three tests; yet a batch that lists [a] twice is rejected and
    creates no record. *)
Lemma batch_rejects_repeated_student :
  admissible "c1" storeClass "a"
  ∧ Attendance.batch 1500 teacher1 (batchOf ["a"; "a"]) storeClass
    = (Failure SomeStudentInvalid, storeClass)
  ∧ attendanceRecords (Attendance.batch 1500 teacher1 (batchOf ["a"; "a"]) storeClass).2 = [].
Proof.
  split; [| split; vm_compute; reflexivity].
  split; [| split].
  - exists (mkUser STUDENT). split; vm_compute; reflexivity.
  - vm_compute. reflexivity.
  - simpl. apply not_elem_of_nil.
Qed.

(** C7 (amended).  For a caller allowed to record attendance on an existing
    course: if any listed student is not a user with the STUDENT role, or
    lacks an enrollment link for the course, or already has an attendance
    record for it, the whole request is rejected with a 400 and the store is
    unchanged (zero records created); a list that names a student twice is
    rejected in the same way, whatever the students; otherwise, the listed
    students being pairwise distinct, the request succeeds and appends
    exactly one record per listed student.  No rejected request changes the
    store. *)
Theorem batch_all_or_nothing now caller body s course :
  requireRole [ADMIN; TEACHER] caller = true →
  courses s !! Attendance.b_courseId body = Some course →
  Attendance.notTeacherNorAdmin course caller = false →
  unique_ok s →
  let courseId := Attendance.b_courseId body in
  let ids := Attendance.item_studentId <$> Attendance.records body in
  let out := Attendance.batch now caller body s in
  ((∃ sid, sid ∈ ids ∧ ¬ admissible courseId s sid) →
   ∃ e, out = (Failure e, s) ∧ http_status e = 400)
  ∧ (¬ NoDup ids → out = (Failure SomeStudentInvalid, s))
  ∧ ((∀ sid, sid ∈ ids → admissible courseId s sid) → NoDup ids →
     out = (Success (length (Attendance.records body)),
            set_attendanceRecords
              (λ t, (t ++ batchRows now courseId (Attendance.records body))%list) s)
     ∧ length (attendanceRecords out.2)
       = (length (attendanceRecords s) + length (Attendance.records body))%nat
     ∧ ∀ sid, sid ∈ ids →
         length (filter (λ r, attendance_key r = (sid, courseId)) (attendanceRecords out.2))
         = 1%nat)
  ∧ (∀ e, out.1 = Failure e → out.2 = s).
Proof.
  intros Hrole Hc Hperm Huniq courseId ids out.
  pose proof (batch_authorized now caller body s course Hrole Hc Hperm) as Hout.
  simpl in Hout. fold courseId ids out in Hout.
  pose proof (students_counted s ids) as Hst.
  pose proof (enrollments_counted s courseId ids) as Hen.
  pose proof (existingRecords_nil s courseId ids) as Hex.
  split; [| split; [| split]].
  - intros (sid & Hsid & Hbad). rewrite Hout.
    case_bool_decide as H1; simpl; [| by eexists].
    case_bool_decide as H2; simpl; [| by eexists].
    case_bool_decide as H3; simpl; [by eexists |].
    exfalso. apply Hbad. split; [| split].
    + by apply Hst.
    + by apply Hen.
    + apply Hex; [| done]. destruct (foundRecords s courseId ids); [done | simpl in H3; lia].
  - intros Hdup. rewrite Hout.
    case_bool_decide as H1; simpl; [| done].
    exfalso. apply Hdup. by apply Hst.
  - intros Hall Hnd.
    assert (Hfresh : ∀ x, x ∈ ids → (x, courseId) ∉ attendance_key <$> attendanceRecords s).
    { intros x Hx. by destruct (Hall x Hx) as (_ & _ & ?). }
    assert (Hgo : out = (Success (length (Attendance.records body)),
                         set_attendanceRecords
                           (λ t, (t ++ batchRows now courseId (Attendance.records body))%list) s)).
    { rewrite Hout.
      rewrite bool_decide_eq_true_2; simpl.
      2:{ apply Hst. split; [done |]. intros x Hx. by destruct (Hall x Hx) as (? & _). }
      rewrite bool_decide_eq_true_2; simpl.
      2:{ apply Hen. split; [done |]. intros x Hx. by destruct (Hall x Hx) as (_ & ? & _). }
      rewrite (proj2 Hex Hfresh). simpl.
      rewrite createMany_batch by done.
      unfold batchRows. by rewrite length_fmap. }
    split; [exact Hgo |]. rewrite Hgo. simpl. split.
    + rewrite length_app. unfold batchRows. by rewrite length_fmap.
    + intros sid Hsid. rewrite filter_app, length_app.
      assert (filter (λ r, attendance_key r = (sid, courseId)) (attendanceRecords s) = []) as ->.
      { destruct (filter _ (attendanceRecords s)) as [| r l] eqn:E; [done |].
        assert (Hin : r ∈ filter (λ r, attendance_key r = (sid, courseId))
                                 (attendanceRecords s)) by (rewrite E; left).
        apply list_elem_of_filter in Hin as [Hk Hin].
        exfalso. apply (Hfresh sid Hsid). apply list_elem_of_fmap. by exists r. }
      simpl. by apply batchRows_once.
  - intros e. rewrite Hout.
    repeat (case_bool_decide; simpl; [| done]).
    case_bool_decide; simpl; [done |].
    destruct (attendanceRecord_createMany _ s); [discriminate | done].
Qed.

(** The batch scenario: four of the five listed students are enrolled,
    the fifth is not; the batch is rejected and the store is unchanged. *)
Lemma batch_all_or_nothing_witness :
  requireRole [ADMIN; TEACHER] teacher1 = true
  ∧ unique_ok storeClass
  ∧ ∃ e, Attendance.batch 1500 teacher1 (batchOf ["a"; "b"; "c"; "d"; "e"]) storeClass
         = (Failure e, storeClass)
         ∧ http_status e = 400.
Proof.
  split; [reflexivity |].
  assert (Hu : unique_ok storeClass) by (unfold unique_ok; simpl; constructor).
  split; [exact Hu |].
  destruct (batch_all_or_nothing 1500 teacher1 (batchOf ["a"; "b"; "c"; "d"; "e"]) storeClass
              (mkCourse "kaishu" "t1" 1000 2000 20 4 CourseStatus.SCHEDULED)
              eq_refl eq_refl eq_refl Hu) as (H & _).
  apply H. exists "e". split.
  - simpl. repeat constructor.
  - intros (_ & Hlink & _). vm_compute in Hlink. discriminate Hlink.
Defined.

(** ** Attendance records and enrollment links *)

Lemma create_success now caller body s r s' :
  Attendance.create now caller body s = (Success r, s') →
  (Attendance.studentId body, Attendance.courseId body) ∈ studentCourses s
  ∧ r = mkAttendanceRecord (Attendance.studentId body) (Attendance.courseId body)
                           (Attendance.status body) now
  ∧ s' = set_attendanceRecords (λ t, (t ++ [r])%list) s.
Proof.
  unfold Attendance.create.
  destruct (requireRole [ADMIN; TEACHER] caller); [| discriminate]. simpl.
  destruct (users s !! Attendance.studentId body) as [u |]; [| discriminate].
  destruct (bool_decide (u_role u = STUDENT)); [| discriminate]. simpl.
  destruct (courses s !! Attendance.courseId body) as [c |]; [| discriminate].
  destruct (Attendance.notTeacherNorAdmin c caller); [discriminate |].
  case_bool_decide as Hlink; [| discriminate]. simpl.
  case_bool_decide as Hrec; [discriminate |].
  unfold attendanceRecord_createMany.
  case_bool_decide; [| discriminate].
  intros [= <- <-]. done.
Qed.

Lemma batch_success now caller body s n s' :
  Attendance.batch now caller body s = (Success n, s') →
  (∀ sid, sid ∈ Attendance.item_studentId <$> Attendance.records body →
          (sid, Attendance.b_courseId body) ∈ studentCourses s)
  ∧ n = length (Attendance.records body)
  ∧ s' = set_attendanceRecords
           (λ t, (t ++ batchRows now (Attendance.b_courseId body)
                                 (Attendance.records body))%list) s.
Proof.
  unfold Attendance.batch.
  destruct (requireRole [ADMIN; TEACHER] caller); [| discriminate]. simpl.
  destruct (courses s !! Attendance.b_courseId body) as [c |]; [| discriminate].
  destruct (Attendance.notTeacherNorAdmin c caller); [discriminate |].
  case_bool_decide as H1; [| discriminate]. simpl.
  case_bool_decide as H2; [| discriminate]. simpl.
  case_bool_decide as H3; [discriminate |].
  unfold attendanceRecord_createMany.
  case_bool_decide; [| discriminate].
  intros [= <- <-].
  split; [| split; [by rewrite length_fmap | done]].
  by apply (enrollments_counted s (Attendance.b_courseId body)) in H2 as [_ ?].
Qed.

Lemma attendance_ok_step s op :
  plainEdit op → attendance_ok s → attendance_ok (applyAttendanceOp s op).
Proof.
  intros Hop Hinv.
  destruct op as [now caller body | now caller body | faults caller id | caller id body];
    simpl.
  - destruct (Attendance.create now caller body s) as [[r | e] s'] eqn:E.
    + apply create_success in E as (Hlink & -> & ->). simpl.
      intros r' [Hr' | ->%list_elem_of_singleton]%elem_of_app; [by apply Hinv | done].
    + simpl. revert E. unfold Attendance.create, attendanceRecord_createMany.
      repeat (case_match; try discriminate); by intros [= _ <-].
  - destruct (Attendance.batch now caller body s) as [[n | e] s'] eqn:E.
    + apply batch_success in E as (Hlinks & _ & ->). simpl.
      intros r' [Hr' | Hr']%elem_of_app; [by apply Hinv |].
      apply list_elem_of_fmap in Hr' as (item & -> & Hitem). simpl.
      apply Hlinks. apply list_elem_of_fmap. by exists item.
    + simpl. revert E. unfold Attendance.batch, attendanceRecord_createMany.
      repeat (case_match; try discriminate); by intros [= _ <-].
  - destruct (enroll_store faults caller id s) as [-> | (c & _ & _ & _ & ->)]; [done |].
    intros r Hr. simpl in *. apply elem_of_union_r. by apply Hinv.
  - destruct (update_store caller id body s Hop) as [-> | (c & _ & ->)]; [done |].
    intros r Hr. simpl in *. by apply Hinv.
Qed.

(** C6 (as stated, refuted).  A student enrolls in a scheduled course, the
    teacher records the attendance, and the student cancels the
    enrollment: the cancellation succeeds, removes the link and leaves the
    attendance record, which then has no enrollment link. *)
Lemma attendance_outlives_enrollment :
  attendance_ok storeRecorded
  ∧ (Courses.cancel no_faults studentA "c1" storeRecorded).1 = Success ()
  ∧ attendanceRecords storeLeft = [mkAttendanceRecord "a" "c1" PRESENT 1500]
  ∧ (("a", "c1") ∉ studentCourses storeLeft)
  ∧ ¬ attendance_ok storeLeft.
Proof.
  assert (Hrec : attendanceRecords storeLeft = [mkAttendanceRecord "a" "c1" PRESENT 1500])
    by (vm_compute; reflexivity).
  assert (Hnolink : ("a", "c1") ∉ studentCourses storeLeft).
  { intros Hin. vm_compute in Hin. discriminate Hin. }
  split; [| split; [vm_compute; reflexivity | split; [exact Hrec | split; [exact Hnolink |]]]].
  - intros r Hr. vm_compute in Hr. apply list_elem_of_singleton in Hr as ->.
    vm_compute. reflexivity.
  - intros Hok. apply Hnolink.
    apply (Hok (mkAttendanceRecord "a" "c1" PRESENT 1500)). rewrite Hrec. by left.
Qed.

(** An update whose body carries a nested write refutes it as well: with
    [{ students: { deleteMany: {} } }] the teacher removes the links of
    the course and its attendance records stay. *)
Lemma attendance_unlinked_by_nested_write :
  attendance_ok storeRecorded
  ∧ (Courses.update teacher1 "c1" (dropLinks "c1") storeRecorded).1
    = Success (mkCourse "kaishu" "t1" 1000 2000 1 1 CourseStatus.SCHEDULED)
  ∧ ¬ attendance_ok (Courses.update teacher1 "c1" (dropLinks "c1") storeRecorded).2.
Proof.
  split; [| split; [vm_compute; reflexivity |]].
  - intros r Hr. vm_compute in Hr. apply list_elem_of_singleton in Hr as ->.
    vm_compute. reflexivity.
  - intros Hok.
    assert (Hin : ("a", "c1")
                    ∈ studentCourses
                        (Courses.update teacher1 "c1" (dropLinks "c1") storeRecorded).2).
    { apply (Hok (mkAttendanceRecord "a" "c1" PRESENT 1500)).
      vm_compute. by left. }
    vm_compute in Hin. discriminate Hin.
Qed.

(** The deletion of a course is not among the operations that keep the
    property either: under [Restrict] the attendance record of the course
    holds the course back after its links are gone. *)
Lemma attendance_unlinked_by_delete :
  attendance_ok storeRecorded
  ∧ (Courses.delete Restrict no_faults teacher1 "c1" storeRecorded).1
    = Failure InternalError
  ∧ ¬ attendance_ok (Courses.delete Restrict no_faults teacher1 "c1" storeRecorded).2.
Proof.
  split; [| split; [vm_compute; reflexivity |]].
  - intros r Hr. vm_compute in Hr. apply list_elem_of_singleton in Hr as ->.
    vm_compute. reflexivity.
  - intros Hok.
    assert (Hin : ("a", "c1")
                    ∈ studentCourses
                        (Courses.delete Restrict no_faults teacher1 "c1" storeRecorded).2).
    { apply (Hok (mkAttendanceRecord "a" "c1" PRESENT 1500)).
      vm_compute. by left. }
    vm_compute in Hin. discriminate Hin.
Qed.

(** C6 (amended).  An attendance record is created, singly or in a batch,
    only for a pair that has an enrollment link at that moment; and the
    property that every attendance record has an enrollment link for its
    pair is preserved by any sequence of attendance creations (single and
    batch), enrollments and course updates whose bodies carry columns of
    the course only.  (Cancellation of an enrollment removes the link and
    leaves the records of the pair in place; an update with a nested
    write on the links of the course does the same.) *)
Theorem attendance_needs_link :
  (∀ now caller body s r s',
     Attendance.create now caller body s = (Success r, s') →
     (a_studentId r, a_courseId r) ∈ studentCourses s
     ∧ attendanceRecords s' = (attendanceRecords s ++ [r])%list)
  ∧ (∀ now caller body s n s',
       Attendance.batch now caller body s = (Success n, s') →
       ∃ rows, attendanceRecords s' = (attendanceRecords s ++ rows)%list
               ∧ length rows = n
               ∧ ∀ r, r ∈ rows → (a_studentId r, a_courseId r) ∈ studentCourses s)
  ∧ (∀ ops s, Forall plainEdit ops → attendance_ok s →
              attendance_ok (runAttendanceOps ops s)).
Proof.
  split; [| split].
  - intros now caller body s r s' E.
    apply create_success in E as (Hlink & -> & ->). done.
  - intros now caller body s n s' E.
    apply batch_success in E as (Hlinks & -> & ->).
    exists (batchRows now (Attendance.b_courseId body) (Attendance.records body)).
    split; [done |]. split; [unfold batchRows; by rewrite length_fmap |].
    intros r (item & -> & Hitem)%list_elem_of_fmap. simpl.
    apply Hlinks. apply list_elem_of_fmap. by exists item.
  - intros ops s Hops. revert s.
    induction Hops as [| op ops Hop Hops IH]; intros s Hinv; [done |].
    simpl. apply IH. by apply attendance_ok_step.
Qed.

(** The record of student [a] was created while the link existed. *)
Lemma attendance_needs_link_witness :
  Attendance.create 1500 teacher1 (Attendance.mkCreateBody "a" "c1" PRESENT) storeJoined
  = (Success (mkAttendanceRecord "a" "c1" PRESENT 1500), storeRecorded)
  ∧ ("a", "c1") ∈ studentCourses storeJoined.
Proof.
  assert (E : Attendance.create 1500 teacher1 (Attendance.mkCreateBody "a" "c1" PRESENT)
                storeJoined
              = (Success (mkAttendanceRecord "a" "c1" PRESENT 1500), storeRecorded))
    by (vm_compute; reflexivity).
  split; [exact E |].
  exact (proj1 (proj1 attendance_needs_link _ _ _ _ _ _ E)).
Defined.

(** ** Rates of the reports *)

Lemma toFixed2_near (x : Q) :
  (0 <= x)%Q → (Qabs (hundredths (toFixed2 x) - x) <= 1 # 200)%Q.
Proof.
  intros Hx. unfold toFixed2.
  rewrite (proj2 (Qle_bool_iff _ _) Hx).
  set (y := (x * 100 + (1 # 2))%Q).
  pose proof (Qfloor_le y) as H1. pose proof (Qlt_floor y) as H2.
  rewrite inject_Z_plus in H2.
  assert (Hh : (hundredths (Qfloor y) == inject_Z (Qfloor y) * (1 # 100))%Q).
  { unfold hundredths. rewrite (Qmake_Qdiv (Qfloor y) 100). reflexivity. }
  apply Qabs_Qle_condition. rewrite Hh. subst y.
  generalize dependent (inject_Z (Qfloor (x * 100 + (1 # 2)))). intros q H1 H2 _.
  change (inject_Z 1) with 1%Q in H2.
  split; lra.
Qed.

(** ** Doubles *)

Local Open Scope Q_scope.

Lemma pow2_pos (e : Z) : 0 < 2 ^ e.
Proof. by apply Qpower_0_lt. Qed.

Lemma pow2_plus (a b : Z) : 2 ^ (a + b) == 2 ^ a * 2 ^ b.
Proof. by apply Qpower_plus. Qed.

Lemma pow2_succ (e : Z) : 2 ^ (e + 1) == 2 * 2 ^ e.
Proof. rewrite pow2_plus. change (2 ^ 1) with 2. ring. Qed.

Lemma pow2_pred (e : Z) : 2 ^ e == 2 * 2 ^ (e - 1).
Proof. rewrite <- pow2_succ. by replace (e - 1 + 1)%Z with e by lia. Qed.

Lemma pow2_le (a b : Z) : (a <= b)%Z -> 2 ^ a <= 2 ^ b.
Proof. intros H. by apply Qpower_le_compat_l. Qed.

Lemma pow2_lt (a b : Z) : (a < b)%Z -> 2 ^ a < 2 ^ b.
Proof. intros H. by apply Qpower_lt_compat_l. Qed.

Lemma pow2_lt_inv (a b : Z) : 2 ^ a < 2 ^ b -> (a < b)%Z.
Proof. intros H. by apply (Qpower_lt_compat_l_inv 2). Qed.

Lemma pow2_Z (n : Z) : (0 <= n)%Z -> 2 ^ n == inject_Z (2 ^ n).
Proof. intros H. by rewrite Zpower_Qpower. Qed.

Lemma pow2_inv (a : Z) : 2 ^ a * 2 ^ (- a) == 1.
Proof. rewrite <- pow2_plus. by replace (a + - a)%Z with 0%Z by lia. Qed.

(** The exponent of [x > 0] is the [e] with [2^e <= x < 2^(e+1)]. *)
Lemma exponent_spec (x : Q) :
  0 < x -> 2 ^ Double.exponent x <= x < 2 ^ (Double.exponent x + 1).
Proof.
  intros Hx. unfold Double.exponent.
  destruct x as [p q]. simpl Qnum. simpl Qden.
  assert (Hp : (0 < p)%Z).
  { unfold Qlt in Hx. simpl in Hx. lia. }
  set (a := Z.log2 p). set (b := Z.log2 (Z.pos q)).
  destruct (Z.log2_spec p Hp) as [Ha1 Ha2]. fold a in Ha1, Ha2.
  destruct (Z.log2_spec (Z.pos q) ltac:(lia)) as [Hb1 Hb2]. fold b in Hb1, Hb2.
  assert (Ha0 : (0 <= a)%Z) by apply Z.log2_nonneg.
  assert (Hb0 : (0 <= b)%Z) by apply Z.log2_nonneg.
  assert (Hpq : p # q == inject_Z p / inject_Z (Z.pos q)) by apply Qmake_Qdiv.
  assert (Hq0 : 0 < inject_Z (Z.pos q)).
  { change 0 with (inject_Z 0). rewrite <- Zlt_Qlt. lia. }
  assert (Hup : p # q < 2 ^ (a - b + 1)).
  { rewrite Hpq. apply Qlt_shift_div_r; [done |].
    apply Qlt_le_trans with (2 ^ (a + 1)).
    - rewrite pow2_Z by lia. rewrite <- Zlt_Qlt. lia.
    - replace (a + 1)%Z with ((a - b + 1) + b)%Z by lia. rewrite pow2_plus.
      apply Qmult_le_l; [apply pow2_pos |].
      rewrite pow2_Z by lia. rewrite <- Zle_Qle. lia. }
  assert (Hlow : 2 ^ (a - b - 1) <= p # q).
  { rewrite Hpq. apply Qle_shift_div_l; [done |].
    apply Qle_trans with (2 ^ a).
    - replace a with ((a - b - 1) + (b + 1))%Z at 2 by lia. rewrite pow2_plus.
      apply Qmult_le_l; [apply pow2_pos |].
      rewrite pow2_Z by lia. rewrite <- Zle_Qle. lia.
    - rewrite pow2_Z by lia. rewrite <- Zle_Qle. lia. }
  destruct (Qle_bool (2 ^ (a - b)) (p # q)) eqn:E.
  - apply Qle_bool_iff in E. split; [done | done].
  - split; [done |].
    replace (a - b - 1 + 1)%Z with (a - b)%Z by lia.
    apply Qnot_le_lt. intros H. apply Qle_bool_iff in H. congruence.
Qed.

Lemma exponent_unique (x : Q) (e : Z) :
  2 ^ e <= x < 2 ^ (e + 1) -> Double.exponent x = e.
Proof.
  intros [H1 H2].
  assert (Hx : 0 < x) by (eapply Qlt_le_trans; [apply (pow2_pos e) | done]).
  destruct (exponent_spec x Hx) as [H3 H4].
  assert (e < Double.exponent x + 1)%Z.
  { apply pow2_lt_inv. eapply Qle_lt_trans; done. }
  assert (Double.exponent x < e + 1)%Z.
  { apply pow2_lt_inv. eapply Qle_lt_trans; done. }
  lia.
Qed.


Lemma exponent_eq (x y : Q) : 0 < x -> x == y -> Double.exponent x = Double.exponent y.
Proof.
  intros Hx Hxy. symmetry. apply exponent_unique. rewrite <- Hxy. by apply exponent_spec.
Qed.

Lemma exponent_le (x y : Q) : 0 < x -> x <= y -> (Double.exponent x <= Double.exponent y)%Z.
Proof.
  intros Hx Hxy.
  destruct (exponent_spec x Hx) as [H1 _].
  destruct (exponent_spec y (Qlt_le_trans _ _ _ Hx Hxy)) as [_ H2].
  assert (Double.exponent x < Double.exponent y + 1)%Z; [| lia].
  apply pow2_lt_inv. eapply Qle_lt_trans; [exact H1 |]. eapply Qle_lt_trans; done.
Qed.

(** *** The nearest integer *)

Lemma nearestEven_cases (m : Q) :
  let n := Qfloor m in
  let r := m - inject_Z n in
  0 <= r < 1
  /\ ((r < 1 # 2 /\ Double.nearestEven m = n)
      \/ (1 # 2 < r /\ Double.nearestEven m = (n + 1)%Z)
      \/ (r == 1 # 2 /\ Double.nearestEven m = if Z.even n then n else (n + 1)%Z)).
Proof.
  intros n r.
  pose proof (Qfloor_le m) as H1. pose proof (Qlt_floor m) as H2.
  fold n in H1, H2. rewrite inject_Z_plus in H2. change (inject_Z 1) with 1 in H2.
  split; [subst r; split; lra |].
  unfold Double.nearestEven. fold n. fold r.
  destruct (r ?= 1 # 2) eqn:E.
  - right. right. by apply Qeq_alt in E.
  - left. by apply Qlt_alt in E.
  - right. left. by apply Qgt_alt in E.
Qed.

Lemma nearestEven_near (m : Q) :
  Qabs (inject_Z (Double.nearestEven m) - m) <= 1 # 2.
Proof.
  destruct (nearestEven_cases m) as [[H1 H2] [[H ->] | [[H ->] | [H ->]]]];
    apply Qabs_Qle_condition;
    try (destruct (Z.even (Qfloor m)));
    rewrite ?inject_Z_plus; change (inject_Z 1) with 1; split; lra.
Qed.

Lemma nearestEven_Z (n : Z) : Double.nearestEven (inject_Z n) = n.
Proof.
  destruct (nearestEven_cases (inject_Z n)) as [_ H].
  rewrite Qfloor_Z in H.
  destruct H as [[_ ->] | [[H _] | [H _]]]; [done | lra | lra].
Qed.

Lemma nearestEven_le (m m' : Q) :
  m <= m' -> (Double.nearestEven m <= Double.nearestEven m')%Z.
Proof.
  intros Hle.
  pose proof (Qfloor_resp_le _ _ Hle) as Hfl.
  destruct (nearestEven_cases m) as [[A1 A2] A].
  destruct (nearestEven_cases m') as [[B1 B2] B].
  destruct (Z.eq_dec (Qfloor m) (Qfloor m')) as [Heq | Hne].
  - rewrite Heq in *.
    destruct A as [[HA ->] | [[HA ->] | [HA ->]]];
      destruct B as [[HB ->] | [[HB ->] | [HB ->]]];
      try (destruct (Z.even (Qfloor m'))); try lia; lra.
  - assert (Double.nearestEven m <= Qfloor m + 1)%Z.
    { destruct A as [[HA ->] | [[HA ->] | [HA ->]]];
        try (destruct (Z.even (Qfloor m))); lia. }
    assert (Qfloor m' <= Double.nearestEven m')%Z.
    { destruct B as [[HB ->] | [[HB ->] | [HB ->]]];
        try (destruct (Z.even (Qfloor m'))); lia. }
    lia.
Qed.

#[local] Instance nearestEven_comp : Proper (Qeq ==> eq) Double.nearestEven.
Proof.
  intros x y Hxy. apply Z.le_antisymm; apply nearestEven_le; rewrite Hxy; apply Qle_refl.
Qed.

(** *** Rounding to a double *)

Lemma round_0 (x : Q) : x == 0 -> Double.round x = 0.
Proof.
  intros Hx. unfold Double.round.
  destruct (x ?= 0) eqn:E; [done | apply Qlt_alt in E; lra | apply Qgt_alt in E; lra].
Qed.

Lemma round_pos (x : Q) :
  0 < x ->
  Double.round x == inject_Z (Double.nearestEven (x / Double.ulp x)) * Double.ulp x.
Proof.
  intros Hx. unfold Double.round.
  destruct (x ?= 0) eqn:E; [apply Qeq_alt in E; lra | apply Qlt_alt in E; lra |].
  apply Qred_correct.
Qed.

Lemma round_neg (x : Q) : x < 0 -> Double.round x == - Double.round (- x).
Proof.
  intros Hx. rewrite (round_pos (- x)) by lra.
  unfold Double.round.
  destruct (x ?= 0) eqn:E; [apply Qeq_alt in E; lra | | apply Qgt_alt in E; lra].
  apply Qred_correct.
Qed.

Lemma ulp_pos (x : Q) : 0 < Double.ulp x.
Proof. apply pow2_pos. Qed.

(** The significand of [x > 0] lies between [2^52] and [2^53]. *)
Lemma significand_bounds (x : Q) :
  0 < x ->
  inject_Z (2 ^ 52) <= x / Double.ulp x < inject_Z (2 ^ 53).
Proof.
  intros Hx. destruct (exponent_spec x Hx) as [H1 H2].
  unfold Double.ulp. set (e := Double.exponent x) in *.
  rewrite <- !pow2_Z by lia.
  assert (Hu := pow2_pos (e - 52)).
  split.
  - apply Qle_shift_div_l; [done |]. rewrite <- pow2_plus.
    by replace (52 + (e - 52))%Z with e by lia.
  - apply Qlt_shift_div_r; [done |]. rewrite <- pow2_plus.
    by replace (53 + (e - 52))%Z with (e + 1)%Z by lia.
Qed.

Lemma round_bounds (x : Q) :
  0 < x ->
  2 ^ Double.exponent x <= Double.round x <= 2 ^ (Double.exponent x + 1).
Proof.
  intros Hx. rewrite (round_pos x Hx).
  destruct (significand_bounds x Hx) as [H1 H2].
  apply nearestEven_le in H1. apply Qlt_le_weak, nearestEven_le in H2.
  rewrite nearestEven_Z in H1, H2.
  unfold Double.ulp in *. set (e := Double.exponent x) in *.
  set (n := Double.nearestEven _) in *.
  assert (Hu := pow2_pos (e - 52)).
  split.
  - replace e with (52 + (e - 52))%Z at 1 by lia. rewrite pow2_plus.
    apply Qmult_le_compat_r; [| lra]. rewrite pow2_Z by lia. by rewrite <- Zle_Qle.
  - replace (e + 1)%Z with (53 + (e - 52))%Z by lia. rewrite pow2_plus.
    apply Qmult_le_compat_r; [| lra]. rewrite pow2_Z by lia. by rewrite <- Zle_Qle.
Qed.

Lemma round_nonneg (x : Q) : 0 <= x -> 0 <= Double.round x.
Proof.
  intros Hx. destruct (Qlt_le_dec 0 x) as [Hpos | Hle].
  - destruct (round_bounds x Hpos) as [H _].
    pose proof (pow2_pos (Double.exponent x)). lra.
  - rewrite round_0 by lra. lra.
Qed.

#[local] Instance round_comp : Proper (Qeq ==> Qeq) Double.round.
Proof.
  assert (Hpos : forall x y, 0 < x -> x == y -> Double.round x == Double.round y).
  { intros x y Hx Hxy.
    assert (Hy : 0 < y) by (by rewrite <- Hxy).
    rewrite (round_pos x Hx), (round_pos y Hy).
    unfold Double.ulp. rewrite <- (exponent_eq x y Hx Hxy).
    set (u := 2 ^ (Double.exponent x - 52)).
    assert (Hm : x / u == y / u) by (apply Qdiv_comp; [done | reflexivity]).
    by rewrite (nearestEven_comp _ _ Hm). }
  intros x y Hxy. destruct (Qlt_le_dec 0 x) as [Hx | Hx]; [by apply Hpos |].
  destruct (Qlt_le_dec x 0) as [Hx' | Hx'].
  - assert (Hy' : y < 0) by (by rewrite <- Hxy).
    rewrite (round_neg x Hx'), (round_neg y Hy').
    apply Qopp_comp. apply Hpos; [lra | by apply Qopp_comp].
  - assert (Hy0 : y == 0) by (rewrite <- Hxy; lra).
    rewrite (round_0 x), (round_0 y); [done | done | lra].
Qed.

(** Rounding is monotone. *)
Lemma round_le (x y : Q) : 0 <= x -> x <= y -> Double.round x <= Double.round y.
Proof.
  intros Hx Hxy. destruct (Qlt_le_dec 0 x) as [Hpos | Hle].
  2:{ rewrite (round_0 x) by lra. apply round_nonneg. lra. }
  assert (Hy : 0 < y) by lra.
  pose proof (exponent_le x y Hpos Hxy) as He.
  destruct (Z.eq_dec (Double.exponent x) (Double.exponent y)) as [Heq | Hne].
  - rewrite (round_pos x Hpos), (round_pos y Hy). unfold Double.ulp. rewrite Heq.
    assert (Hu := pow2_pos (Double.exponent y - 52)).
    apply Qmult_le_compat_r; [| lra]. rewrite <- Zle_Qle. apply nearestEven_le.
    apply Qmult_le_compat_r; [done |]. apply Qlt_le_weak, Qinv_lt_0_compat, Hu.
  - destruct (round_bounds x Hpos) as [_ H1]. destruct (round_bounds y Hy) as [H2 _].
    eapply Qle_trans; [exact H1 |]. eapply Qle_trans; [| exact H2].
    apply pow2_le. lia.
Qed.

(** A number with a significand of at most 53 bits is a double. *)
Lemma round_exact (x : Q) (k j : Z) :
  x == inject_Z k * 2 ^ j -> (0 < k < 2 ^ 53)%Z -> Double.round x == x.
Proof.
  intros Hx [Hk1 Hk2].
  assert (Hkq : 0 < inject_Z k) by (change 0 with (inject_Z 0); rewrite <- Zlt_Qlt; lia).
  assert (Hpos : 0 < x).
  { rewrite Hx. apply Qmult_lt_0_compat; [done | apply pow2_pos]. }
  rewrite (round_pos x Hpos).
  destruct (exponent_spec x Hpos) as [H1 H2].
  unfold Double.ulp. set (e := Double.exponent x) in *.
  assert (He : (e - 52 <= j)%Z).
  { assert (e < 53 + j)%Z; [| lia]. apply pow2_lt_inv.
    eapply Qle_lt_trans; [exact H1 |]. rewrite Hx. rewrite (pow2_plus 53).
    apply Qmult_lt_compat_r; [apply pow2_pos |].
    rewrite pow2_Z by lia. by rewrite <- Zlt_Qlt. }
  assert (Hm : x / 2 ^ (e - 52) == inject_Z (k * 2 ^ (j - (e - 52)))).
  { rewrite inject_Z_mult, <- pow2_Z by lia. rewrite Hx.
    replace j with ((j - (e - 52)) + (e - 52))%Z at 1 by lia. rewrite pow2_plus.
    field. pose proof (pow2_pos (e - 52)). lra. }
  rewrite Hm, nearestEven_Z, <- Hm. field.
  pose proof (pow2_pos (e - 52)). lra.
Qed.

Lemma round_Z (n : Z) : (0 <= n <= 2 ^ 53)%Z -> Double.round (inject_Z n) == inject_Z n.
Proof.
  intros [H1 H2]. destruct (Z.eq_dec n 0%Z) as [-> | Hn]; [done |].
  destruct (Z.eq_dec n (2 ^ 53)%Z) as [-> | Hm].
  - apply (round_exact _ 1 53); [| lia]. rewrite pow2_Z by lia. ring.
  - apply (round_exact _ n 0); [| lia]. change (2 ^ 0) with 1. ring.
Qed.

(** The rounding error is at most half a unit in the last place. *)
Lemma round_error (x : Q) :
  0 < x -> Qabs (Double.round x - x) <= x * (1 # 9007199254740992).
Proof.
  intros Hx. rewrite (round_pos x Hx).
  destruct (exponent_spec x Hx) as [H1 _].
  pose proof (nearestEven_near (x / Double.ulp x)) as Hn.
  unfold Double.ulp in *. set (e := Double.exponent x) in *.
  set (n := inject_Z (Double.nearestEven _)) in *.
  assert (Hu := pow2_pos (e - 52)). set (u := 2 ^ (e - 52)) in *.
  assert (He : 2 ^ e == u * inject_Z (2 ^ 52)).
  { subst u. rewrite <- pow2_Z by lia. rewrite <- pow2_plus.
    by replace (e - 52 + 52)%Z with e by lia. }
  rewrite He in H1.
  assert (Hd : n * u - x == (n - x / u) * u) by (field; lra).
  rewrite Hd, Qabs_Qmult, (Qabs_pos u) by lra.
  apply Qle_trans with ((1 # 2) * u).
  - apply Qmult_le_compat_r; [done | lra].
  - change (inject_Z (2 ^ 52)) with (4503599627370496 # 1) in H1. lra.
Qed.

Lemma round_error_nonneg (x : Q) :
  0 <= x -> Qabs (Double.round x - x) <= x * (1 # 9007199254740992).
Proof.
  intros Hx. destruct (Qlt_le_dec 0 x) as [Hpos | Hle]; [by apply round_error |].
  rewrite (round_0 x) by lra. apply Qabs_Qle_condition. split; lra.
Qed.

Lemma ofZ_exact (n : Z) : (0 <= n <= 2 ^ 53)%Z -> Double.ofZ n == inject_Z n.
Proof. apply round_Z. Qed.

Lemma ofZ_le (m n : Z) : (0 <= m <= n)%Z -> Double.ofZ m <= Double.ofZ n.
Proof.
  intros [H1 H2]. apply round_le.
  - change 0 with (inject_Z 0). by rewrite <- Zle_Qle.
  - by rewrite <- Zle_Qle.
Qed.

Lemma ofZ_pos (n : Z) : (0 < n)%Z -> 1 <= Double.ofZ n.
Proof.
  intros Hn. apply Qle_trans with (Double.ofZ 1); [| apply ofZ_le; lia].
  apply Qle_lteq. right. symmetry. apply (ofZ_exact 1). lia.
Qed.

(** The quotient of two counts, as a double, and the percentage. *)
Lemma quotient_bounds (num den : Z) :
  (0 <= num <= den)%Z -> (0 < den)%Z ->
  0 <= Double.div (Double.ofZ num) (Double.ofZ den) <= 1.
Proof.
  intros Hn Hd.
  pose proof (ofZ_le 0 num ltac:(lia)) as H0. rewrite (ofZ_exact 0) in H0 by lia.
  pose proof (ofZ_le num den ltac:(lia)) as H1.
  pose proof (ofZ_pos den Hd) as H2.
  change (inject_Z 0) with 0 in H0.
  set (a := Double.ofZ num) in *. set (b := Double.ofZ den) in *.
  assert (Hq : 0 <= a / b <= 1).
  { split.
    - apply Qle_shift_div_l; lra.
    - apply Qle_shift_div_r; lra. }
  unfold Double.div. split.
  - apply round_nonneg. lra.
  - apply Qle_trans with (Double.round 1); [apply round_le; lra |].
    apply Qle_lteq. right. apply (round_Z 1). lia.
Qed.

Lemma percentage_nonneg (num den : Z) :
  (0 <= num)%Z -> (0 < den)%Z -> 0 <= percentage num den.
Proof.
  intros Hn Hd. unfold percentage, Double.mul, Double.div.
  pose proof (ofZ_le 0 num ltac:(lia)) as H0. rewrite (ofZ_exact 0) in H0 by lia.
  change (inject_Z 0) with 0 in H0.
  pose proof (ofZ_pos den Hd) as H2.
  apply round_nonneg.
  assert (0 <= Double.round (Double.ofZ num / Double.ofZ den)); [| lra].
  apply round_nonneg. apply Qle_shift_div_l; lra.
Qed.

Lemma percentage_bounds (num den : Z) :
  (0 <= num <= den)%Z -> (0 < den)%Z -> 0 <= percentage num den <= 100.
Proof.
  intros Hn Hd. split; [apply percentage_nonneg; lia |].
  destruct (quotient_bounds num den Hn Hd) as [H1 H2].
  unfold percentage, Double.mul.
  apply Qle_trans with (Double.round 100); [apply round_le; lra |].
  apply Qle_lteq. right. apply (round_Z 100). lia.
Qed.

Lemma toFixed2_le (x y : Q) : 0 <= x -> x <= y -> (toFixed2 x <= toFixed2 y)%Z.
Proof.
  intros Hx Hxy. unfold toFixed2.
  rewrite (proj2 (Qle_bool_iff 0 x)) by done.
  rewrite (proj2 (Qle_bool_iff 0 y)) by lra.
  apply Qfloor_resp_le. lra.
Qed.

#[local] Instance toFixed2_comp : Proper (Qeq ==> eq) toFixed2.
Proof.
  intros x y Hxy. unfold toFixed2.
  assert ((Qle_bool 0 x) = (Qle_bool 0 y)) as -> by (by rewrite Hxy).
  destruct (Qle_bool 0 y).
  - apply Qfloor_comp. by rewrite Hxy.
  - f_equal. apply Qfloor_comp. by rewrite Hxy.
Qed.

(** A rate is a percentage between 0 and 100. *)
Lemma rate_bounds (num den : Z) :
  (0 <= num <= den)%Z ->
  (0 <= (if (0 <? den)%Z then toFixed2 (percentage num den) else 0%Z) <= 10000)%Z.
Proof.
  intros Hn. destruct (Z.ltb_spec 0 den) as [Hd |]; [| lia].
  destruct (percentage_bounds num den Hn Hd) as [H1 H2]. split.
  - change 0%Z with (toFixed2 0). apply toFixed2_le; [lra | done].
  - change 10000%Z with (toFixed2 100). by apply toFixed2_le.
Qed.

(** The percentage of two counts below [2^53], against the exact one. *)
Lemma percentage_error (num den : Z) :
  (0 <= num < 2 ^ 53)%Z -> (0 < den < 2 ^ 53)%Z ->
  Qabs (percentage num den - inject_Z num / inject_Z den * 100)
  <= inject_Z num / inject_Z den * 100 * (1 # 2251799813685248).
Proof.
  intros Hn Hd. unfold percentage, Double.mul, Double.div.
  assert (Hq0 : 0 <= inject_Z num / inject_Z den).
  { apply Qle_shift_div_l.
    - change 0 with (inject_Z 0). rewrite <- Zlt_Qlt. lia.
    - rewrite Qmult_0_l. change 0 with (inject_Z 0). rewrite <- Zle_Qle. lia. }
  assert (Hab : Double.ofZ num / Double.ofZ den == inject_Z num / inject_Z den).
  { rewrite !ofZ_exact by lia. reflexivity. }
  rewrite (round_comp _ _ Hab).
  set (q := inject_Z num / inject_Z den) in *.
  pose proof (round_error_nonneg q Hq0) as E1.
  pose proof (round_nonneg q Hq0) as N1.
  set (d := Double.round q) in *.
  assert (Hy0 : 0 <= d * 100) by lra.
  pose proof (round_error_nonneg (d * 100) Hy0) as E2.
  set (m := Double.round (d * 100)) in *.
  apply Qabs_Qle_condition in E1 as [E1a E1b].
  apply Qabs_Qle_condition in E2 as [E2a E2b].
  apply Qabs_Qle_condition. split; lra.
Qed.


Lemma Qfloor_unique (y : Q) (k : Z) : inject_Z k <= y < inject_Z k + 1 -> Qfloor y = k.
Proof.
  intros [H1 H2].
  pose proof (Qfloor_le y) as F1. pose proof (Qlt_floor y) as F2.
  rewrite inject_Z_plus in F2. change (inject_Z 1) with 1 in F2.
  assert (Ha : inject_Z (Qfloor y) < inject_Z (k + 1)).
  { rewrite inject_Z_plus. change (inject_Z 1) with 1. lra. }
  assert (Hb : inject_Z k < inject_Z (Qfloor y + 1)).
  { rewrite inject_Z_plus. change (inject_Z 1) with 1. lra. }
  rewrite <- Zlt_Qlt in Ha, Hb. lia.
Qed.


(** A percentage with at most two decimals is reported exactly. *)
Lemma rate_exact (num den k : Z) :
  (0 <= num < 2 ^ 53)%Z -> (0 < den < 2 ^ 53)%Z ->
  (10000 * num = k * den)%Z -> (k < 2 ^ 50)%Z ->
  toFixed2 (percentage num den) = k.
Proof.
  intros Hn Hd Hk Hsmall.
  pose proof (percentage_error num den Hn Hd) as E.
  pose proof (percentage_nonneg num den ltac:(lia) ltac:(lia)) as N.
  assert (Hk0 : (0 <= k)%Z) by nia.
  assert (Hden : 0 < inject_Z den).
  { change 0 with (inject_Z 0). rewrite <- Zlt_Qlt. lia. }
  assert (Hq : inject_Z num / inject_Z den * 100 == inject_Z k * (1 # 100)).
  { assert (Hz : inject_Z 10000 * inject_Z num == inject_Z k * inject_Z den).
    { rewrite <- !inject_Z_mult. by rewrite Hk. }
    change (inject_Z 10000) with 10000 in Hz.
    field_simplify_eq; [| lra]. lra. }
  rewrite Hq in E.
  assert (Hkq : 0 <= inject_Z k < 1125899906842624).
  { split.
    - change 0 with (inject_Z 0). rewrite <- Zle_Qle. lia.
    - change 1125899906842624 with (inject_Z (2 ^ 50)). rewrite <- Zlt_Qlt. lia. }
  apply Qabs_Qle_condition in E as [E1 E2].
  unfold toFixed2. rewrite (proj2 (Qle_bool_iff _ _) N).
  apply Qfloor_unique. clear Hq N.
  generalize dependent (percentage num den). generalize dependent (inject_Z k).
  intros kq Hkq x E1 E2. split; lra.
Qed.


Local Close Scope Q_scope.

(** The guarded percentage of the report rows. *)
Lemma guarded_rate num den :
  reported_rate (if 0 <? den then toFixed2 (percentage num den) else 0) num den.
Proof.
  split.
  - intros Hden. by destruct (Z.ltb_spec 0 den); [lia |].
  - intros Hden Hnum. destruct (Z.ltb_spec 0 den); [| lia].
    split; [done |].
    pose proof (percentage_nonneg num den Hnum Hden) as Hpos.
    split.
    { change 0 with (toFixed2 0). by apply toFixed2_le. }
    intros Hn Hd. split.
    + pose proof (percentage_error num den ltac:(lia) ltac:(lia)) as E.
      pose proof (toFixed2_near (percentage num den) Hpos) as F.
      apply Qabs_Qle_condition in E as [E1 E2].
      apply Qabs_Qle_condition in F as [F1 F2].
      apply Qabs_Qle_condition.
      generalize dependent (hundredths (toFixed2 (percentage num den))).
      generalize dependent (percentage num den).
      generalize dependent (inject_Z num / inject_Z den)%Q.
      intros q x Hx E1 E2 h F1 F2. split; lra.
    + intros k Hk Hsmall. apply rate_exact; lia.
Qed.

(** The statistics of one course: who is answered, and with what. *)
Lemma courseStatistics_reply caller courseId s :
  Attendance.courseStatistics caller courseId s
  = match courses s !! courseId with
    | None => Failure CourseNotFound
    | Some course =>
      if Attendance.notTeacherNorAdmin course caller then Failure Forbidden
      else Success (Attendance.mkCourseStatistics
                      (linkCount courseId s)
                      (Attendance.countStatus courseId PRESENT s)
                      (Attendance.countStatus courseId ABSENT s)
                      (Attendance.countStatus courseId LATE s)
                      (Attendance.countStatus courseId LEAVE s)
                      (if 0 <? linkCount courseId s
                       then toFixed2 (percentage (recordCount courseId s)
                                                 (linkCount courseId s))
                       else 0))
    end.
Proof. reflexivity. Qed.

Lemma courseStatistics_success caller courseId s st :
  Attendance.courseStatistics caller courseId s = Success st →
  Attendance.totalStudents st = linkCount courseId s
  ∧ Attendance.attendanceRate st =
      if 0 <? linkCount courseId s
      then toFixed2 (percentage (recordCount courseId s) (linkCount courseId s))
      else 0.
Proof.
  rewrite courseStatistics_reply.
  destruct (courses s !! courseId) as [c |]; [| discriminate].
  destruct (Attendance.notTeacherNorAdmin c caller); [discriminate |].
  by intros [= <-].
Qed.

(** C9.  Every rate of the reports is zero when its denominator count is
    zero (or not positive), and no division takes place; when the
    denominator is positive the rate is the ratio as a percentage, as the
    doubles give it, printed with two decimals.  It is never negative; for
    counts below 2^53 it is within 0.005, and a relative error of 2^-51,
    of the exact percentage, and it is the exact percentage whenever that
    has at most two decimals.  The ratios are: present records over all
    records (daily, per-teacher, per-student and per-course reports and
    their [attendanceRate]), enrolled-count over capacity
    ([enrollmentRate]), used hours over total hours ([usageRate]), and,
    in the statistics of one course, attendance records of the course
    over its enrollment links; these statistics are given to the teacher
    of the course and to an admin, for every course that exists.  23
    present records of 160 are reported as 14.37: the double nearest to
    14.375 is below it. *)
Theorem rate_spec :
  (∀ stat, reported_rate (Statistics.attendanceRate stat)
                         (Statistics.present_count stat) (Statistics.total_records stat))
  ∧ (∀ stat, reported_rate (Statistics.personAttendanceRate stat)
                           (Statistics.present_records stat)
                           (Statistics.total_attendance_records stat))
  ∧ (∀ stat, reported_rate (Statistics.courseAttendanceRate stat)
                           (Statistics.cr_present_count stat)
                           (Statistics.attendance_records stat))
  ∧ (∀ stat, reported_rate (Statistics.enrollmentRate stat)
                           (Statistics.cr_currentStudents stat)
                           (Statistics.cr_maxStudents stat))
  ∧ (∀ stat, reported_rate (Statistics.usageRate stat)
                           (Statistics.pr_usedHours stat) (Statistics.pr_totalHours stat))
  ∧ (∀ caller courseId s,
       (courses s !! courseId = None →
        Attendance.courseStatistics caller courseId s = Failure CourseNotFound)
       ∧ (∀ course,
            courses s !! courseId = Some course →
            (Attendance.notTeacherNorAdmin course caller = true →
             Attendance.courseStatistics caller courseId s = Failure Forbidden)
            ∧ (Attendance.notTeacherNorAdmin course caller = false →
               ∃ st, Attendance.courseStatistics caller courseId s = Success st
                     ∧ Attendance.totalStudents st = linkCount courseId s
                     ∧ reported_rate (Attendance.attendanceRate st)
                                     (recordCount courseId s) (linkCount courseId s))))
  ∧ (Statistics.attendanceRate (Statistics.mkAttendanceRow 0 0) = 0
     ∧ Statistics.attendanceRate (Statistics.mkAttendanceRow 3 1) = 3333
     ∧ Statistics.attendanceRate (Statistics.mkAttendanceRow 8 1) = 1250
     ∧ Statistics.attendanceRate (Statistics.mkAttendanceRow 160 23) = 1437
     ∧ Statistics.usageRate (Statistics.mkPackageRow 20 10) = 5000
     ∧ (Attendance.attendanceRate
          <$> match Attendance.courseStatistics teacher1 "c1" storeD with
              | Success st => Some st
              | Failure _ => None
              end) = Some 0
     ∧ (Attendance.attendanceRate
          <$> match Attendance.courseStatistics teacher1 "c1" storeRecorded with
              | Success st => Some st
              | Failure _ => None
              end) = Some 10000).
Proof.
  split; [| split; [| split; [| split; [| split; [| split]]]]].
  - intros stat. apply guarded_rate.
  - intros stat. apply guarded_rate.
  - intros stat. apply guarded_rate.
  - intros stat. apply guarded_rate.
  - intros stat. apply guarded_rate.
  - intros caller courseId s. rewrite courseStatistics_reply. split.
    + by intros ->.
    + intros course ->. split; [by intros -> |]. intros ->.
      eexists. split; [done |]. split; [done |]. apply guarded_rate.
  - vm_compute. repeat split; reflexivity.
Qed.

(** One present record out of three: 33.33 percent, within 0.005 of a
    third of a hundred.  The teacher of the course of [storeRecorded],
    which has one enrolled student and one record, is told 100.00. *)
Lemma rate_spec_witness :
  0 < 3 ∧ 0 ≤ 1
  ∧ Statistics.attendanceRate (Statistics.mkAttendanceRow 3 1) = 3333
  ∧ (Qabs (hundredths (Statistics.attendanceRate (Statistics.mkAttendanceRow 3 1))
           - inject_Z 1 / inject_Z 3 * 100)
     <= (1 # 200) + inject_Z 1 / inject_Z 3 * 100 * (1 # 2251799813685248))%Q
  ∧ courses storeRecorded !! "c1"
    = Some (mkCourse "kaishu" "t1" 1000 2000 1 1 CourseStatus.SCHEDULED)
  ∧ ∃ st, Attendance.courseStatistics teacher1 "c1" storeRecorded = Success st
          ∧ Attendance.totalStudents st = 1
          ∧ Attendance.attendanceRate st = 10000.
Proof.
  split; [lia |]. split; [lia |].
  destruct (proj1 rate_spec (Statistics.mkAttendanceRow 3 1)) as [_ H].
  destruct (H ltac:(simpl; lia) ltac:(simpl; lia)) as (H1 & _ & H2).
  destruct (H2 ltac:(simpl; lia) ltac:(simpl; lia)) as [H3 _].
  split; [vm_compute; reflexivity |]. split; [exact H3 |].
  split; [vm_compute; reflexivity |].
  destruct rate_spec as (_ & _ & _ & _ & _ & Hstat & _).
  destruct (Hstat teacher1 "c1" storeRecorded) as [_ Hsome].
  destruct (Hsome (mkCourse "kaishu" "t1" 1000 2000 1 1 CourseStatus.SCHEDULED)
              ltac:(vm_compute; reflexivity)) as [_ Hok].
  destruct (Hok ltac:(vm_compute; reflexivity)) as (st & Hst & Htot & _ & Hrate).
  exists st. split; [exact Hst |]. split; [rewrite Htot; vm_compute; reflexivity |].
  destruct (Hrate ltac:(vm_compute; reflexivity) ltac:(vm_compute; discriminate))
    as (-> & _).
  vm_compute. reflexivity.
Defined.

(** ** The list endpoints, seen by a student *)

Lemma elem_of_paginate {A} (pg : Paging) (l : list A) x :
  x ∈ paginate pg l → x ∈ l.
Proof.
  unfold paginate. intros Hx.
  apply (sublist_subseteq _ _ (sublist_take _ _)) in Hx.
  by apply (sublist_subseteq _ _ (sublist_drop _ _)) in Hx.
Qed.

Lemma elem_of_orderByDesc {A} (key : A → Z) (l : list A) x :
  x ∈ orderByDesc key l ↔ x ∈ l.
Proof. unfold orderByDesc. by rewrite merge_sort_Permutation. Qed.

Lemma elem_of_page {A} (pg : Paging) (key : A → Z) (l : list A) x :
  x ∈ paginate pg (orderByDesc key l) → x ∈ l.
Proof. intros Hx. apply elem_of_paginate in Hx. by apply elem_of_orderByDesc in Hx. Qed.

Lemma eqFilter_Some {A} `{EqDecision A} (v x : A) :
  eqFilter (Some v) x = true ↔ x = v.
Proof. unfold eqFilter. simpl. apply bool_decide_eq_true. Qed.

Section StudentView.

Context (currentUser : Caller) (s : Store).
Hypothesis student : caller_role currentUser = STUDENT.

Lemma packages_where q :
  Packages.w_studentId (Packages.buildWhere currentUser q) = Some (caller_id currentUser).
Proof. unfold Packages.buildWhere. simpl. by rewrite student. Qed.

Lemma payments_where q :
  Payments.w_studentId (Payments.buildWhere currentUser q) = Some (caller_id currentUser).
Proof. unfold Payments.buildWhere. by rewrite student. Qed.

Lemma attendance_where q :
  Attendance.w_studentId (Attendance.buildWhere currentUser q)
  = Some (caller_id currentUser).
Proof. unfold Attendance.buildWhere. by rewrite student. Qed.

Lemma packages_own q l kv :
  Packages.getAll currentUser q s = Success l → kv ∈ rows l →
  p_studentId kv.2 = caller_id currentUser ∧ coursePackages s !! kv.1 = Some kv.2.
Proof.
  unfold Packages.getAll. destruct (validPaging _); [| discriminate]. simpl.
  intros [= <-] Hin. simpl in Hin. apply elem_of_page in Hin.
  apply list_elem_of_filter in Hin as [Hm Hin]. apply Is_true_true_1 in Hm.
  unfold Packages.matches in Hm. rewrite packages_where in Hm.
  apply andb_true_iff in Hm as [_ Hm].
  apply (eqFilter_Some (caller_id currentUser) (p_studentId kv.2)) in Hm.
  split; [done |]. destruct kv. by apply elem_of_map_to_list.
Qed.

Lemma payments_own q l kv :
  Payments.getAll currentUser q s = Success l → kv ∈ rows l →
  pay_studentId kv.2 = caller_id currentUser ∧ payments s !! kv.1 = Some kv.2.
Proof.
  unfold Payments.getAll. destruct (validPaging _); [| discriminate]. simpl.
  intros [= <-] Hin. simpl in Hin. apply elem_of_page in Hin.
  apply list_elem_of_filter in Hin as [Hm Hin]. apply Is_true_true_1 in Hm.
  unfold Payments.matches in Hm. rewrite payments_where in Hm.
  rewrite !andb_true_iff in Hm. destruct Hm as [[[_ _] Hm] _].
  apply (eqFilter_Some (caller_id currentUser) (pay_studentId kv.2)) in Hm.
  split; [done |]. destruct kv. by apply elem_of_map_to_list.
Qed.

Lemma attendance_own q l r :
  Attendance.getAll currentUser q s = Success l → r ∈ rows l →
  a_studentId r = caller_id currentUser ∧ r ∈ attendanceRecords s.
Proof.
  unfold Attendance.getAll. destruct (validPaging _); [| discriminate]. simpl.
  intros [= <-] Hin. simpl in Hin. apply elem_of_page in Hin.
  apply list_elem_of_filter in Hin as [Hm Hin]. apply Is_true_true_1 in Hm.
  unfold Attendance.matches in Hm. rewrite attendance_where in Hm.
  rewrite !andb_true_iff in Hm. destruct Hm as [[[_ Hm] _] _].
  by apply (eqFilter_Some (caller_id currentUser) (a_studentId r)) in Hm.
Qed.

End StudentView.

(** C10.  For a caller with the STUDENT role, every row that the list
    endpoints of packages, payments and attendance records return is a row
    of the store whose [studentId] is the caller's own id, whatever the
    query; the [studentId] parameter of the query has no effect on the
    reply, so naming another student never widens it; and a query with
    valid paging is answered. *)
Theorem student_lists_scoped currentUser s :
  caller_role currentUser = STUDENT →
  (∀ q l, Packages.getAll currentUser q s = Success l →
     ∀ kv, kv ∈ rows l →
       p_studentId kv.2 = caller_id currentUser ∧ coursePackages s !! kv.1 = Some kv.2)
  ∧ (∀ q l, Payments.getAll currentUser q s = Success l →
       ∀ kv, kv ∈ rows l →
         pay_studentId kv.2 = caller_id currentUser ∧ payments s !! kv.1 = Some kv.2)
  ∧ (∀ q l, Attendance.getAll currentUser q s = Success l →
       ∀ r, r ∈ rows l →
         a_studentId r = caller_id currentUser ∧ r ∈ attendanceRecords s)
  ∧ (∀ pg st sid sid',
       Packages.getAll currentUser (Packages.mkListQuery pg st sid) s
       = Packages.getAll currentUser (Packages.mkListQuery pg st sid') s)
  ∧ (∀ pg st m sid sid' from to,
       Payments.getAll currentUser (Payments.mkListQuery pg st m sid from to) s
       = Payments.getAll currentUser (Payments.mkListQuery pg st m sid' from to) s)
  ∧ (∀ pg cid sid sid' st from to,
       Attendance.getAll currentUser (Attendance.mkListQuery pg cid sid st from to) s
       = Attendance.getAll currentUser (Attendance.mkListQuery pg cid sid' st from to) s)
  ∧ (∀ q, validPaging (Packages.paging q) = true →
          ∃ l, Packages.getAll currentUser q s = Success l)
  ∧ (∀ q, validPaging (Payments.paging q) = true →
          ∃ l, Payments.getAll currentUser q s = Success l)
  ∧ (∀ q, validPaging (Attendance.paging q) = true →
          ∃ l, Attendance.getAll currentUser q s = Success l).
Proof.
  intros Hrole.
  split; [| split; [| split; [| split; [| split; [| split; [| split; [| split]]]]]]].
  - intros q l Hl kv Hkv. by eapply packages_own.
  - intros q l Hl kv Hkv. by eapply payments_own.
  - intros q l Hl r Hr. by eapply attendance_own.
  - intros. unfold Packages.getAll, Packages.buildWhere. simpl. by rewrite Hrole.
  - intros. unfold Payments.getAll, Payments.buildWhere. simpl. by rewrite Hrole.
  - intros. unfold Attendance.getAll, Attendance.buildWhere. simpl. by rewrite Hrole.
  - intros q Hpg. unfold Packages.getAll. rewrite Hpg. by eexists.
  - intros q Hpg. unfold Payments.getAll. rewrite Hpg. by eexists.
  - intros q Hpg. unfold Attendance.getAll. rewrite Hpg. by eexists.
Qed.

(** Student [s1] asks for the packages of student [s2]: the reply is the
    one package of [s1]. *)
Lemma student_lists_scoped_witness :
  caller_role student1 = STUDENT
  ∧ Packages.getAll student1 (Packages.mkListQuery firstPage None (Some "s2")) storeTwo
    = Packages.getAll student1 (Packages.mkListQuery firstPage None None) storeTwo
  ∧ (fst <$> match Packages.getAll student1
                     (Packages.mkListQuery firstPage None (Some "s2")) storeTwo with
             | Success l => rows l
             | Failure _ => []
             end) = ["p1"].
Proof.
  split; [reflexivity |].
  destruct (student_lists_scoped student1 storeTwo eq_refl) as (_ & _ & _ & H & _).
  split; [exact (H firstPage None (Some "s2") None) |].
  vm_compute. reflexivity.
Defined.

(** * Further properties *)

(** ** Cancellation of an enrollment *)

Lemma store_eq (s1 s2 : Store) :
  users s1 = users s2 → courses s1 = courses s2 →
  studentCourses s1 = studentCourses s2 → coursePackages s1 = coursePackages s2 →
  attendanceRecords s1 = attendanceRecords s2 → payments s1 = payments s2 →
  s1 = s2.
Proof. destruct s1, s2. simpl. by intros -> -> -> -> -> ->. Qed.

Lemma cancel_open faults caller id s c :
  caller_role caller = STUDENT →
  (caller_id caller, id) ∈ studentCourses s →
  courses s !! id = Some c →
  c_status c = CourseStatus.SCHEDULED →
  Courses.cancel faults caller id s =
    if faults 0%nat || faults 1%nat then (Failure InternalError, s)
    else (Success (), cancelled (caller_id caller) id c s).
Proof.
  intros Hrole Hin Hc Hst. unfold Courses.cancel, requireRole.
  rewrite Hrole, Hc. rewrite bool_decide_eq_true_2 by set_solver. simpl.
  rewrite (bool_decide_eq_true_2 _ Hin). simpl.
  rewrite (bool_decide_eq_true_2 _ Hst). simpl.
  rewrite transaction_two.
  destruct (faults 0%nat || faults 1%nat); [done |].
  unfold studentCourse_delete. rewrite (bool_decide_eq_true_2 _ Hin).
  unfold course_update. simpl. by rewrite Hc.
Qed.

(** X1.  A student's cancellation is answered with not-found when the
    student has no link for the course, and with a 400 when the course is no
    longer SCHEDULED; otherwise the link is removed and the counter
    decremented together, or, when the database fails on either statement,
    nothing changes.  A cancellation that succeeded cannot be repeated: the
    second request is answered with not-found. *)
Theorem cancel_spec faults caller id s c :
  caller_role caller = STUDENT →
  courses s !! id = Some c →
  let key := (caller_id caller, id) in
  let out := Courses.cancel faults caller id s in
  (key ∉ studentCourses s → out = (Failure EnrollmentNotFound, s))
  ∧ (key ∈ studentCourses s → c_status c ≠ CourseStatus.SCHEDULED →
     out = (Failure CourseStarted, s))
  ∧ (key ∈ studentCourses s → c_status c = CourseStatus.SCHEDULED →
     (faults 0%nat = false → faults 1%nat = false →
      out = (Success (), cancelled (caller_id caller) id c s)
      ∧ (key ∉ studentCourses out.2)
      ∧ (c_currentStudents <$> courses out.2 !! id) = Some (c_currentStudents c - 1))
     ∧ (faults 0%nat = true ∨ faults 1%nat = true → out = (Failure InternalError, s)))
  ∧ (∀ e, out.1 = Failure e → out.2 = s)
  ∧ (out.1 = Success () →
     ∀ faults', Courses.cancel faults' caller id out.2 = (Failure EnrollmentNotFound, out.2)).
Proof.
  intros Hrole Hc key out.
  assert (Hnone : ∀ f s0, key ∉ studentCourses s0 →
            Courses.cancel f caller id s0 = (Failure EnrollmentNotFound, s0)).
  { intros f s0 Hnot. unfold Courses.cancel, requireRole. rewrite Hrole.
    rewrite bool_decide_eq_true_2 by set_solver. simpl.
    by rewrite bool_decide_eq_false_2. }
  destruct (decide (key ∈ studentCourses s)) as [Hin | Hnot].
  2:{ split; [intros _; by apply Hnone |]. split; [done |]. split; [done |].
      subst out. rewrite (Hnone faults s Hnot). simpl. split; [done | discriminate]. }
  destruct (decide (c_status c = CourseStatus.SCHEDULED)) as [Hst | Hst].
  - pose proof (cancel_open faults caller id s c Hrole Hin Hc Hst) as Hopen.
    fold out in Hopen.
    assert (Hgone : key ∉ studentCourses (cancelled (caller_id caller) id c s)).
    { unfold cancelled. simpl. rewrite elem_of_difference, elem_of_singleton. tauto. }
    split; [done |]. split; [done |]. split; [| split].
    + intros _ _. split.
      * intros H0 H1. rewrite Hopen, H0, H1. simpl.
        split; [done |]. split; [done |]. by rewrite lookup_insert_eq.
      * intros [H | H]; rewrite Hopen, H; [done | by rewrite orb_true_r].
    + intros e. rewrite Hopen. destruct (faults 0%nat || faults 1%nat); [done | discriminate].
    + rewrite Hopen. destruct (faults 0%nat || faults 1%nat); [discriminate |].
      intros _ faults'. simpl. by apply Hnone.
  - assert (Hout : out = (Failure CourseStarted, s)).
    { subst out. unfold Courses.cancel, requireRole. rewrite Hrole, Hc.
      rewrite bool_decide_eq_true_2 by set_solver. simpl.
      rewrite (bool_decide_eq_true_2 _ Hin). simpl.
      by rewrite bool_decide_eq_false_2. }
    split; [done |]. split; [done |]. split; [done |].
    rewrite Hout. simpl. split; [done | discriminate].
Qed.

(** Student A, enrolled in the course with room for one, cancels. *)
Lemma cancel_spec_witness :
  caller_role studentA = STUDENT
  ∧ (Courses.cancel no_faults studentA "c1" storeJoined).1 = Success ().
Proof.
  split; [reflexivity |].
  destruct (cancel_spec no_faults studentA "c1" storeJoined
              (mkCourse "kaishu" "t1" 1000 2000 1 1 CourseStatus.SCHEDULED)
              eq_refl ltac:(vm_compute; reflexivity)) as (_ & _ & H & _).
  destruct H as [H _]; [vm_compute; reflexivity | reflexivity |].
  destruct (H eq_refl eq_refl) as (Hout & _). by rewrite Hout.
Defined.

Lemma decrement_increment c :
  Courses.decrementStudents (Courses.incrementStudents c) = c.
Proof.
  destruct c. unfold Courses.decrementStudents, Courses.incrementStudents. simpl.
  f_equal. lia.
Qed.

(** X2.  Enrolling and then cancelling is a round trip: when a student's
    enrollment went through, a cancellation whose transaction goes through
    succeeds and leaves the store exactly as it was before the enrollment. *)
Theorem enroll_cancel_roundtrip faults faults' caller id s s1 :
  Courses.enroll faults caller id s = (Success (), s1) →
  faults' 0%nat = false → faults' 1%nat = false →
  Courses.cancel faults' caller id s1 = (Success (), s).
Proof.
  intros Hen H0 H1.
  assert (Hrole : caller_role caller = STUDENT).
  { revert Hen. unfold Courses.enroll, requireRole. case_bool_decide as Hr; [| discriminate].
    intros _. apply list_elem_of_singleton in Hr. done. }
  assert (Hst : ∃ c, courses s !! id = Some c ∧ c_status c = CourseStatus.SCHEDULED).
  { revert Hen. unfold Courses.enroll. destruct (requireRole _ _); [| discriminate]. simpl.
    destruct (courses s !! id) as [c |]; [| discriminate].
    case_bool_decide as Hs; [| discriminate]. intros _. by exists c. }
  destruct Hst as (c & Hc & Hst).
  destruct (enroll_store faults caller id s) as [Hs | (c0 & Hc0 & Hnew & _ & Hs)];
    rewrite Hen in Hs; simpl in Hs.
  { exfalso. subst s1. revert Hen. unfold Courses.enroll. rewrite Hc.
    destruct (requireRole _ _); [| discriminate]. simpl.
    rewrite (bool_decide_eq_true_2 _ Hst). simpl.
    case_bool_decide as Hin; [discriminate |].
    destruct (_ <=? _); [discriminate |].
    rewrite transaction_two. destruct (_ || _); [discriminate |].
    unfold studentCourse_create. rewrite (bool_decide_eq_false_2 _ Hin).
    unfold course_update. simpl. rewrite Hc. intros [= Hs].
    apply (f_equal studentCourses) in Hs. simpl in Hs.
    apply Hin. rewrite <- Hs. apply elem_of_union_l. by apply elem_of_singleton. }
  rewrite Hc in Hc0. injection Hc0 as <-. subst s1.
  rewrite (cancel_open faults' caller id _ (Courses.incrementStudents c) Hrole).
  - rewrite H0, H1. simpl. f_equal. apply store_eq; simpl; try done.
    + rewrite decrement_increment, insert_insert_eq. by apply insert_id.
    + apply set_eq. intros x.
      rewrite elem_of_difference, elem_of_union, elem_of_singleton.
      split; [tauto |]. intros Hx. split; [by right |]. by intros ->.
  - unfold enrolled. simpl. apply elem_of_union_l. by apply elem_of_singleton.
  - unfold enrolled. simpl. by rewrite lookup_insert_eq.
  - done.
Qed.

(** Student A enrolls in the course with room for one and cancels. *)
Lemma enroll_cancel_roundtrip_witness :
  Courses.enroll no_faults studentA "c1" storeCap1 = (Success (), storeJoined)
  ∧ Courses.cancel no_faults studentA "c1" storeJoined = (Success (), storeCap1).
Proof.
  assert (E : Courses.enroll no_faults studentA "c1" storeCap1 = (Success (), storeJoined)).
  { unfold storeJoined. by destruct (Courses.enroll no_faults studentA "c1" storeCap1)
      as [[[] | e] s1] eqn:E; vm_compute in E; try discriminate E. }
  split; [exact E |].
  exact (enroll_cancel_roundtrip no_faults no_faults studentA "c1" storeCap1 storeJoined
           E eq_refl eq_refl).
Defined.

(** ** Deleting a course *)

(** X3.  The teacher of a course, or an admin, cannot delete it while it
    is IN_PROGRESS or COMPLETED (the store stays as it is), and anyone
    else with the teacher role is refused.  For a SCHEDULED or CANCELLED
    course the handler deletes the links and then the course, by two
    statements outside a transaction.  When both go through and the
    course has no attendance records, the course is deleted together with
    all of its enrollment links, and every other course, every link of
    another course and all other tables are left untouched.  When the
    first statement fails nothing changes; when the second fails, by a
    fault of the database or because under [Restrict] an attendance
    record refers to the course, the request is answered with the 500 and
    the links of the course are gone while the course stays.  Under
    [Cascade] the attendance records of the course are deleted with
    it. *)
Theorem course_delete_spec onDelete faults caller id s c :
  requireRole [ADMIN; TEACHER] caller = true →
  courses s !! id = Some c →
  let out := Courses.delete onDelete faults caller id s in
  let unlinked := set_studentCourses (filter (λ key, key.2 ≠ id)) s in
  (¬ mayEdit caller c → out = (Failure Forbidden, s))
  ∧ (mayEdit caller c →
     c_status c = CourseStatus.IN_PROGRESS ∨ c_status c = CourseStatus.COMPLETED →
     out = (Failure CourseNotDeletable, s))
  ∧ (mayEdit caller c →
     c_status c = CourseStatus.SCHEDULED ∨ c_status c = CourseStatus.CANCELLED →
     (faults 0%nat = true → out = (Failure InternalError, s))
     ∧ (faults 0%nat = false → faults 1%nat = true →
        out = (Failure InternalError, unlinked))
     ∧ (faults 0%nat = false → faults 1%nat = false →
        (∀ r, r ∈ attendanceRecords s → a_courseId r ≠ id) →
        out.1 = Success ()
        ∧ courses out.2 = base.delete id (courses s)
        ∧ (∀ sid cid, (sid, cid) ∈ studentCourses out.2
                      ↔ (sid, cid) ∈ studentCourses s ∧ cid ≠ id)
        ∧ users out.2 = users s
        ∧ coursePackages out.2 = coursePackages s
        ∧ attendanceRecords out.2 = attendanceRecords s
        ∧ payments out.2 = payments s)
     ∧ (faults 0%nat = false → faults 1%nat = false →
        (∃ r, r ∈ attendanceRecords s ∧ a_courseId r = id) →
        match onDelete with
        | Restrict => out = (Failure InternalError, unlinked)
        | Cascade =>
          out.1 = Success ()
          ∧ courses out.2 = base.delete id (courses s)
          ∧ studentCourses out.2 = studentCourses unlinked
          ∧ (∀ r, r ∈ attendanceRecords out.2
                  ↔ r ∈ attendanceRecords s ∧ a_courseId r ≠ id)
        end)).
Proof.
  intros Hrole Hc out unlinked. subst out unlinked.
  unfold Courses.delete, mayEdit. rewrite Hrole, Hc. simpl.
  split; [| split].
  - intros Hno.
    rewrite !bool_decide_eq_false_2 by tauto. done.
  - intros Hmay Hst.
    assert (negb (bool_decide (c_teacherId c = caller_id caller))
            && negb (bool_decide (caller_role caller = ADMIN)) = false) as ->.
    { destruct Hmay as [H | H]; rewrite (bool_decide_eq_true_2 _ H); simpl;
        [done | by rewrite andb_false_r]. }
    destruct Hst as [H | H]; rewrite (bool_decide_eq_true_2 _ H); simpl;
      [done | by rewrite orb_true_r].
  - intros Hmay Hst.
    assert (negb (bool_decide (c_teacherId c = caller_id caller))
            && negb (bool_decide (caller_role caller = ADMIN)) = false) as ->.
    { destruct Hmay as [H | H]; rewrite (bool_decide_eq_true_2 _ H); simpl;
        [done | by rewrite andb_false_r]. }
    rewrite !bool_decide_eq_false_2 by (destruct Hst as [-> | ->]; discriminate).
    simpl. unfold studentCourse_deleteMany, course_delete. simpl. rewrite Hc.
    split; [by intros -> | split; [by intros -> -> | split]].
    + intros -> -> Hnone.
      assert (Hall : Forall (λ r, a_courseId r ≠ id) (attendanceRecords s))
        by (by apply Forall_forall).
      destruct onDelete; simpl.
      * rewrite bool_decide_eq_true_2 by done. simpl.
        split; [done |]. split; [done |]. split; [| done].
        intros sid cid. rewrite elem_of_filter. simpl. tauto.
      * split; [done |]. split; [done |]. split.
        { intros sid cid. rewrite elem_of_filter. simpl. tauto. }
        split; [done |]. split; [done |]. split; [| done].
        by apply filter_all.
    + intros -> -> (r & Hr & Hid). destruct onDelete; simpl.
      * rewrite bool_decide_eq_false_2; [done |].
        intros Hall. rewrite Forall_forall in Hall. by apply (Hall r).
      * split; [done |]. split; [done |]. split; [done |].
        intros r'. rewrite list_elem_of_filter. tauto.
Qed.

(** The teacher deletes the scheduled course of one enrolled student; with
    an attendance record on the course and [Restrict] the deletion stops
    after the links. *)
Lemma course_delete_spec_witness :
  requireRole [ADMIN; TEACHER] teacher1 = true
  ∧ (Courses.delete Restrict no_faults teacher1 "c1" storeDA).1 = Success ()
  ∧ courses (Courses.delete Restrict no_faults teacher1 "c1" storeDA).2 !! "c1" = None
  ∧ (("a", "c1") ∉ studentCourses (Courses.delete Restrict no_faults teacher1 "c1" storeDA).2)
  ∧ Courses.delete Restrict no_faults teacher1 "c1" storeRecorded
    = (Failure InternalError,
       set_studentCourses (filter (λ key, key.2 ≠ "c1")) storeRecorded).
Proof.
  split; [reflexivity |].
  destruct (course_delete_spec Restrict no_faults teacher1 "c1" storeDA
              (mkCourse "kaishu" "t1" (hour 10) (hour 12) 20 1 CourseStatus.SCHEDULED)
              eq_refl eq_refl) as (_ & _ & H).
  destruct H as (_ & _ & H & _); [by left | by left |].
  destruct H as (Hok & Hcourses & Hlinks & _); [done | done | |].
  { intros r Hr. simpl in Hr. by apply elem_of_nil in Hr. }
  split; [exact Hok |]. split; [| split].
  - rewrite Hcourses. apply lookup_delete_eq.
  - intros Hin. apply Hlinks in Hin as [_ Hne]. by apply Hne.
  - destruct (course_delete_spec Restrict no_faults teacher1 "c1" storeRecorded
                (mkCourse "kaishu" "t1" 1000 2000 1 1 CourseStatus.SCHEDULED)
                eq_refl ltac:(vm_compute; reflexivity)) as (_ & _ & H').
    destruct H' as (_ & _ & _ & H'); [by left | by left |].
    apply (H' eq_refl eq_refl).
    exists (mkAttendanceRecord "a" "c1" PRESENT 1500). split; [| done].
    vm_compute. by left.
Defined.

(** ** The schedule of a teacher *)

Lemma conflictingCourse_None self teacher start end_ s :
  start < end_ → windows_ok s →
  Courses.conflictingCourse self teacher start end_ s = None →
  ∀ id c, courses s !! id = Some c → ¬ overlapping self teacher start end_ id c.
Proof.
  intros Hreq Hwin Hnone id c Hc Hov.
  assert (Hsome : is_Some (Courses.conflictingCourse self teacher start end_ s)).
  { unfold Courses.conflictingCourse. apply findFirst_is_Some.
    exists id, c. split; [done |]. apply conflictWhere_spec; eauto. }
  rewrite Hnone in Hsome. by destruct Hsome.
Qed.

(** Adding or replacing the row [id] by a row that meets no other active
    course of its teacher keeps the schedule free of double bookings. *)
Lemma no_double_booking_insert s id c' :
  no_double_booking s →
  (active c' → ∀ id2 c2, id2 ≠ id → courses s !! id2 = Some c2 →
     c_teacherId c2 = c_teacherId c' → active c2 →
     ¬ (c_startTime c2 < c_endTime c' ∧ c_startTime c' < c_endTime c2)) →
  no_double_booking (set_courses (insert id c') s).
Proof.
  intros Hinv Hnew id1 c1 id2 c2 Hne. simpl.
  destruct (decide (id = id1)) as [<- | Hne1];
    destruct (decide (id = id2)) as [<- | Hne2]; [done | | |].
  - rewrite lookup_insert_eq, lookup_insert_ne by done.
    intros [= <-] Hc2 Ht Ha1 Ha2 [H1 H2].
    by apply (Hnew Ha1 id2 c2).
  - rewrite lookup_insert_eq, lookup_insert_ne by done.
    intros Hc1 [= <-] Ht Ha1 Ha2 [H1 H2].
    by apply (Hnew Ha2 id1 c1).
  - rewrite !lookup_insert_ne by done. by apply Hinv.
Qed.

Lemma active_in_list c :
  c_status c ∈ [CourseStatus.SCHEDULED; CourseStatus.IN_PROGRESS] ↔ active c.
Proof. unfold active. rewrite !elem_of_cons, elem_of_nil. tauto. Qed.

(** X4.  On a store whose windows are proper and where no teacher is
    double-booked, course creation keeps the schedule free of double
    bookings, and so does a course update whose body carries columns of
    the course only, leaves the teacher as it is, and carries a time
    field or does not put the course into an active status.  (An update
    that only sets the status back to SCHEDULED or IN_PROGRESS runs no
    conflict query, and the conflict query of an update is made for the
    teacher the course has, not for the teacher the body names.) *)
Theorem schedule_stays_free s :
  windows_ok s → no_double_booking s →
  (∀ now newId caller body,
     no_double_booking (Courses.create now newId caller body s).2)
  ∧ (∀ caller id body,
       checkedUpdate body →
       no_double_booking (Courses.update caller id body s).2).
Proof.
  intros Hwin Hinv. split.
  - intros now newId caller body. unfold Courses.create.
    destruct (requireRole [ADMIN; TEACHER] caller); [| done]. simpl.
    destruct (bool_decide (Courses.title body = "")); [done |].
    destruct (from_option _ true (Courses.maxStudents body)); [| done]. simpl.
    destruct (Z.leb_spec (Courses.endTime body) (Courses.startTime body)) as [| Hlt];
      [done |].
    destruct (Courses.startTime body <=? now); [done |].
    destruct (users s !! _) as [teacher |]; [| done].
    destruct (bool_decide (u_role teacher = TEACHER)); [| done]. simpl.
    destruct (Courses.conflictingCourse _ _ _ _ s) eqn:Hq; [done |].
    destruct (courses s !! newId) eqn:Hnew; [done |].
    apply no_double_booking_insert; [done |]. simpl.
    intros _ id2 c2 Hne Hc2 Ht Ha2 [H1 H2].
    apply (conflictingCourse_None _ _ _ _ s Hlt Hwin Hq id2 c2 Hc2).
    unfold overlapping. split; [done |]. split; [done |]. split; [done |]. lia.
  - intros caller id body (Hcols & Hteacher & Hchk). unfold Courses.update.
    destruct (requireRole [ADMIN; TEACHER] caller); [| done]. simpl.
    destruct (bool_decide (Courses.u_title body = Some "")); [done |].
    destruct (from_option _ true (Courses.u_maxStudents body)); [| done]. simpl.
    destruct (courses s !! id) as [c |] eqn:Hc; [| done].
    destruct (_ && _); [done |].
    destruct (bool_decide (is_Some (Courses.u_startTime body))
              || bool_decide (is_Some (Courses.u_endTime body))) eqn:Htimed.
    + destruct (Z.leb_spec (default (c_endTime c) (Courses.u_endTime body))
                           (default (c_startTime c) (Courses.u_startTime body)))
        as [| Hlt]; [done |].
      destruct (Courses.conflictingCourse (Some id) _ _ _ s) eqn:Hq'.
      { by rewrite bool_decide_eq_true_2 by eauto. }
      rewrite bool_decide_eq_false_2 by (by intros [? [=]]).
      destruct (course_write_columns id body s c Hc Hcols) as [-> | ->]; [done |].
      apply no_double_booking_insert; [done |].
      unfold Courses.applyUpdate. rewrite Hteacher. simpl.
      intros _ id2 c2 Hne Hc2 Ht Ha2 [H1 H2].
      apply (conflictingCourse_None _ _ _ _ s Hlt Hwin Hq' id2 c2 Hc2).
      unfold overlapping. split; [congruence |]. split; [done |]. split; [done |]. lia.
    + apply orb_false_iff in Htimed as [T1 T2].
      apply bool_decide_eq_false_1 in T1. apply bool_decide_eq_false_1 in T2.
      destruct (course_write_columns id body s c Hc Hcols) as [-> | ->]; [done |].
      apply no_double_booking_insert; [done |].
      unfold Courses.applyUpdate, active. rewrite Hteacher. simpl.
      destruct (Courses.u_startTime body); [by destruct T1 |].
      destruct (Courses.u_endTime body); [by destruct T2 |]. simpl.
      intros Ha id2 c2 Hne Hc2 Ht Ha2 Hov.
      destruct Hchk as [Hs | [Hs | Hst]]; [by destruct Hs | by destruct Hs |].
      destruct Hst as [Hst | [Hst | Hst]]; rewrite Hst in Ha; simpl in Ha.
      * apply (Hinv id2 c2 id c Hne Hc2 Hc Ht Ha2 Ha Hov).
      * destruct Ha; discriminate.
      * destruct Ha; discriminate.
Qed.

(** An update that names another teacher is not covered: the conflict
    query is made for the teacher the course has, and the course is
    handed to a teacher who is busy at that time. *)
Lemma teacher_double_booked_by_update :
  no_double_booking storeTwoTeachers
  ∧ (Courses.update (mkCaller "t1" TEACHER) "c1" handOver storeTwoTeachers).1
    = Success (mkCourse "kaishu" "t2" (hour 10) (hour 12) 20 0 CourseStatus.SCHEDULED)
  ∧ ¬ no_double_booking
        (Courses.update (mkCaller "t1" TEACHER) "c1" handOver storeTwoTeachers).2.
Proof.
  split; [| split; [vm_compute; reflexivity |]].
  - intros id1 c1 id2 c2 Hne. unfold storeTwoTeachers. simpl.
    intros [[<- <-] | [_ [<- <-]%lookup_singleton_Some]]%lookup_insert_Some;
      intros [[<- <-] | [_ [<- <-]%lookup_singleton_Some]]%lookup_insert_Some;
      try (by destruct Hne); simpl; discriminate.
  - intros Hfree.
    apply (Hfree "c1" (mkCourse "kaishu" "t2" (hour 10) (hour 12) 20 0 CourseStatus.SCHEDULED)
                 "c2" (mkCourse "lishu" "t2" (hour 10) (hour 12) 20 0 CourseStatus.SCHEDULED));
      try done; try (vm_compute; reflexivity); try (by left).
Qed.

(** On the store of the scheduling scenario, a second course of the
    teacher is created from 12:00 to 13:00. *)
Lemma schedule_stays_free_witness :
  windows_ok storeD ∧ no_double_booking storeD
  ∧ no_double_booking (createAt 12 13).2
  ∧ is_Some (courses (createAt 12 13).2 !! "c2").
Proof.
  assert (Hw : windows_ok storeD).
  { intros id c; unfold storeD; simpl; intros [<- <-]%lookup_singleton_Some.
    vm_compute. reflexivity. }
  assert (Hn : no_double_booking storeD).
  { intros id1 c1 id2 c2 Hne; unfold storeD; simpl.
    intros [<- <-]%lookup_singleton_Some [<- _]%lookup_singleton_Some. by destruct Hne. }
  split; [exact Hw |]. split; [exact Hn |].
  split; [exact (proj1 (schedule_stays_free storeD Hw Hn) _ _ _ _) |].
  vm_compute. by eexists.
Defined.

(** ** A purchased package *)

Lemma purchase_commits now packageId paymentId caller body s :
  caller_role caller = STUDENT →
  Packages.validPurchase body = true →
  coursePackages s !! packageId = None →
  payments s !! paymentId = None →
  -8640000000000000 ≤ now + Packages.validDays body * 86400000 ≤ 8640000000000000 →
  Packages.purchase no_faults now packageId paymentId caller body s
  = (Success (purchasedPackage now (caller_id caller) body,
              purchasePayment now (caller_id caller) packageId body),
     purchased now packageId paymentId (caller_id caller) body s).
Proof.
  intros Hrole Hvalid Hf1 Hf2 Hrange.
  rewrite (purchase_outcome _ _ _ _ _ _ _ Hrole Hvalid Hf1 Hf2).
  by rewrite bool_decide_eq_true_2.
Qed.

(** X5.  A package bought at time [now] for [validDays] days of
    86,400,000 ms, with an expiry [now + validDays * 86400000] within the
    range of [Date], can be consumed by a teacher or admin at time [t]
    exactly while [t] is not after that expiry: up to and including the
    instant of expiry a request for no more than the total hours succeeds
    and reports the hours that remain, a request for more is answered
    with insufficient-hours, and any request after the expiry is answered
    with the expired error.  When the expiry is outside the range of
    [Date] the purchase creates nothing and the consume request finds no
    package. *)
Theorem purchased_package_window now packageId paymentId buyer body s t caller cbody c :
  caller_role buyer = STUDENT →
  Packages.validPurchase body = true →
  coursePackages s !! packageId = None →
  payments s !! paymentId = None →
  requireRole [ADMIN; TEACHER] caller = true →
  1 ≤ Packages.hours cbody →
  courses s !! Packages.courseId cbody = Some c →
  let s1 := (Packages.purchase no_faults now packageId paymentId buyer body s).2 in
  let out := Packages.consume t caller packageId cbody s1 in
  let expiry := now + Packages.validDays body * 86400000 in
  (-8640000000000000 ≤ expiry ≤ 8640000000000000 →
   (expiry < t → out = (Failure PackageExpired, s1))
   ∧ (t ≤ expiry → Packages.totalHours body < Packages.hours cbody →
      out = (Failure InsufficientHours, s1))
   ∧ (t ≤ expiry → Packages.hours cbody ≤ Packages.totalHours body →
      out.1 = Success (Packages.mkConsumeResult
                         (Packages.totalHours body - Packages.hours cbody)
                         (if bool_decide (Packages.hours cbody = Packages.totalHours body)
                          then PackageStatus.COMPLETED else PackageStatus.ACTIVE))
      ∧ (p_usedHours <$> coursePackages out.2 !! packageId) = Some (Packages.hours cbody)))
  ∧ (expiry < -8640000000000000 ∨ 8640000000000000 < expiry →
     s1 = s ∧ out = (Failure PackageNotFound, s)).
Proof.
  intros Hrole Hvalid Hf1 Hf2 Hcaller Hh Hc s1 out expiry.
  split; cycle 1.
  { intros Hrange. subst s1 out.
    rewrite (purchase_outcome _ _ _ _ _ _ _ Hrole Hvalid Hf1 Hf2).
    fold expiry. rewrite bool_decide_eq_false_2 by lia. simpl. split; [done |].
    unfold Packages.consume. rewrite Hcaller. simpl.
    destruct (Z.leb_spec 1 (Packages.hours cbody)); [| lia]. simpl. by rewrite Hf1. }
  intros Hrange.
  subst s1 out. rewrite (purchase_commits _ _ _ _ _ _ Hrole Hvalid Hf1 Hf2 Hrange). simpl.
  rewrite (consume_active t caller packageId cbody _
             (purchasedPackage now (caller_id buyer) body) c Hcaller Hh);
    [| unfold purchased; simpl; by rewrite lookup_insert_eq | done | done].
  simpl. fold expiry.
  split; [| split].
  - intros Hexp. by destruct (Z.ltb_spec expiry t); [| lia].
  - intros Hexp Hmore. destruct (Z.ltb_spec expiry t); [lia |].
    rewrite Z.sub_0_r. by destruct (Z.ltb_spec (Packages.totalHours body) (Packages.hours cbody));
      [| lia].
  - intros Hexp Hless. destruct (Z.ltb_spec expiry t); [lia |].
    rewrite Z.sub_0_r.
    destruct (Z.ltb_spec (Packages.totalHours body) (Packages.hours cbody)); [lia |].
    simpl. unfold statusAfter. simpl. rewrite lookup_insert_eq. simpl.
    split; [| done]. do 2 f_equal. rewrite Z.add_0_l.
    case_bool_decide as Heq.
    + by destruct (Z.leb_spec (Packages.totalHours body) (Packages.hours cbody)); [| lia].
    + by destruct (Z.leb_spec (Packages.totalHours body) (Packages.hours cbody)); [lia |].
Qed.

(** The 30-day package bought at time 1000 is consumed at the very instant
    of its expiry. *)
Lemma purchased_package_window_witness :
  caller_role student1 = STUDENT
  ∧ Packages.validPurchase purchase30 = true
  ∧ (Packages.consume 2592001000 teacher1 "p2"
       (Packages.mkConsumeBody 20 "c1") storeBought).1
    = Success (Packages.mkConsumeResult 0 PackageStatus.COMPLETED)
  ∧ Packages.consume 2592001001 teacher1 "p2" (Packages.mkConsumeBody 20 "c1") storeBought
    = (Failure PackageExpired, storeBought).
Proof.
  split; [reflexivity |]. split; [reflexivity |].
  split.
  - destruct (purchased_package_window 1000 "p2" "pay1" student1 purchase30 store20
                2592001000 teacher1 (Packages.mkConsumeBody 20 "c1")
                (mkCourse "kaishu" "t1" 1000 2000 20 0 CourseStatus.SCHEDULED)
                eq_refl eq_refl eq_refl eq_refl eq_refl ltac:(simpl; lia) eq_refl)
      as (H & _).
    destruct (H ltac:(simpl; lia)) as (_ & _ & H').
    destruct (H' ltac:(simpl; lia) ltac:(simpl; lia)) as [Hout _].
    exact Hout.
  - destruct (purchased_package_window 1000 "p2" "pay1" student1 purchase30 store20
                2592001001 teacher1 (Packages.mkConsumeBody 20 "c1")
                (mkCourse "kaishu" "t1" 1000 2000 20 0 CourseStatus.SCHEDULED)
                eq_refl eq_refl eq_refl eq_refl eq_refl ltac:(simpl; lia) eq_refl)
      as (H & _).
    destruct (H ltac:(simpl; lia)) as (H' & _).
    exact (H' ltac:(simpl; lia)).
Defined.

(** ** The hours booked on a package *)

(** X6.  Over any history of consume-hours requests, the used hours of a
    package grow by exactly the hours of the requests on it that were
    answered with success; a rejected request books nothing. *)
Theorem consume_accounting ops s id p :
  Forall isConsume ops →
  coursePackages s !! id = Some p →
  ∃ p', coursePackages (runPackageOps ops s) !! id = Some p'
        ∧ p_usedHours p' = p_usedHours p + acceptedHours id ops s
        ∧ p_totalHours p' = p_totalHours p.
Proof.
  intros Hops. revert s p. induction Hops as [| op ops Hop Hops IH]; intros s p Hp.
  - exists p. simpl. split; [done |]. split; [lia | done].
  - destruct op as [now caller id0 body | ]; [| done]. simpl.
    assert (Hstep : ∃ p1, coursePackages (Packages.consume now caller id0 body s).2 !! id
                          = Some p1
              ∧ p_usedHours p1 = p_usedHours p
                  + match (Packages.consume now caller id0 body s).1 with
                    | Success _ => if bool_decide (id0 = id) then Packages.hours body else 0
                    | Failure _ => 0
                    end
              ∧ p_totalHours p1 = p_totalHours p).
    { unfold Packages.consume.
      repeat match goal with
             | |- context [if ?b then (Failure _, s) else _] =>
               destruct b; [exists p; simpl; split; [done |]; split; [lia | done] |]
             | |- context [match ?o with Some _ => _ | None => (Failure _, s) end] =>
               destruct o eqn:?; [| exists p; simpl; split; [done |]; split; [lia | done]]
             end.
      simpl. case_bool_decide as Hid.
      - subst id0. rewrite lookup_insert_eq.
        match goal with H : coursePackages s !! id = Some ?c |- _ =>
          rewrite Hp in H; injection H as <- end.
        eexists. split; [done |]. simpl. done.
      - rewrite lookup_insert_ne by done. exists p. split; [done |]. split; [lia | done]. }
    destruct Hstep as (p1 & Hp1 & Hused1 & Htot1).
    destruct (IH _ p1 Hp1) as (p' & Hp' & Hused' & Htot').
    exists p'. split; [done |]. split; [lia | congruence].
Qed.

(** The four requests of the consume scenario book 5 + 5 + 10 hours; the
    fourth books nothing. *)
Lemma consume_accounting_witness :
  let ops := [ OpConsume 5000 teacher1 "p1" (Packages.mkConsumeBody 5 "c1");
               OpConsume 5000 teacher1 "p1" (Packages.mkConsumeBody 5 "c1");
               OpConsume 5000 teacher1 "p1" (Packages.mkConsumeBody 10 "c1");
               OpConsume 5000 teacher1 "p1" (Packages.mkConsumeBody 1 "c1") ] in
  Forall isConsume ops
  ∧ acceptedHours "p1" ops store20 = 20
  ∧ ∃ p', coursePackages (runPackageOps ops store20) !! "p1" = Some p'
          ∧ p_usedHours p' = 0 + acceptedHours "p1" ops store20.
Proof.
  intros ops.
  assert (Hc : Forall isConsume ops) by (repeat constructor).
  split; [exact Hc |]. split; [vm_compute; reflexivity |].
  destruct (consume_accounting ops store20 "p1" (package20 0 PackageStatus.ACTIVE) Hc eq_refl)
    as (p' & Hp' & Hused & _).
  exists p'. split; [exact Hp' | exact Hused].
Defined.

(** ** Deleting a package *)



(** ** Payments and the packages they name *)

Lemma payment_ok_insert_payment s k pay :
  payment_ok s →
  (∀ pid, pay_packageId pay = Some pid →
     ∃ p, coursePackages s !! pid = Some p ∧ p_studentId p = pay_studentId pay) →
  payment_ok (set_payments (insert k pay) s).
Proof.
  intros Hinv Hnew k' pay' pid. simpl.
  destruct (decide (k = k')) as [<- | Hne].
  - rewrite lookup_insert_eq. intros [= <-]. apply Hnew.
  - rewrite lookup_insert_ne by done. apply Hinv.
Qed.

Lemma payment_ok_insert_package s id p :
  payment_ok s →
  (∀ p0, coursePackages s !! id = Some p0 → p_studentId p = p_studentId p0) →
  payment_ok (set_coursePackages (insert id p) s).
Proof.
  intros Hinv Hsame k pay pid Hk Hpid. simpl in *.
  destruct (Hinv k pay pid Hk Hpid) as (p0 & Hp0 & Hst).
  destruct (decide (id = pid)) as [<- | Hne].
  - rewrite lookup_insert_eq. exists p. split; [done |]. by rewrite (Hsame p0 Hp0).
  - rewrite lookup_insert_ne by done. by exists p0.
Qed.

Lemma payment_ok_step s op :
  properReference op → payment_ok s → payment_ok (applyPaymentOp s op).
Proof.
  intros Hop Hinv. destruct op as [faults now pid payid caller body | now newId caller body
    | now caller id body | caller id | now newId caller body | caller id st | caller id];
    simpl in *.
  - unfold Packages.purchase.
    destruct (requireRole [STUDENT] caller); [| done]. simpl.
    destruct (Packages.validPurchase body); [| done]. simpl.
    destruct (addDays now (Packages.validDays body)) as [expiresAt |]; [| done].
    rewrite transaction_two. destruct (_ || _); [done |].
    unfold coursePackage_create.
    destruct (coursePackages s !! pid) eqn:Hf1; [done |].
    unfold payment_create. simpl.
    destruct (payments s !! payid) eqn:Hf2; [done |]. simpl.
    apply (payment_ok_insert_payment (set_coursePackages _ s)).
    + apply payment_ok_insert_package; [done |]. intros p0 Hp0. congruence.
    + simpl. intros pid' [= <-]. rewrite lookup_insert_eq. by eexists.
  - unfold PackageAdmin.create.
    destruct (requireRole [ADMIN] caller); [| done]. simpl.
    destruct (PackageAdmin.validCreate body); [| done]. simpl.
    destruct (users s !! _) as [u |]; [| done].
    destruct (bool_decide (u_role u = STUDENT)); [| done]. simpl.
    destruct (addDays now (PackageAdmin.validDays body)) as [expiresAt |]; [| done].
    unfold coursePackage_create.
    destruct (coursePackages s !! newId) eqn:Hf; [done |]. simpl.
    apply payment_ok_insert_package; [done |]. intros p0 Hp0. congruence.
  - destruct (consume_store now caller id body s) as [-> | (p & Hp & _ & _ & _ & ->)];
      [done |].
    apply payment_ok_insert_package; [done |]. intros p0 Hp0.
    rewrite Hp in Hp0. by injection Hp0 as <-.
  - unfold PackageAdmin.delete.
    destruct (requireRole [ADMIN] caller); [| done]. simpl.
    destruct (coursePackages s !! id) as [p |]; [| done].
    destruct (0 <? p_usedHours p); [done |]. simpl.
    intros k pay pid. simpl. rewrite map_lookup_filter_Some. simpl.
    intros [Hk Hne] Hpid. destruct (Hinv k pay pid Hk Hpid) as (p0 & Hp0 & Hst).
    exists p0. split; [| done]. rewrite lookup_delete_ne; [done | congruence].
  - unfold PaymentAdmin.create.
    destruct (requireRole [ADMIN] caller); [| done]. simpl.
    destruct (Qle_bool 0 (PaymentAdmin.amount body)); [| done]. simpl.
    destruct (users s !! _) as [u |]; [| done].
    destruct (bool_decide (u_role u = STUDENT)); [| done]. simpl.
    destruct (PaymentAdmin.packageId body) as [pid |] eqn:Hpid; simpl.
    + rewrite bool_decide_eq_false_2 by congruence.
      destruct (coursePackages s !! pid) as [p |] eqn:Hp; [| done].
      case_bool_decide as Hown; [| done]. simpl.
      unfold payment_create. destruct (payments s !! newId); [done |]. simpl.
      apply payment_ok_insert_payment; [done |]. simpl.
      intros pid' [= <-]. by exists p.
    + unfold payment_create. destruct (payments s !! newId); [done |]. simpl.
      apply payment_ok_insert_payment; [done |]. simpl. done.
  - unfold PaymentAdmin.updateStatus.
    destruct (requireRole [ADMIN] caller); [| done]. simpl.
    destruct (payments s !! id) as [pay |] eqn:Hpay; [| done]. simpl.
    apply payment_ok_insert_payment; [done |]. simpl.
    intros pid Hpid. by apply (Hinv id pay pid).
  - unfold PaymentAdmin.delete.
    destruct (requireRole [ADMIN] caller); [| done]. simpl.
    destruct (payments s !! id) as [pay |] eqn:Hpay; [| done].
    destruct (bool_decide (pay_status pay = PaymentStatus.PAID)); [done |]. simpl.
    intros k pay' pid. simpl.
    destruct (decide (id = k)) as [<- | Hne]; [by rewrite lookup_delete_eq |].
    rewrite lookup_delete_ne by done. apply Hinv.
Qed.

(** X8.  Every payment that names a package names an existing package of
    the same student, and this is kept by any history of purchases, admin
    grants of packages, consume requests, package deletions, admin payment
    creations (which name a package by a proper id or none), payment status
    updates and payment deletions.  A payment created through the payments
    endpoint for a package of another student, or for a package that does
    not exist, is refused. *)
Theorem payments_name_own_packages :
  (∀ ops s, Forall properReference ops → payment_ok s →
            payment_ok (runPaymentOps ops s))
  ∧ (∀ now newId caller body s pid,
       requireRole [ADMIN] caller = true →
       PaymentAdmin.packageId body = Some pid → pid ≠ "" →
       (coursePackages s !! pid = None →
        (PaymentAdmin.create now newId caller body s).2 = s
        ∧ ∀ pay, (PaymentAdmin.create now newId caller body s).1 ≠ Accepted pay)
       ∧ (∀ p, coursePackages s !! pid = Some p →
               p_studentId p ≠ PaymentAdmin.studentId body →
               (PaymentAdmin.create now newId caller body s).2 = s
               ∧ ∀ pay, (PaymentAdmin.create now newId caller body s).1 ≠ Accepted pay)).
Proof.
  split.
  - intros ops s Hops. revert s. induction Hops as [| op ops Hop Hops IH]; intros s Hinv;
      [done |].
    simpl. apply IH. by apply payment_ok_step.
  - intros now newId caller body s pid Hrole Hpid Hne.
    unfold PaymentAdmin.create. rewrite Hrole, Hpid. simpl.
    rewrite (bool_decide_eq_false_2 (pid = "")) by done.
    split.
    + intros Hnone. rewrite Hnone.
      destruct (Qle_bool 0 _); simpl; [| split; [done | discriminate]].
      destruct (users s !! _) as [u |]; [| split; [done | discriminate]].
      destruct (bool_decide (u_role u = STUDENT)); simpl; split; done || discriminate.
    + intros p Hp Hother. rewrite Hp.
      rewrite (bool_decide_eq_false_2 (p_studentId p = _)) by done. simpl.
      destruct (Qle_bool 0 _); simpl; [| split; [done | discriminate]].
      destruct (users s !! _) as [u |]; [| split; [done | discriminate]].
      destruct (bool_decide (u_role u = STUDENT)); simpl; split; done || discriminate.
Qed.

(** After the purchase of the scenario, the payment names the package
    bought, which is the student's. *)
Lemma payments_name_own_packages_witness :
  let ops := [ OpPurchase no_faults 1000 "p2" "pay1" student1 purchase30 ] in
  Forall properReference ops
  ∧ payment_ok store20
  ∧ payment_ok (runPaymentOps ops store20)
  ∧ (pay_packageId <$> payments (runPaymentOps ops store20) !! "pay1") = Some (Some "p2").
Proof.
  intros ops.
  assert (H1 : Forall properReference ops) by (repeat constructor).
  assert (H2 : payment_ok store20).
  { intros k pay pid Hk. simpl in Hk. by rewrite lookup_empty in Hk. }
  split; [exact H1 |]. split; [exact H2 |].
  split; [exact (proj1 payments_name_own_packages ops store20 H1 H2) |].
  vm_compute. reflexivity.
Defined.

(** ** Deleting a payment *)



(** ** Paging *)


Local Open Scope Q_scope.








Local Close Scope Q_scope.





(** The digits of a page number are read as a double, and so is the
    offset: page 10^21 of three rows, ten a page, starts at the second
    row, since [parseInt] reads the 1 of [1e+22]. *)
Lemma page_far_beyond_not_empty :
  paginate (mkPaging (Some (10 ^ 21)) (Some 10)) [10; 20; 30] = [20; 30]
  ∧ pageCount (mkPaging (Some (10 ^ 21)) (Some 10)) 3 = 1.
Proof. split; vm_compute; reflexivity. Qed.



(** ** The order of a listing *)

#[local] Instance descBy_trans {A} (key : A → Z) : Transitive (descBy key).
Proof. intros x y z. unfold descBy. lia. Qed.

#[local] Instance descBy_total {A} (key : A → Z) : Total (descBy key).
Proof. intros x y. unfold descBy. lia. Qed.

#[local] Instance ascBy_trans {A} (key : A → Z) : Transitive (ascBy key).
Proof. intros x y z. unfold ascBy. lia. Qed.

#[local] Instance ascBy_total {A} (key : A → Z) : Total (ascBy key).
Proof. intros x y. unfold ascBy. lia. Qed.

Lemma StronglySorted_sublist {A} (R : relation A) (l1 l2 : list A) :
  l1 `sublist_of` l2 → StronglySorted R l2 → StronglySorted R l1.
Proof.
  induction 1 as [| x l1 l2 Hsub IH | x l1 l2 Hsub IH]; intros Hs.
  - constructor.
  - apply StronglySorted_inv in Hs as [Hs Hall]. constructor; [by apply IH |].
    apply Forall_forall. intros y Hy. rewrite Forall_forall in Hall. apply Hall.
    by apply (sublist_subseteq _ _ Hsub).
  - apply StronglySorted_inv in Hs as [Hs _]. by apply IH.
Qed.

Lemma paginate_sorted {A} (R : relation A) (pg : Paging) (l : list A) :
  StronglySorted R l → StronglySorted R (paginate pg l).
Proof.
  intros Hs. unfold paginate.
  eapply StronglySorted_sublist; [apply sublist_take |].
  eapply StronglySorted_sublist; [apply sublist_drop | done].
Qed.

(** X11.  The rows of a page come in the order of the listing: packages by
    purchase time, payments by payment time and attendance records by
    recording time, latest first; courses by start time, earliest first.
    Every row of the page stands in this order to all rows after it. *)
Theorem listings_are_ordered caller s :
  (∀ q, StronglySorted (λ x y, p_purchasedAt y.2 ≤ p_purchasedAt x.2)
                       (rowsOf (Packages.getAll caller q s)))
  ∧ (∀ q, StronglySorted (λ x y, pay_paidAt y.2 ≤ pay_paidAt x.2)
                         (rowsOf (Payments.getAll caller q s)))
  ∧ (∀ q, StronglySorted (λ x y, a_recordedAt y ≤ a_recordedAt x)
                         (rowsOf (Attendance.getAll caller q s)))
  ∧ (∀ q, StronglySorted (λ x y, c_startTime x.2 ≤ c_startTime y.2)
                         (rowsOf (CourseQueries.getAll caller q s))).
Proof.
  split; [| split; [| split]].
  - intros q. unfold Packages.getAll. destruct (validPaging _); simpl; [| constructor].
    apply (paginate_sorted (descBy (λ kv : string * CoursePackage, p_purchasedAt kv.2))).
    apply StronglySorted_merge_sort; apply _.
  - intros q. unfold Payments.getAll. destruct (validPaging _); simpl; [| constructor].
    apply (paginate_sorted (descBy (λ kv : string * Payment, pay_paidAt kv.2))).
    apply StronglySorted_merge_sort; apply _.
  - intros q. unfold Attendance.getAll. destruct (validPaging _); simpl; [| constructor].
    apply (paginate_sorted (descBy a_recordedAt)).
    apply StronglySorted_merge_sort; apply _.
  - intros q. unfold CourseQueries.getAll. destruct (validPaging _); simpl; [| constructor].
    apply (paginate_sorted (ascBy (λ kv : string * Course, c_startTime kv.2))).
    apply StronglySorted_merge_sort; apply _.
Qed.

(** ** Listed rows and the detail endpoints *)

Lemma elem_of_orderByAsc {A} (key : A → Z) (l : list A) x :
  x ∈ orderByAsc key l ↔ x ∈ l.
Proof. unfold orderByAsc. by rewrite merge_sort_Permutation. Qed.

Lemma elem_of_findMany {V} (w : string * V → bool) (m : gmap string V) k v :
  (k, v) ∈ findMany w m ↔ m !! k = Some v ∧ w (k, v) = true.
Proof.
  unfold findMany. rewrite list_elem_of_filter, elem_of_map_to_list.
  split.
  - intros [Hw Hm]. split; [done | by apply Is_true_true_1].
  - intros [Hm Hw]. split; [by apply Is_true_true_2 | done].
Qed.

Lemma course_getOne_Success caller id s c :
  CourseQueries.getOne caller id s = Success c
  ↔ courses s !! id = Some c
    ∧ (caller_role caller = STUDENT → (caller_id caller, id) ∈ studentCourses s).
Proof.
  unfold CourseQueries.getOne. destruct (courses s !! id) as [c0 |]; [| split; [discriminate | by intros [? _]]].
  case_bool_decide as Hrole; simpl.
  - case_bool_decide as Hin; simpl; split.
    + intros [= <-]. done.
    + by intros [[= <-] _].
    + discriminate.
    + intros [_ H]. by destruct Hin; apply H.
  - split; [by intros [= <-] | by intros [[= <-] _]].
Qed.

Lemma package_getOne_Success caller id s p :
  PackageAdmin.getOne caller id s = Success p
  ↔ coursePackages s !! id = Some p
    ∧ (caller_role caller = STUDENT → p_studentId p = caller_id caller).
Proof.
  unfold PackageAdmin.getOne. destruct (coursePackages s !! id) as [p0 |]; [| split; [discriminate | by intros [? _]]].
  case_bool_decide as Hrole; simpl.
  - case_bool_decide as Hown; simpl; split.
    + intros [= <-]. done.
    + by intros [[= <-] _].
    + discriminate.
    + intros [[= <-] H]. by destruct Hown; apply H.
  - split; [by intros [= <-] | by intros [[= <-] _]].
Qed.

Lemma payment_getOne_Accepted caller id s pay :
  PaymentAdmin.getOne caller id s = Accepted pay
  ↔ payments s !! id = Some pay
    ∧ (caller_role caller = STUDENT → pay_studentId pay = caller_id caller).
Proof.
  unfold PaymentAdmin.getOne. destruct (payments s !! id) as [p0 |]; [| split; [discriminate | by intros [? _]]].
  case_bool_decide as Hrole; simpl.
  - case_bool_decide as Hown; simpl; split.
    + intros [= <-]. done.
    + by intros [[= <-] _].
    + discriminate.
    + intros [[= <-] H]. by destruct Hown; apply H.
  - split; [by intros [= <-] | by intros [[= <-] _]].
Qed.

(** X12.  The list and the detail endpoints of courses, packages and
    payments agree on what a caller may see: every row that a list reply
    shows is opened by the detail endpoint for the same caller, and a row
    that the detail endpoint opens is among the rows matched by the list
    query without filters.  For a student these are the courses the
    student is enrolled in and the student's own packages and payments;
    another student's row is refused by the detail endpoint and missing
    from every list reply. *)
Theorem list_and_detail_agree caller s :
  (∀ q kv, kv ∈ rowsOf (CourseQueries.getAll caller q s) →
           CourseQueries.getOne caller kv.1 s = Success kv.2)
  ∧ (∀ pg id c, CourseQueries.getOne caller id s = Success c →
        (id, c) ∈ findMany (CourseQueries.matches caller (anyCourse pg) s) (courses s))
  ∧ (∀ q kv, kv ∈ rowsOf (Packages.getAll caller q s) →
             PackageAdmin.getOne caller kv.1 s = Success kv.2)
  ∧ (∀ pg id p, PackageAdmin.getOne caller id s = Success p →
        (id, p) ∈ findMany (Packages.matches (Packages.buildWhere caller (anyPackage pg)))
                           (coursePackages s))
  ∧ (∀ q kv, kv ∈ rowsOf (Payments.getAll caller q s) →
             PaymentAdmin.getOne caller kv.1 s = Accepted kv.2)
  ∧ (∀ pg id pay, PaymentAdmin.getOne caller id s = Accepted pay →
        (id, pay) ∈ findMany (Payments.matches (Payments.buildWhere caller (anyPayment pg)))
                             (payments s)).
Proof.
  split; [| split; [| split; [| split; [| split]]]].
  - intros q [id c]. unfold CourseQueries.getAll.
    destruct (validPaging _); simpl; [| by intros ?%elem_of_nil].
    intros Hin%elem_of_paginate%elem_of_orderByAsc%elem_of_findMany.
    destruct Hin as [Hc Hm]. apply course_getOne_Success. split; [done |].
    intros Hrole. unfold CourseQueries.matches in Hm. simpl in Hm.
    apply andb_true_iff in Hm as [_ Hm]. rewrite (bool_decide_eq_true_2 _ Hrole) in Hm.
    simpl in Hm. by apply bool_decide_eq_true_1 in Hm.
  - intros pg id c [Hc Hrole]%course_getOne_Success. apply elem_of_findMany.
    split; [done |]. unfold CourseQueries.matches. simpl.
    case_bool_decide as Hr; simpl; [| done]. by rewrite bool_decide_eq_true_2 by auto.
  - intros q [id p]. unfold Packages.getAll.
    destruct (validPaging _); simpl; [| by intros ?%elem_of_nil].
    intros Hin%elem_of_page%elem_of_findMany.
    destruct Hin as [Hp Hm]. apply package_getOne_Success. split; [done |].
    intros Hrole. unfold Packages.matches, Packages.buildWhere in Hm. simpl in Hm.
    rewrite (bool_decide_eq_true_2 _ Hrole) in Hm.
    apply andb_true_iff in Hm as [_ Hm].
    by apply (eqFilter_Some (caller_id caller) (p_studentId p)) in Hm.
  - intros pg id p [Hp Hrole]%package_getOne_Success. apply elem_of_findMany.
    split; [done |]. unfold Packages.matches, Packages.buildWhere. simpl.
    case_bool_decide as Hr; simpl; [| done].
    apply (eqFilter_Some (caller_id caller) (p_studentId p)). auto.
  - intros q [id pay]. unfold Payments.getAll.
    destruct (validPaging _); simpl; [| by intros ?%elem_of_nil].
    intros Hin%elem_of_page%elem_of_findMany.
    destruct Hin as [Hp Hm]. apply payment_getOne_Accepted. split; [done |].
    intros Hrole. unfold Payments.matches, Payments.buildWhere in Hm.
    rewrite (bool_decide_eq_true_2 _ Hrole) in Hm. simpl in Hm.
    rewrite !andb_true_iff in Hm. destruct Hm as [[[_ _] Hm] _].
    by apply (eqFilter_Some (caller_id caller) (pay_studentId pay)) in Hm.
  - intros pg id pay [Hp Hrole]%payment_getOne_Accepted. apply elem_of_findMany.
    split; [done |]. unfold Payments.matches, Payments.buildWhere. simpl.
    case_bool_decide as Hr; simpl; [| done].
    rewrite andb_true_r.
    apply (eqFilter_Some (caller_id caller) (pay_studentId pay)). auto.
Qed.

(** Student [s1] sees the course of the enrollment in the list and may
    open it; the other course is refused. *)
Lemma list_and_detail_agree_witness :
  (fst <$> rowsOf (CourseQueries.getAll student1 (anyCourse firstPage) storeTwoCourses))
  = ["c1"]
  ∧ is_Some (courses storeTwoCourses !! "c1")
  ∧ CourseQueries.getOne student1 "c2" storeTwoCourses = Failure Forbidden
  ∧ ∀ kv, kv ∈ rowsOf (CourseQueries.getAll student1 (anyCourse firstPage) storeTwoCourses) →
          CourseQueries.getOne student1 kv.1 storeTwoCourses = Success kv.2.
Proof.
  split; [vm_compute; reflexivity |]. split; [vm_compute; by eexists |].
  split; [vm_compute; reflexivity |].
  exact (proj1 (list_and_detail_agree student1 storeTwoCourses) (anyCourse firstPage)).
Defined.

(** ** Accounts *)

Lemma auth_Accepted token table cu :
  Users.auth token table = Accepted cu →
  token = Users.Verified cu.1 ∧ table !! cu.1 = Some cu.2
  ∧ Users.status cu.2 = Users.ACTIVE.
Proof.
  unfold Users.auth. destruct token as [| | uid]; try discriminate.
  destruct (table !! uid) as [a |] eqn:E; [| discriminate].
  case_bool_decide as Hst; [| discriminate]. simpl. by intros [= <-].
Qed.

Lemma user_update_table cu id body table :
  (Users.update cu id body table).2 = table
  ∨ ∃ row, table !! id = Some row
      ∧ (cu.1 = id ∨ Users.role cu.2 = ADMIN)
      ∧ (Users.update cu id body table).2
        = <[id := Users.mkAccount (default (Users.name row) (Users.u_name body))
                    (Users.role row)
                    (if bool_decide (Users.role cu.2 = ADMIN)
                     then default (Users.status row) (Users.u_status body)
                     else Users.status row)]> table.
Proof.
  unfold Users.update.
  destruct (_ || _); [by left |].
  destruct (bool_decide (cu.1 = id)) eqn:Hid;
    destruct (bool_decide (Users.role cu.2 = ADMIN)) eqn:Hadm; simpl;
    try (by left);
    (destruct (table !! id) as [row |]; [| by left]);
    right; exists row; (split; [done |]); (split; [| done]).
  - left. by apply bool_decide_eq_true_1 in Hid.
  - left. by apply bool_decide_eq_true_1 in Hid.
  - right. by apply bool_decide_eq_true_1 in Hadm.
Qed.

Lemma user_delete_table cu id table :
  (Users.delete cu id table).2 = table
  ∨ ∃ row, table !! id = Some row ∧ Users.role cu.2 = ADMIN
      ∧ (Users.delete cu id table).2
        = <[id := Users.mkAccount (Users.name row) (Users.role row) Users.SUSPENDED]> table.
Proof.
  unfold Users.delete. case_bool_decide as Hadm; simpl; [| by left].
  destruct (table !! id) as [row |]; [| by left].
  right. exists row. split; [done |]. split; [| done].
  by apply list_elem_of_singleton in Hadm.
Qed.

(** What a request can change: one row, of which the role stays. *)
Lemma serveUser_table token rq table :
  serveUser token rq table = table
  ∨ ∃ cu id row row',
      Users.auth token table = Accepted cu
      ∧ table !! id = Some row
      ∧ serveUser token rq table = <[id := row']> table
      ∧ Users.role row' = Users.role row
      ∧ (cu.1 = id ∨ Users.role cu.2 = ADMIN)
      ∧ (Users.status row' ≠ Users.status row → Users.role cu.2 = ADMIN).
Proof.
  unfold serveUser. destruct (Users.auth token table) as [cu | r] eqn:Hauth; [| by left].
  destruct rq as [id body | id].
  - destruct (user_update_table cu id body table) as [-> | (row & Hrow & Hwho & ->)];
      [by left |].
    right. eexists cu, id, row, _. split; [done |]. split; [done |]. split; [done |].
    split; [done |]. split; [done |]. simpl.
    case_bool_decide; [done | by intros []].
  - destruct (user_delete_table cu id table) as [-> | (row & Hrow & Hadm & ->)];
      [by left |].
    right. eexists cu, id, row, _. split; [done |]. split; [done |]. split; [done |].
    split; [done |]. split; [by right | done].
Qed.

Lemma serveUser_status token rq table k :
  Users.status <$> serveUser token rq table !! k = Users.status <$> table !! k
  ∨ activeAdmin token table.
Proof.
  destruct (serveUser_table token rq table)
    as [-> | (cu & id & row & row' & Hauth & Hrow & -> & Hrole & Hwho & Hst)];
    [by left |].
  apply auth_Accepted in Hauth as (Htok & Hcu & Hactive).
  destruct (decide (id = k)) as [<- |]; [| left; by rewrite lookup_insert_ne].
  rewrite lookup_insert_eq, Hrow. simpl.
  destruct (decide (Users.status row' = Users.status row)) as [-> | Hne]; [by left |].
  right. exists cu.1, cu.2. auto.
Qed.

(** X13.  No update or delete request to the users router adds or removes
    an account or changes a role.  A status changes only when the token is
    that of an active administrator, and any other column of an account
    changes only on a request of an active administrator or of the
    account's owner. *)
Theorem accounts_guarded token rq table :
  let table' := serveUser token rq table in
  (∀ k, Users.role <$> table' !! k = Users.role <$> table !! k)
  ∧ (∀ k, Users.status <$> table' !! k ≠ Users.status <$> table !! k →
          activeAdmin token table)
  ∧ (∀ k, table' !! k ≠ table !! k →
          token = Users.Verified k ∨ activeAdmin token table).
Proof.
  simpl. split; [| split]; intros k.
  - destruct (serveUser_table token rq table)
      as [-> | (cu & id & row & row' & _ & Hrow & -> & Hrole & _ & _)]; [done |].
    destruct (decide (id = k)) as [<- |].
    + rewrite lookup_insert_eq, Hrow. simpl. by rewrite Hrole.
    + by rewrite lookup_insert_ne.
  - intros Hne. by destruct (serveUser_status token rq table k) as [Heq | Hadm].
  - destruct (serveUser_table token rq table)
      as [-> | (cu & id & row & row' & Hauth & Hrow & -> & _ & Hwho & _)]; [by intros [] |].
    apply auth_Accepted in Hauth as (Htok & Hcu & Hactive).
    destruct (decide (id = k)) as [<- |].
    + intros _. destruct Hwho as [<- | Hadm]; [by left |].
      right. by exists cu.1, cu.2.
    + rewrite lookup_insert_ne by done. by intros [].
Qed.

(** The student renames the own account; the status asked for is dropped. *)
Lemma accounts_guarded_witness :
  serveUser (Users.Verified "s1")
            (PutUser "s1" (Users.mkUpdateBody (Some "Zhao") true (Some Users.SUSPENDED)))
            accounts2 !! "s1"
  = Some (Users.mkAccount "Zhao" STUDENT Users.ACTIVE)
  ∧ (accounts2 !! "s1" ≠ Some (Users.mkAccount "Zhao" STUDENT Users.ACTIVE) →
     Users.Verified "s1" = Users.Verified "s1"
     ∨ activeAdmin (Users.Verified "s1") accounts2).
Proof.
  split; [vm_compute; reflexivity |].
  intros Hne.
  apply (proj2 (proj2 (accounts_guarded (Users.Verified "s1")
    (PutUser "s1" (Users.mkUpdateBody (Some "Zhao") true (Some Users.SUSPENDED)))
    accounts2)) "s1").
  vm_compute. congruence.
Defined.

(** X14.  Deleting a user is a soft delete that locks the account out: on
    the request of an administrator for an existing account the row stays,
    with its name and role, and its status becomes SUSPENDED; from then on
    [auth] refuses the account's token with 401, so every request made
    with it leaves the table as it is.  An account that is not active
    stays so under every request that does not carry the token of an
    active administrator. *)
Theorem soft_delete_locks_out :
  (∀ cu id table row,
     Users.role cu.2 = ADMIN → table !! id = Some row →
     ∃ table',
       Users.delete cu id table = (Accepted (), table')
       ∧ table' !! id = Some (Users.mkAccount (Users.name row) (Users.role row)
                                              Users.SUSPENDED)
       ∧ (∀ k, k ≠ id → table' !! k = table !! k)
       ∧ Users.auth (Users.Verified id) table' = Refused AccountDisabled
       ∧ refusal_status AccountDisabled = 401
       ∧ ∀ rq, serveUser (Users.Verified id) rq table' = table')
  ∧ (∀ token rq id table,
       lockedOut id table → ¬ activeAdmin token table →
       lockedOut id (serveUser token rq table)).
Proof.
  split.
  - intros cu id table row Hadm Hrow. eexists. unfold Users.delete.
    rewrite bool_decide_eq_true_2 by (rewrite Hadm; apply list_elem_of_singleton; done).
    simpl. rewrite Hrow. split; [done |].
    split; [by rewrite lookup_insert_eq |].
    split; [by intros k Hk; rewrite lookup_insert_ne |].
    assert (Hauth : Users.auth (Users.Verified id)
              (<[id := Users.mkAccount (Users.name row) (Users.role row) Users.SUSPENDED]>
                 table) = Refused AccountDisabled).
    { unfold Users.auth. by rewrite lookup_insert_eq. }
    split; [done |]. split; [done |].
    intros rq. unfold serveUser. by rewrite Hauth.
  - intros token rq id table (a & Ha & Hst) Hnoadmin.
    destruct (serveUser_status token rq table id) as [Heq | Hadm];
      [| by destruct Hnoadmin].
    rewrite Ha in Heq. simpl in Heq.
    destruct (serveUser token rq table !! id) as [a' |] eqn:Ha'; [| discriminate].
    exists a'. split; [done |]. injection Heq as Heq. by rewrite Heq.
Qed.

(** The administrator deletes the student's account; the row stays and
    the student's token is refused from then on. *)
Lemma soft_delete_locks_out_witness :
  Users.role rootUser.2 = ADMIN
  ∧ accounts2 !! "s1" = Some (Users.mkAccount "Li" STUDENT Users.ACTIVE)
  ∧ ∃ table',
      Users.delete rootUser "s1" accounts2 = (Accepted (), table')
      ∧ table' !! "s1" = Some (Users.mkAccount "Li" STUDENT Users.SUSPENDED)
      ∧ Users.auth (Users.Verified "s1") table' = Refused AccountDisabled.
Proof.
  split; [reflexivity |]. split; [vm_compute; reflexivity |].
  destruct (proj1 soft_delete_locks_out rootUser "s1" accounts2
              (Users.mkAccount "Li" STUDENT Users.ACTIVE))
    as (table' & Hdel & Hrow & _ & Hauth & _); [reflexivity | vm_compute; reflexivity |].
  exists table'. split; [done |]. split; done.
Defined.

(** ** Single attendance records *)

Lemma create_outcome now caller body s :
  unique_ok s →
  (recordable caller body s
   ∧ Attendance.create now caller body s
     = (Success (mkAttendanceRecord (Attendance.studentId body) (Attendance.courseId body)
                                    (Attendance.status body) now),
        set_attendanceRecords
          (λ t, (t ++ [mkAttendanceRecord (Attendance.studentId body)
                         (Attendance.courseId body) (Attendance.status body) now])%list) s))
  ∨ (¬ recordable caller body s
     ∧ ∃ e, e ≠ InternalError ∧ Attendance.create now caller body s = (Failure e, s)).
Proof.
  intros Huniq. unfold Attendance.create, recordable.
  destruct (requireRole [ADMIN; TEACHER] caller) eqn:Hrole; simpl;
    [| right; split; [by intros [? _] | by exists Forbidden]].
  destruct (users s !! Attendance.studentId body) as [u |] eqn:Hu;
    [| right; split; [by intros (_ & (? & ? & _) & _) | by exists StudentInvalid]].
  case_bool_decide as Hstudent; simpl;
    [| right; split; [intros (_ & (? & [= <-] & ?) & _); done | by exists StudentInvalid]].
  destruct (courses s !! Attendance.courseId body) as [c |] eqn:Hc;
    [| right; split; [by intros (_ & _ & (? & ? & _) & _) | by exists CourseNotFound]].
  destruct (Attendance.notTeacherNorAdmin c caller) eqn:Hperm;
    [right; split; [intros (_ & _ & (? & [= <-] & ?) & _); congruence
                   | by exists Forbidden] |].
  case_bool_decide as Hlink; simpl;
    [| right; split; [by intros (_ & _ & _ & ? & _) | by exists NotEnrolled]].
  case_bool_decide as Hrec;
    [right; split; [by intros (_ & _ & _ & _ & ?) | by exists RecordExists] |].
  left. split.
  { split; [done |]. split; [by exists u |]. split; [by exists c |]. done. }
  unfold attendanceRecord_createMany, stamped.
  rewrite bool_decide_eq_true_2; [done |].
  rewrite fmap_app. apply NoDup_app. split; [done |]. split.
  - intros k Hk [-> | []%elem_of_nil]%elem_of_cons. done.
  - simpl. apply NoDup_singleton.
Qed.

(** X15.  On a store whose attendance records are unique per student and
    course, [POST /attendance] records exactly the recordable requests: it
    answers with the new record, appended to the table, when the request
    is recordable, and otherwise refuses it with a reply other than the
    500 and leaves the store as it is.  The records stay unique, and after
    a success the same caller asking again for the same student and
    course, with whatever status and at whatever time, is told that the
    record exists. *)
Theorem attendance_create_spec now caller body s :
  unique_ok s →
  let out := Attendance.create now caller body s in
  ((∃ r, out.1 = Success r) ↔ recordable caller body s)
  ∧ out.1 ≠ Failure InternalError
  ∧ (∀ e, out.1 = Failure e → out.2 = s)
  ∧ (∀ r, out.1 = Success r →
       r = mkAttendanceRecord (Attendance.studentId body) (Attendance.courseId body)
                              (Attendance.status body) now
       ∧ attendanceRecords out.2 = (attendanceRecords s ++ [r])%list
       ∧ ∀ now' st, Attendance.create now' caller (restated body st) out.2
                    = (Failure RecordExists, out.2))
  ∧ unique_ok out.2.
Proof.
  intros Huniq. simpl.
  destruct (create_outcome now caller body s Huniq)
    as [[Hok Heq] | [Hno (e & He & Heq)]]; rewrite Heq; simpl.
  - split; [split; [done | by eexists] |]. split; [done |]. split; [done |].
    split.
    + intros r [= <-]. split; [done |]. split; [done |].
      intros now' st.
      destruct Hok as (Hrole & (u & Hu & Hstudent) & (c & Hc & Hperm) & Hlink & Hrec).
      unfold Attendance.create, restated. simpl.
      rewrite Hrole, Hu. simpl. rewrite (bool_decide_eq_true_2 _ Hstudent). simpl.
      rewrite Hc, Hperm. rewrite (bool_decide_eq_true_2 _ Hlink). simpl.
      rewrite bool_decide_eq_true_2; [done |].
      rewrite fmap_app. apply elem_of_app. right. simpl. by apply list_elem_of_singleton.
    + unfold unique_ok. simpl. rewrite fmap_app. apply NoDup_app.
      destruct Hok as (_ & _ & _ & _ & Hrec).
      split; [done |]. split; [| apply NoDup_singleton].
      intros k Hk [-> | []%elem_of_nil]%elem_of_cons. done.
  - split; [split; [by intros [? ?] | done] |]. split; [congruence |].
    split; [done |]. split; [by intros r ? | done].
Qed.

(** The teacher records student [a], who is enrolled; the second request
    finds the record. *)
Lemma attendance_create_spec_witness :
  unique_ok storeJoined
  ∧ recordable teacher1 (Attendance.mkCreateBody "a" "c1" PRESENT) storeJoined
  ∧ Attendance.create 1600 teacher1 (Attendance.mkCreateBody "a" "c1" LATE) storeRecorded
    = (Failure RecordExists, storeRecorded).
Proof.
  assert (Huniq : unique_ok storeJoined) by (vm_compute; constructor).
  pose proof (attendance_create_spec 1500 teacher1
                (Attendance.mkCreateBody "a" "c1" PRESENT) storeJoined Huniq)
    as (Hiff & _ & _ & Hsucc & _).
  split; [done |]. split.
  - apply Hiff. eexists. vm_compute. reflexivity.
  - destruct (Hsucc (mkAttendanceRecord "a" "c1" PRESENT 1500)) as (_ & _ & Hagain);
      [vm_compute; reflexivity |].
    exact (Hagain 1600 LATE).
Defined.

(** ** The numbers of the course statistics *)

Lemma status_counts (courseId : string) (l : list AttendanceRecord) :
  (length (filter (λ r, a_courseId r = courseId ∧ a_status r = PRESENT) l)
   + length (filter (λ r, a_courseId r = courseId ∧ a_status r = ABSENT) l)
   + length (filter (λ r, a_courseId r = courseId ∧ a_status r = LATE) l)
   + length (filter (λ r, a_courseId r = courseId ∧ a_status r = LEAVE) l))%nat
  = length (filter (λ r, a_courseId r = courseId) l).
Proof.
  induction l as [| r l IH]; [done |].
  rewrite !filter_cons.
  destruct (decide (a_courseId r = courseId)) as [Hc | Hc].
  - destruct (a_status r) eqn:Hst;
      repeat (case_decide as H; [try (destruct H as [_ H]; discriminate H)
                                | try (destruct H; split; [done | reflexivity])];
              try clear H);
      simpl; lia.
  - repeat (case_decide as H; [by destruct H | clear H]). done.
Qed.

Lemma records_le_links courseId s :
  attendance_ok s → unique_ok s → recordCount courseId s ≤ linkCount courseId s.
Proof.
  intros Hlinks Huniq. unfold recordCount, linkCount.
  apply inj_le.
  rewrite <- (length_fmap attendance_key).
  apply submseteq_length, NoDup_submseteq.
  - eapply sublist_NoDup; [exact Huniq | apply fmap_sublist, sublist_filter].
  - intros k (r & -> & [Hc Hr]%list_elem_of_filter)%list_elem_of_fmap.
    apply list_elem_of_filter. split; [done |].
    apply elem_of_elements. by apply Hlinks.
Qed.

(** X16.  In the statistics of a course the four status counts add up to
    the number of attendance records of the course, and the rate is never
    negative.  The rate is the number of records over the number of
    enrolled students: when every record belongs to an enrolled student
    and the records are unique per student and course, there are at most
    as many records as enrolled students and the rate is at most 100. *)
Theorem course_statistics_counts caller courseId s st :
  Attendance.courseStatistics caller courseId s = Success st →
  Attendance.presentCount st + Attendance.absentCount st
  + Attendance.lateCount st + Attendance.leaveCount st = recordCount courseId s
  ∧ 0 ≤ Attendance.attendanceRate st
  ∧ (attendance_ok s → unique_ok s →
     recordCount courseId s ≤ Attendance.totalStudents st
     ∧ Attendance.attendanceRate st ≤ 10000).
Proof.
  intros Hst. pose proof (courseStatistics_success _ _ _ _ Hst) as [Htot Hrate].
  split; [| split].
  - revert Hst. unfold Attendance.courseStatistics.
    destruct (courses s !! courseId) as [c |]; [| discriminate].
    destruct (Attendance.notTeacherNorAdmin c caller); [discriminate |].
    intros [= <-]. simpl. unfold Attendance.countStatus, recordCount.
    rewrite <- (status_counts courseId (attendanceRecords s)). lia.
  - rewrite Hrate. destruct (Z.ltb_spec 0 (linkCount courseId s)) as [Hden |]; [| lia].
    change 0 with (toFixed2 0). apply toFixed2_le; [done |].
    apply percentage_nonneg; [unfold recordCount; lia | done].
  - intros Hlinks Huniq. pose proof (records_le_links courseId s Hlinks Huniq) as Hle.
    rewrite Htot, Hrate. split; [done |].
    apply rate_bounds. unfold recordCount in *. lia.
Qed.

(** The course of [storeRecorded] has one enrolled student and one record,
    a present one: the rate is 100.00. *)
Lemma course_statistics_counts_witness :
  attendance_ok storeRecorded ∧ unique_ok storeRecorded
  ∧ ∃ st, Attendance.courseStatistics teacher1 "c1" storeRecorded = Success st
          ∧ Attendance.presentCount st = 1
          ∧ recordCount "c1" storeRecorded ≤ Attendance.totalStudents st
          ∧ Attendance.attendanceRate st ≤ 10000.
Proof.
  assert (Hlinks : attendance_ok storeRecorded).
  { intros r [-> | []%elem_of_nil]%elem_of_cons. vm_compute. set_unfold. auto. }
  assert (Huniq : unique_ok storeRecorded).
  { vm_compute. apply NoDup_singleton. }
  split; [done |]. split; [done |].
  eexists. split; [vm_compute; reflexivity |]. split; [reflexivity |].
  eapply (course_statistics_counts teacher1 "c1" storeRecorded); [| done | done].
  vm_compute. reflexivity.
Defined.

(** X17.  The rates of the report rows are percentages: whenever the
    count in the numerator is between zero and the count in the
    denominator, the rate lies between 0 and 100 (in hundredths, 0 and
    10000), also when the denominator is zero. *)
Theorem report_rates_bounded :
  (∀ stat, 0 ≤ Statistics.present_count stat ≤ Statistics.total_records stat →
           0 ≤ Statistics.attendanceRate stat ≤ 10000)
  ∧ (∀ stat, 0 ≤ Statistics.present_records stat ≤ Statistics.total_attendance_records stat →
             0 ≤ Statistics.personAttendanceRate stat ≤ 10000)
  ∧ (∀ stat, 0 ≤ Statistics.cr_present_count stat ≤ Statistics.attendance_records stat →
             0 ≤ Statistics.courseAttendanceRate stat ≤ 10000)
  ∧ (∀ stat, 0 ≤ Statistics.cr_currentStudents stat ≤ Statistics.cr_maxStudents stat →
             0 ≤ Statistics.enrollmentRate stat ≤ 10000)
  ∧ (∀ stat, 0 ≤ Statistics.pr_usedHours stat ≤ Statistics.pr_totalHours stat →
             0 ≤ Statistics.usageRate stat ≤ 10000).
Proof.
  split; [| split; [| split; [| split]]]; intros stat H; by apply rate_bounds.
Qed.

(** Two of three records present: 66.67. *)
Lemma report_rates_bounded_witness :
  Statistics.attendanceRate (Statistics.mkAttendanceRow 3 2) = 6667
  ∧ 0 ≤ Statistics.attendanceRate (Statistics.mkAttendanceRow 3 2) ≤ 10000.
Proof.
  split; [vm_compute; reflexivity |].
  apply (proj1 report_rates_bounded (Statistics.mkAttendanceRow 3 2)). simpl. lia.
Defined.

(** ** The overviews of packages and payments *)









